(** * AroMi AI Agent API: a shallow embedding of [main.py]

  The three POST handlers of the FastAPI application
  ([generate_content], [get_fitness_plan], [get_disease_diet]) are
  embedded as computations in a small state-and-exception monad over a
  store of Python objects (lists and dicts).  The knowledge tables are
  allocated in that store by the handlers themselves, exactly where the
  source builds them, so aliasing between [selected_plan] and the tables
  is visible in the model.

  Conventions of the embedding:
  - a Python [str] is modelled by its UTF-8 encoding ([String.string]);
    the only needles ever searched for are ASCII, so substring tests and
    [str.replace] agree on code points and on bytes;
  - [str.lower] is the lower-casing of the Unicode character database
    (14.0, the tables of CPython 3.11), character by character, with the
    final form of the Greek sigma; bytes that are not well-formed UTF-8
    are kept;
  - a Python [int] is a [Z]; a Python [float] is an IEEE 754 binary64
    value ([spec_float] at precision 53, [emax] 1024, round to nearest
    even), with the exceptions CPython raises written out. *)

From Stdlib Require Import ZArith NArith List String Ascii Bool Lia.
From Stdlib Require Import Floats.SpecFloat.
Import ListNotations.

Local Open Scope string_scope.
Local Open Scope list_scope.

(** ** Python exceptions and results *)

Inductive exn : Type :=
| ZeroDivisionError (msg : string)
| OverflowError (msg : string)
| KeyError (key : string)
| TypeError (msg : string)
| SystemError (msg : string).

(** [str(e)] *)
Definition str_exn (e : exn) : string :=
match e with
| ZeroDivisionError msg => msg
| OverflowError msg => msg
| KeyError key => "'" ++ key ++ "'"
| TypeError msg => msg
| SystemError msg => msg
end.

Inductive result (A : Type) : Type :=
| Ok (a : A)
| Raise (e : exn).
Arguments Ok {A} a.
Arguments Raise {A} e.

Definition map_result {A B : Type} (f : A -> B) (r : result A) : result B :=
match r with
| Ok a => Ok (f a)
| Raise e => Raise e
end.

(** ** Strings *)

Module PyStr.

(** *** The characters of a string

    A [str] is a sequence of code points; its model is the UTF-8 encoding
    of that sequence.  [chars] cuts the encoding back into characters: a
    lead byte takes the continuation bytes it announces. *)

Definition is_ascii (c : ascii) : bool :=
match c with
| Ascii _ _ _ _ _ _ _ b7 => negb b7
end.

Definition is_continuation (c : ascii) : bool :=
match c with
| Ascii _ _ _ _ _ _ b6 b7 => b7 && negb b6
end.

(** The number of continuation bytes a lead byte announces. *)
Definition tail_length (c : ascii) : nat :=
match c with
| Ascii _ _ _ _ b4 b5 b6 b7 =>
    if b7 && b6 then (if b5 then (if b4 then 3 else 2) else 1)%nat else 0%nat
end.

Definition continuation_char (x : string) : bool :=
match x with
| String c EmptyString => is_continuation c
| _ => false
end.

(** A character in the making takes up to [k] of the continuation bytes
    that follow it. *)
Fixpoint absorb (k : nat) (acc : string) (l : list string) : list string :=
match k, l with
| S k', x :: l' =>
    if continuation_char x then absorb k' (acc ++ x) l' else acc :: l
| _, _ => acc :: l
end.

Fixpoint chars (s : string) : list string :=
match s with
| EmptyString => []
| String c s' => absorb (tail_length c) (String c EmptyString) (chars s')
end.

(** The code point of a well-formed character. *)
Definition payload (c : ascii) : N := N.land (N_of_ascii c) 63.

Definition code_point (c : string) : option N :=
match c with
| String a EmptyString =>
    if is_ascii a then Some (N_of_ascii a) else None
| String a (String b EmptyString) =>
    if (tail_length a =? 1)%nat
    then Some (N.land (N_of_ascii a) 31 * 64 + payload b)%N
    else None
| String a (String b (String c EmptyString)) =>
    if (tail_length a =? 2)%nat
    then Some (N.land (N_of_ascii a) 15 * 4096 + payload b * 64 + payload c)%N
    else None
| String a (String b (String c (String d EmptyString))) =>
    if (tail_length a =? 3)%nat
    then Some (N.land (N_of_ascii a) 7 * 262144 + payload b * 4096
               + payload c * 64 + payload d)%N
    else None
| _ => None
end.

(** *** The case tables of the Unicode character database (14.0)

    [lower_table] lists every character other than A-Z whose lower-case
    form differs from it; [cased_ranges] and [case_ignorable_ranges] are
    the properties Cased and Case_Ignorable, as ranges of code points. *)

Definition lower_latin : list (string * string) :=
[("À", "à"); ("Á", "á"); ("Â", "â"); ("Ã", "ã"); ("Ä", "ä"); ("Å", "å");
("Æ", "æ"); ("Ç", "ç"); ("È", "è"); ("É", "é"); ("Ê", "ê"); ("Ë", "ë");
("Ì", "ì"); ("Í", "í"); ("Î", "î"); ("Ï", "ï"); ("Ð", "ð"); ("Ñ", "ñ");
("Ò", "ò"); ("Ó", "ó"); ("Ô", "ô"); ("Õ", "õ"); ("Ö", "ö"); ("Ø", "ø");
("Ù", "ù"); ("Ú", "ú"); ("Û", "û"); ("Ü", "ü"); ("Ý", "ý"); ("Þ", "þ");
("Ā", "ā"); ("Ă", "ă"); ("Ą", "ą"); ("Ć", "ć"); ("Ĉ", "ĉ"); ("Ċ", "ċ");
("Č", "č"); ("Ď", "ď"); ("Đ", "đ"); ("Ē", "ē"); ("Ĕ", "ĕ"); ("Ė", "ė");
("Ę", "ę"); ("Ě", "ě"); ("Ĝ", "ĝ"); ("Ğ", "ğ"); ("Ġ", "ġ"); ("Ģ", "ģ");
("Ĥ", "ĥ"); ("Ħ", "ħ"); ("Ĩ", "ĩ"); ("Ī", "ī"); ("Ĭ", "ĭ"); ("Į", "į");
("İ", "i̇"); ("Ĳ", "ĳ"); ("Ĵ", "ĵ"); ("Ķ", "ķ"); ("Ĺ", "ĺ"); ("Ļ", "ļ");
("Ľ", "ľ"); ("Ŀ", "ŀ"); ("Ł", "ł"); ("Ń", "ń"); ("Ņ", "ņ"); ("Ň", "ň");
("Ŋ", "ŋ"); ("Ō", "ō"); ("Ŏ", "ŏ"); ("Ő", "ő"); ("Œ", "œ"); ("Ŕ", "ŕ");
("Ŗ", "ŗ"); ("Ř", "ř"); ("Ś", "ś"); ("Ŝ", "ŝ"); ("Ş", "ş"); ("Š", "š");
("Ţ", "ţ"); ("Ť", "ť"); ("Ŧ", "ŧ"); ("Ũ", "ũ"); ("Ū", "ū"); ("Ŭ", "ŭ");
("Ů", "ů"); ("Ű", "ű"); ("Ų", "ų"); ("Ŵ", "ŵ"); ("Ŷ", "ŷ"); ("Ÿ", "ÿ");
("Ź", "ź"); ("Ż", "ż"); ("Ž", "ž"); ("Ɓ", "ɓ"); ("Ƃ", "ƃ"); ("Ƅ", "ƅ");
("Ɔ", "ɔ"); ("Ƈ", "ƈ"); ("Ɖ", "ɖ"); ("Ɗ", "ɗ"); ("Ƌ", "ƌ"); ("Ǝ", "ǝ");
("Ə", "ə"); ("Ɛ", "ɛ"); ("Ƒ", "ƒ"); ("Ɠ", "ɠ"); ("Ɣ", "ɣ"); ("Ɩ", "ɩ");
("Ɨ", "ɨ"); ("Ƙ", "ƙ"); ("Ɯ", "ɯ"); ("Ɲ", "ɲ"); ("Ɵ", "ɵ"); ("Ơ", "ơ");
("Ƣ", "ƣ"); ("Ƥ", "ƥ"); ("Ʀ", "ʀ"); ("Ƨ", "ƨ"); ("Ʃ", "ʃ"); ("Ƭ", "ƭ");
("Ʈ", "ʈ"); ("Ư", "ư"); ("Ʊ", "ʊ"); ("Ʋ", "ʋ"); ("Ƴ", "ƴ"); ("Ƶ", "ƶ");
("Ʒ", "ʒ"); ("Ƹ", "ƹ"); ("Ƽ", "ƽ"); ("Ǆ", "ǆ"); ("ǅ", "ǆ"); ("Ǉ", "ǉ");
("ǈ", "ǉ"); ("Ǌ", "ǌ"); ("ǋ", "ǌ"); ("Ǎ", "ǎ"); ("Ǐ", "ǐ"); ("Ǒ", "ǒ");
("Ǔ", "ǔ"); ("Ǖ", "ǖ"); ("Ǘ", "ǘ"); ("Ǚ", "ǚ"); ("Ǜ", "ǜ"); ("Ǟ", "ǟ");
("Ǡ", "ǡ"); ("Ǣ", "ǣ"); ("Ǥ", "ǥ"); ("Ǧ", "ǧ"); ("Ǩ", "ǩ"); ("Ǫ", "ǫ");
("Ǭ", "ǭ"); ("Ǯ", "ǯ"); ("Ǳ", "ǳ"); ("ǲ", "ǳ"); ("Ǵ", "ǵ"); ("Ƕ", "ƕ");
("Ƿ", "ƿ"); ("Ǹ", "ǹ"); ("Ǻ", "ǻ"); ("Ǽ", "ǽ"); ("Ǿ", "ǿ"); ("Ȁ", "ȁ");
("Ȃ", "ȃ"); ("Ȅ", "ȅ"); ("Ȇ", "ȇ"); ("Ȉ", "ȉ"); ("Ȋ", "ȋ"); ("Ȍ", "ȍ");
("Ȏ", "ȏ"); ("Ȑ", "ȑ"); ("Ȓ", "ȓ"); ("Ȕ", "ȕ"); ("Ȗ", "ȗ"); ("Ș", "ș");
("Ț", "ț"); ("Ȝ", "ȝ"); ("Ȟ", "ȟ"); ("Ƞ", "ƞ"); ("Ȣ", "ȣ"); ("Ȥ", "ȥ");
("Ȧ", "ȧ"); ("Ȩ", "ȩ"); ("Ȫ", "ȫ"); ("Ȭ", "ȭ"); ("Ȯ", "ȯ"); ("Ȱ", "ȱ");
("Ȳ", "ȳ"); ("Ⱥ", "ⱥ"); ("Ȼ", "ȼ"); ("Ƚ", "ƚ"); ("Ⱦ", "ⱦ"); ("Ɂ", "ɂ");
("Ƀ", "ƀ"); ("Ʉ", "ʉ"); ("Ʌ", "ʌ"); ("Ɇ", "ɇ"); ("Ɉ", "ɉ"); ("Ɋ", "ɋ");
("Ɍ", "ɍ"); ("Ɏ", "ɏ")].

Definition lower_greek : list (string * string) :=
[("Ͱ", "ͱ"); ("Ͳ", "ͳ"); ("Ͷ", "ͷ"); ("Ϳ", "ϳ"); ("Ά", "ά"); ("Έ", "έ");
("Ή", "ή"); ("Ί", "ί"); ("Ό", "ό"); ("Ύ", "ύ"); ("Ώ", "ώ"); ("Α", "α");
("Β", "β"); ("Γ", "γ"); ("Δ", "δ"); ("Ε", "ε"); ("Ζ", "ζ"); ("Η", "η");
("Θ", "θ"); ("Ι", "ι"); ("Κ", "κ"); ("Λ", "λ"); ("Μ", "μ"); ("Ν", "ν");
("Ξ", "ξ"); ("Ο", "ο"); ("Π", "π"); ("Ρ", "ρ"); ("Σ", "σ"); ("Τ", "τ");
("Υ", "υ"); ("Φ", "φ"); ("Χ", "χ"); ("Ψ", "ψ"); ("Ω", "ω"); ("Ϊ", "ϊ");
("Ϋ", "ϋ"); ("Ϗ", "ϗ"); ("Ϙ", "ϙ"); ("Ϛ", "ϛ"); ("Ϝ", "ϝ"); ("Ϟ", "ϟ");
("Ϡ", "ϡ"); ("Ϣ", "ϣ"); ("Ϥ", "ϥ"); ("Ϧ", "ϧ"); ("Ϩ", "ϩ"); ("Ϫ", "ϫ");
("Ϭ", "ϭ"); ("Ϯ", "ϯ"); ("ϴ", "θ"); ("Ϸ", "ϸ"); ("Ϲ", "ϲ"); ("Ϻ", "ϻ");
("Ͻ", "ͻ"); ("Ͼ", "ͼ"); ("Ͽ", "ͽ")].

Definition lower_cyrillic : list (string * string) :=
[("Ѐ", "ѐ"); ("Ё", "ё"); ("Ђ", "ђ"); ("Ѓ", "ѓ"); ("Є", "є"); ("Ѕ", "ѕ");
("І", "і"); ("Ї", "ї"); ("Ј", "ј"); ("Љ", "љ"); ("Њ", "њ"); ("Ћ", "ћ");
("Ќ", "ќ"); ("Ѝ", "ѝ"); ("Ў", "ў"); ("Џ", "џ"); ("А", "а"); ("Б", "б");
("В", "в"); ("Г", "г"); ("Д", "д"); ("Е", "е"); ("Ж", "ж"); ("З", "з");
("И", "и"); ("Й", "й"); ("К", "к"); ("Л", "л"); ("М", "м"); ("Н", "н");
("О", "о"); ("П", "п"); ("Р", "р"); ("С", "с"); ("Т", "т"); ("У", "у");
("Ф", "ф"); ("Х", "х"); ("Ц", "ц"); ("Ч", "ч"); ("Ш", "ш"); ("Щ", "щ");
("Ъ", "ъ"); ("Ы", "ы"); ("Ь", "ь"); ("Э", "э"); ("Ю", "ю"); ("Я", "я");
("Ѡ", "ѡ"); ("Ѣ", "ѣ"); ("Ѥ", "ѥ"); ("Ѧ", "ѧ"); ("Ѩ", "ѩ"); ("Ѫ", "ѫ");
("Ѭ", "ѭ"); ("Ѯ", "ѯ"); ("Ѱ", "ѱ"); ("Ѳ", "ѳ"); ("Ѵ", "ѵ"); ("Ѷ", "ѷ");
("Ѹ", "ѹ"); ("Ѻ", "ѻ"); ("Ѽ", "ѽ"); ("Ѿ", "ѿ"); ("Ҁ", "ҁ"); ("Ҋ", "ҋ");
("Ҍ", "ҍ"); ("Ҏ", "ҏ"); ("Ґ", "ґ"); ("Ғ", "ғ"); ("Ҕ", "ҕ"); ("Җ", "җ");
("Ҙ", "ҙ"); ("Қ", "қ"); ("Ҝ", "ҝ"); ("Ҟ", "ҟ"); ("Ҡ", "ҡ"); ("Ң", "ң");
("Ҥ", "ҥ"); ("Ҧ", "ҧ"); ("Ҩ", "ҩ"); ("Ҫ", "ҫ"); ("Ҭ", "ҭ"); ("Ү", "ү");
("Ұ", "ұ"); ("Ҳ", "ҳ"); ("Ҵ", "ҵ"); ("Ҷ", "ҷ"); ("Ҹ", "ҹ"); ("Һ", "һ");
("Ҽ", "ҽ"); ("Ҿ", "ҿ"); ("Ӏ", "ӏ"); ("Ӂ", "ӂ"); ("Ӄ", "ӄ"); ("Ӆ", "ӆ");
("Ӈ", "ӈ"); ("Ӊ", "ӊ"); ("Ӌ", "ӌ"); ("Ӎ", "ӎ"); ("Ӑ", "ӑ"); ("Ӓ", "ӓ");
("Ӕ", "ӕ"); ("Ӗ", "ӗ"); ("Ә", "ә"); ("Ӛ", "ӛ"); ("Ӝ", "ӝ"); ("Ӟ", "ӟ");
("Ӡ", "ӡ"); ("Ӣ", "ӣ"); ("Ӥ", "ӥ"); ("Ӧ", "ӧ"); ("Ө", "ө"); ("Ӫ", "ӫ");
("Ӭ", "ӭ"); ("Ӯ", "ӯ"); ("Ӱ", "ӱ"); ("Ӳ", "ӳ"); ("Ӵ", "ӵ"); ("Ӷ", "ӷ");
("Ӹ", "ӹ"); ("Ӻ", "ӻ"); ("Ӽ", "ӽ"); ("Ӿ", "ӿ"); ("Ԁ", "ԁ"); ("Ԃ", "ԃ");
("Ԅ", "ԅ"); ("Ԇ", "ԇ"); ("Ԉ", "ԉ"); ("Ԋ", "ԋ"); ("Ԍ", "ԍ"); ("Ԏ", "ԏ");
("Ԑ", "ԑ"); ("Ԓ", "ԓ"); ("Ԕ", "ԕ"); ("Ԗ", "ԗ"); ("Ԙ", "ԙ"); ("Ԛ", "ԛ");
("Ԝ", "ԝ"); ("Ԟ", "ԟ"); ("Ԡ", "ԡ"); ("Ԣ", "ԣ"); ("Ԥ", "ԥ"); ("Ԧ", "ԧ");
("Ԩ", "ԩ"); ("Ԫ", "ԫ"); ("Ԭ", "ԭ"); ("Ԯ", "ԯ")].

Definition lower_armenian_georgian_cherokee : list (string * string) :=
[("Ա", "ա"); ("Բ", "բ"); ("Գ", "գ"); ("Դ", "դ"); ("Ե", "ե"); ("Զ", "զ");
("Է", "է"); ("Ը", "ը"); ("Թ", "թ"); ("Ժ", "ժ"); ("Ի", "ի"); ("Լ", "լ");
("Խ", "խ"); ("Ծ", "ծ"); ("Կ", "կ"); ("Հ", "հ"); ("Ձ", "ձ"); ("Ղ", "ղ");
("Ճ", "ճ"); ("Մ", "մ"); ("Յ", "յ"); ("Ն", "ն"); ("Շ", "շ"); ("Ո", "ո");
("Չ", "չ"); ("Պ", "պ"); ("Ջ", "ջ"); ("Ռ", "ռ"); ("Ս", "ս"); ("Վ", "վ");
("Տ", "տ"); ("Ր", "ր"); ("Ց", "ց"); ("Ւ", "ւ"); ("Փ", "փ"); ("Ք", "ք");
("Օ", "օ"); ("Ֆ", "ֆ"); ("Ⴀ", "ⴀ"); ("Ⴁ", "ⴁ"); ("Ⴂ", "ⴂ"); ("Ⴃ", "ⴃ");
("Ⴄ", "ⴄ"); ("Ⴅ", "ⴅ"); ("Ⴆ", "ⴆ"); ("Ⴇ", "ⴇ"); ("Ⴈ", "ⴈ"); ("Ⴉ", "ⴉ");
("Ⴊ", "ⴊ"); ("Ⴋ", "ⴋ"); ("Ⴌ", "ⴌ"); ("Ⴍ", "ⴍ"); ("Ⴎ", "ⴎ"); ("Ⴏ", "ⴏ");
("Ⴐ", "ⴐ"); ("Ⴑ", "ⴑ"); ("Ⴒ", "ⴒ"); ("Ⴓ", "ⴓ"); ("Ⴔ", "ⴔ"); ("Ⴕ", "ⴕ");
("Ⴖ", "ⴖ"); ("Ⴗ", "ⴗ"); ("Ⴘ", "ⴘ"); ("Ⴙ", "ⴙ"); ("Ⴚ", "ⴚ"); ("Ⴛ", "ⴛ");
("Ⴜ", "ⴜ"); ("Ⴝ", "ⴝ"); ("Ⴞ", "ⴞ"); ("Ⴟ", "ⴟ"); ("Ⴠ", "ⴠ"); ("Ⴡ", "ⴡ");
("Ⴢ", "ⴢ"); ("Ⴣ", "ⴣ"); ("Ⴤ", "ⴤ"); ("Ⴥ", "ⴥ"); ("Ⴧ", "ⴧ"); ("Ⴭ", "ⴭ");
("Ꭰ", "ꭰ"); ("Ꭱ", "ꭱ"); ("Ꭲ", "ꭲ"); ("Ꭳ", "ꭳ"); ("Ꭴ", "ꭴ"); ("Ꭵ", "ꭵ");
("Ꭶ", "ꭶ"); ("Ꭷ", "ꭷ"); ("Ꭸ", "ꭸ"); ("Ꭹ", "ꭹ"); ("Ꭺ", "ꭺ"); ("Ꭻ", "ꭻ");
("Ꭼ", "ꭼ"); ("Ꭽ", "ꭽ"); ("Ꭾ", "ꭾ"); ("Ꭿ", "ꭿ"); ("Ꮀ", "ꮀ"); ("Ꮁ", "ꮁ");
("Ꮂ", "ꮂ"); ("Ꮃ", "ꮃ"); ("Ꮄ", "ꮄ"); ("Ꮅ", "ꮅ"); ("Ꮆ", "ꮆ"); ("Ꮇ", "ꮇ");
("Ꮈ", "ꮈ"); ("Ꮉ", "ꮉ"); ("Ꮊ", "ꮊ"); ("Ꮋ", "ꮋ"); ("Ꮌ", "ꮌ"); ("Ꮍ", "ꮍ");
("Ꮎ", "ꮎ"); ("Ꮏ", "ꮏ"); ("Ꮐ", "ꮐ"); ("Ꮑ", "ꮑ"); ("Ꮒ", "ꮒ"); ("Ꮓ", "ꮓ");
("Ꮔ", "ꮔ"); ("Ꮕ", "ꮕ"); ("Ꮖ", "ꮖ"); ("Ꮗ", "ꮗ"); ("Ꮘ", "ꮘ"); ("Ꮙ", "ꮙ");
("Ꮚ", "ꮚ"); ("Ꮛ", "ꮛ"); ("Ꮜ", "ꮜ"); ("Ꮝ", "ꮝ"); ("Ꮞ", "ꮞ"); ("Ꮟ", "ꮟ");
("Ꮠ", "ꮠ"); ("Ꮡ", "ꮡ"); ("Ꮢ", "ꮢ"); ("Ꮣ", "ꮣ"); ("Ꮤ", "ꮤ"); ("Ꮥ", "ꮥ");
("Ꮦ", "ꮦ"); ("Ꮧ", "ꮧ"); ("Ꮨ", "ꮨ"); ("Ꮩ", "ꮩ"); ("Ꮪ", "ꮪ"); ("Ꮫ", "ꮫ");
("Ꮬ", "ꮬ"); ("Ꮭ", "ꮭ"); ("Ꮮ", "ꮮ"); ("Ꮯ", "ꮯ"); ("Ꮰ", "ꮰ"); ("Ꮱ", "ꮱ");
("Ꮲ", "ꮲ"); ("Ꮳ", "ꮳ"); ("Ꮴ", "ꮴ"); ("Ꮵ", "ꮵ"); ("Ꮶ", "ꮶ"); ("Ꮷ", "ꮷ");
("Ꮸ", "ꮸ"); ("Ꮹ", "ꮹ"); ("Ꮺ", "ꮺ"); ("Ꮻ", "ꮻ"); ("Ꮼ", "ꮼ"); ("Ꮽ", "ꮽ");
("Ꮾ", "ꮾ"); ("Ꮿ", "ꮿ"); ("Ᏸ", "ᏸ"); ("Ᏹ", "ᏹ"); ("Ᏺ", "ᏺ"); ("Ᏻ", "ᏻ");
("Ᏼ", "ᏼ"); ("Ᏽ", "ᏽ"); ("Ა", "ა"); ("Ბ", "ბ"); ("Გ", "გ"); ("Დ", "დ");
("Ე", "ე"); ("Ვ", "ვ"); ("Ზ", "ზ"); ("Თ", "თ"); ("Ი", "ი"); ("Კ", "კ");
("Ლ", "ლ"); ("Მ", "მ"); ("Ნ", "ნ"); ("Ო", "ო"); ("Პ", "პ"); ("Ჟ", "ჟ");
("Რ", "რ"); ("Ს", "ს"); ("Ტ", "ტ"); ("Უ", "უ"); ("Ფ", "ფ"); ("Ქ", "ქ");
("Ღ", "ღ"); ("Ყ", "ყ"); ("Შ", "შ"); ("Ჩ", "ჩ"); ("Ც", "ც"); ("Ძ", "ძ");
("Წ", "წ"); ("Ჭ", "ჭ"); ("Ხ", "ხ"); ("Ჯ", "ჯ"); ("Ჰ", "ჰ"); ("Ჱ", "ჱ");
("Ჲ", "ჲ"); ("Ჳ", "ჳ"); ("Ჴ", "ჴ"); ("Ჵ", "ჵ"); ("Ჶ", "ჶ"); ("Ჷ", "ჷ");
("Ჸ", "ჸ"); ("Ჹ", "ჹ"); ("Ჺ", "ჺ"); ("Ჽ", "ჽ"); ("Ჾ", "ჾ"); ("Ჿ", "ჿ")].

Definition lower_latin_additional : list (string * string) :=
[("Ḁ", "ḁ"); ("Ḃ", "ḃ"); ("Ḅ", "ḅ"); ("Ḇ", "ḇ"); ("Ḉ", "ḉ"); ("Ḋ", "ḋ");
("Ḍ", "ḍ"); ("Ḏ", "ḏ"); ("Ḑ", "ḑ"); ("Ḓ", "ḓ"); ("Ḕ", "ḕ"); ("Ḗ", "ḗ");
("Ḙ", "ḙ"); ("Ḛ", "ḛ"); ("Ḝ", "ḝ"); ("Ḟ", "ḟ"); ("Ḡ", "ḡ"); ("Ḣ", "ḣ");
("Ḥ", "ḥ"); ("Ḧ", "ḧ"); ("Ḩ", "ḩ"); ("Ḫ", "ḫ"); ("Ḭ", "ḭ"); ("Ḯ", "ḯ");
("Ḱ", "ḱ"); ("Ḳ", "ḳ"); ("Ḵ", "ḵ"); ("Ḷ", "ḷ"); ("Ḹ", "ḹ"); ("Ḻ", "ḻ");
("Ḽ", "ḽ"); ("Ḿ", "ḿ"); ("Ṁ", "ṁ"); ("Ṃ", "ṃ"); ("Ṅ", "ṅ"); ("Ṇ", "ṇ");
("Ṉ", "ṉ"); ("Ṋ", "ṋ"); ("Ṍ", "ṍ"); ("Ṏ", "ṏ"); ("Ṑ", "ṑ"); ("Ṓ", "ṓ");
("Ṕ", "ṕ"); ("Ṗ", "ṗ"); ("Ṙ", "ṙ"); ("Ṛ", "ṛ"); ("Ṝ", "ṝ"); ("Ṟ", "ṟ");
("Ṡ", "ṡ"); ("Ṣ", "ṣ"); ("Ṥ", "ṥ"); ("Ṧ", "ṧ"); ("Ṩ", "ṩ"); ("Ṫ", "ṫ");
("Ṭ", "ṭ"); ("Ṯ", "ṯ"); ("Ṱ", "ṱ"); ("Ṳ", "ṳ"); ("Ṵ", "ṵ"); ("Ṷ", "ṷ");
("Ṹ", "ṹ"); ("Ṻ", "ṻ"); ("Ṽ", "ṽ"); ("Ṿ", "ṿ"); ("Ẁ", "ẁ"); ("Ẃ", "ẃ");
("Ẅ", "ẅ"); ("Ẇ", "ẇ"); ("Ẉ", "ẉ"); ("Ẋ", "ẋ"); ("Ẍ", "ẍ"); ("Ẏ", "ẏ");
("Ẑ", "ẑ"); ("Ẓ", "ẓ"); ("Ẕ", "ẕ"); ("ẞ", "ß"); ("Ạ", "ạ"); ("Ả", "ả");
("Ấ", "ấ"); ("Ầ", "ầ"); ("Ẩ", "ẩ"); ("Ẫ", "ẫ"); ("Ậ", "ậ"); ("Ắ", "ắ");
("Ằ", "ằ"); ("Ẳ", "ẳ"); ("Ẵ", "ẵ"); ("Ặ", "ặ"); ("Ẹ", "ẹ"); ("Ẻ", "ẻ");
("Ẽ", "ẽ"); ("Ế", "ế"); ("Ề", "ề"); ("Ể", "ể"); ("Ễ", "ễ"); ("Ệ", "ệ");
("Ỉ", "ỉ"); ("Ị", "ị"); ("Ọ", "ọ"); ("Ỏ", "ỏ"); ("Ố", "ố"); ("Ồ", "ồ");
("Ổ", "ổ"); ("Ỗ", "ỗ"); ("Ộ", "ộ"); ("Ớ", "ớ"); ("Ờ", "ờ"); ("Ở", "ở");
("Ỡ", "ỡ"); ("Ợ", "ợ"); ("Ụ", "ụ"); ("Ủ", "ủ"); ("Ứ", "ứ"); ("Ừ", "ừ");
("Ử", "ử"); ("Ữ", "ữ"); ("Ự", "ự"); ("Ỳ", "ỳ"); ("Ỵ", "ỵ"); ("Ỷ", "ỷ");
("Ỹ", "ỹ"); ("Ỻ", "ỻ"); ("Ỽ", "ỽ"); ("Ỿ", "ỿ")].

Definition lower_greek_extended : list (string * string) :=
[("Ἀ", "ἀ"); ("Ἁ", "ἁ"); ("Ἂ", "ἂ"); ("Ἃ", "ἃ"); ("Ἄ", "ἄ"); ("Ἅ", "ἅ");
("Ἆ", "ἆ"); ("Ἇ", "ἇ"); ("Ἐ", "ἐ"); ("Ἑ", "ἑ"); ("Ἒ", "ἒ"); ("Ἓ", "ἓ");
("Ἔ", "ἔ"); ("Ἕ", "ἕ"); ("Ἠ", "ἠ"); ("Ἡ", "ἡ"); ("Ἢ", "ἢ"); ("Ἣ", "ἣ");
("Ἤ", "ἤ"); ("Ἥ", "ἥ"); ("Ἦ", "ἦ"); ("Ἧ", "ἧ"); ("Ἰ", "ἰ"); ("Ἱ", "ἱ");
("Ἲ", "ἲ"); ("Ἳ", "ἳ"); ("Ἴ", "ἴ"); ("Ἵ", "ἵ"); ("Ἶ", "ἶ"); ("Ἷ", "ἷ");
("Ὀ", "ὀ"); ("Ὁ", "ὁ"); ("Ὂ", "ὂ"); ("Ὃ", "ὃ"); ("Ὄ", "ὄ"); ("Ὅ", "ὅ");
("Ὑ", "ὑ"); ("Ὓ", "ὓ"); ("Ὕ", "ὕ"); ("Ὗ", "ὗ"); ("Ὠ", "ὠ"); ("Ὡ", "ὡ");
("Ὢ", "ὢ"); ("Ὣ", "ὣ"); ("Ὤ", "ὤ"); ("Ὥ", "ὥ"); ("Ὦ", "ὦ"); ("Ὧ", "ὧ");
("ᾈ", "ᾀ"); ("ᾉ", "ᾁ"); ("ᾊ", "ᾂ"); ("ᾋ", "ᾃ"); ("ᾌ", "ᾄ"); ("ᾍ", "ᾅ");
("ᾎ", "ᾆ"); ("ᾏ", "ᾇ"); ("ᾘ", "ᾐ"); ("ᾙ", "ᾑ"); ("ᾚ", "ᾒ"); ("ᾛ", "ᾓ");
("ᾜ", "ᾔ"); ("ᾝ", "ᾕ"); ("ᾞ", "ᾖ"); ("ᾟ", "ᾗ"); ("ᾨ", "ᾠ"); ("ᾩ", "ᾡ");
("ᾪ", "ᾢ"); ("ᾫ", "ᾣ"); ("ᾬ", "ᾤ"); ("ᾭ", "ᾥ"); ("ᾮ", "ᾦ"); ("ᾯ", "ᾧ");
("Ᾰ", "ᾰ"); ("Ᾱ", "ᾱ"); ("Ὰ", "ὰ"); ("Ά", "ά"); ("ᾼ", "ᾳ"); ("Ὲ", "ὲ");
("Έ", "έ"); ("Ὴ", "ὴ"); ("Ή", "ή"); ("ῌ", "ῃ"); ("Ῐ", "ῐ"); ("Ῑ", "ῑ");
("Ὶ", "ὶ"); ("Ί", "ί"); ("Ῠ", "ῠ"); ("Ῡ", "ῡ"); ("Ὺ", "ὺ"); ("Ύ", "ύ");
("Ῥ", "ῥ"); ("Ὸ", "ὸ"); ("Ό", "ό"); ("Ὼ", "ὼ"); ("Ώ", "ώ"); ("ῼ", "ῳ")].

Definition lower_symbols : list (string * string) :=
[("Ω", "ω"); ("K", "k"); ("Å", "å"); ("Ⅎ", "ⅎ"); ("Ⅰ", "ⅰ"); ("Ⅱ", "ⅱ");
("Ⅲ", "ⅲ"); ("Ⅳ", "ⅳ"); ("Ⅴ", "ⅴ"); ("Ⅵ", "ⅵ"); ("Ⅶ", "ⅶ"); ("Ⅷ", "ⅷ");
("Ⅸ", "ⅸ"); ("Ⅹ", "ⅹ"); ("Ⅺ", "ⅺ"); ("Ⅻ", "ⅻ"); ("Ⅼ", "ⅼ"); ("Ⅽ", "ⅽ");
("Ⅾ", "ⅾ"); ("Ⅿ", "ⅿ"); ("Ↄ", "ↄ"); ("Ⓐ", "ⓐ"); ("Ⓑ", "ⓑ"); ("Ⓒ", "ⓒ");
("Ⓓ", "ⓓ"); ("Ⓔ", "ⓔ"); ("Ⓕ", "ⓕ"); ("Ⓖ", "ⓖ"); ("Ⓗ", "ⓗ"); ("Ⓘ", "ⓘ");
("Ⓙ", "ⓙ"); ("Ⓚ", "ⓚ"); ("Ⓛ", "ⓛ"); ("Ⓜ", "ⓜ"); ("Ⓝ", "ⓝ"); ("Ⓞ", "ⓞ");
("Ⓟ", "ⓟ"); ("Ⓠ", "ⓠ"); ("Ⓡ", "ⓡ"); ("Ⓢ", "ⓢ"); ("Ⓣ", "ⓣ"); ("Ⓤ", "ⓤ");
("Ⓥ", "ⓥ"); ("Ⓦ", "ⓦ"); ("Ⓧ", "ⓧ"); ("Ⓨ", "ⓨ"); ("Ⓩ", "ⓩ")].

Definition lower_glagolitic_coptic : list (string * string) :=
[("Ⰰ", "ⰰ"); ("Ⰱ", "ⰱ"); ("Ⰲ", "ⰲ"); ("Ⰳ", "ⰳ"); ("Ⰴ", "ⰴ"); ("Ⰵ", "ⰵ");
("Ⰶ", "ⰶ"); ("Ⰷ", "ⰷ"); ("Ⰸ", "ⰸ"); ("Ⰹ", "ⰹ"); ("Ⰺ", "ⰺ"); ("Ⰻ", "ⰻ");
("Ⰼ", "ⰼ"); ("Ⰽ", "ⰽ"); ("Ⰾ", "ⰾ"); ("Ⰿ", "ⰿ"); ("Ⱀ", "ⱀ"); ("Ⱁ", "ⱁ");
("Ⱂ", "ⱂ"); ("Ⱃ", "ⱃ"); ("Ⱄ", "ⱄ"); ("Ⱅ", "ⱅ"); ("Ⱆ", "ⱆ"); ("Ⱇ", "ⱇ");
("Ⱈ", "ⱈ"); ("Ⱉ", "ⱉ"); ("Ⱊ", "ⱊ"); ("Ⱋ", "ⱋ"); ("Ⱌ", "ⱌ"); ("Ⱍ", "ⱍ");
("Ⱎ", "ⱎ"); ("Ⱏ", "ⱏ"); ("Ⱐ", "ⱐ"); ("Ⱑ", "ⱑ"); ("Ⱒ", "ⱒ"); ("Ⱓ", "ⱓ");
("Ⱔ", "ⱔ"); ("Ⱕ", "ⱕ"); ("Ⱖ", "ⱖ"); ("Ⱗ", "ⱗ"); ("Ⱘ", "ⱘ"); ("Ⱙ", "ⱙ");
("Ⱚ", "ⱚ"); ("Ⱛ", "ⱛ"); ("Ⱜ", "ⱜ"); ("Ⱝ", "ⱝ"); ("Ⱞ", "ⱞ"); ("Ⱟ", "ⱟ");
("Ⱡ", "ⱡ"); ("Ɫ", "ɫ"); ("Ᵽ", "ᵽ"); ("Ɽ", "ɽ"); ("Ⱨ", "ⱨ"); ("Ⱪ", "ⱪ");
("Ⱬ", "ⱬ"); ("Ɑ", "ɑ"); ("Ɱ", "ɱ"); ("Ɐ", "ɐ"); ("Ɒ", "ɒ"); ("Ⱳ", "ⱳ");
("Ⱶ", "ⱶ"); ("Ȿ", "ȿ"); ("Ɀ", "ɀ"); ("Ⲁ", "ⲁ"); ("Ⲃ", "ⲃ"); ("Ⲅ", "ⲅ");
("Ⲇ", "ⲇ"); ("Ⲉ", "ⲉ"); ("Ⲋ", "ⲋ"); ("Ⲍ", "ⲍ"); ("Ⲏ", "ⲏ"); ("Ⲑ", "ⲑ");
("Ⲓ", "ⲓ"); ("Ⲕ", "ⲕ"); ("Ⲗ", "ⲗ"); ("Ⲙ", "ⲙ"); ("Ⲛ", "ⲛ"); ("Ⲝ", "ⲝ");
("Ⲟ", "ⲟ"); ("Ⲡ", "ⲡ"); ("Ⲣ", "ⲣ"); ("Ⲥ", "ⲥ"); ("Ⲧ", "ⲧ"); ("Ⲩ", "ⲩ");
("Ⲫ", "ⲫ"); ("Ⲭ", "ⲭ"); ("Ⲯ", "ⲯ"); ("Ⲱ", "ⲱ"); ("Ⲳ", "ⲳ"); ("Ⲵ", "ⲵ");
("Ⲷ", "ⲷ"); ("Ⲹ", "ⲹ"); ("Ⲻ", "ⲻ"); ("Ⲽ", "ⲽ"); ("Ⲿ", "ⲿ"); ("Ⳁ", "ⳁ");
("Ⳃ", "ⳃ"); ("Ⳅ", "ⳅ"); ("Ⳇ", "ⳇ"); ("Ⳉ", "ⳉ"); ("Ⳋ", "ⳋ"); ("Ⳍ", "ⳍ");
("Ⳏ", "ⳏ"); ("Ⳑ", "ⳑ"); ("Ⳓ", "ⳓ"); ("Ⳕ", "ⳕ"); ("Ⳗ", "ⳗ"); ("Ⳙ", "ⳙ");
("Ⳛ", "ⳛ"); ("Ⳝ", "ⳝ"); ("Ⳟ", "ⳟ"); ("Ⳡ", "ⳡ"); ("Ⳣ", "ⳣ"); ("Ⳬ", "ⳬ");
("Ⳮ", "ⳮ"); ("Ⳳ", "ⳳ")].

Definition lower_latin_extended : list (string * string) :=
[("Ꙁ", "ꙁ"); ("Ꙃ", "ꙃ"); ("Ꙅ", "ꙅ"); ("Ꙇ", "ꙇ"); ("Ꙉ", "ꙉ"); ("Ꙋ", "ꙋ");
("Ꙍ", "ꙍ"); ("Ꙏ", "ꙏ"); ("Ꙑ", "ꙑ"); ("Ꙓ", "ꙓ"); ("Ꙕ", "ꙕ"); ("Ꙗ", "ꙗ");
("Ꙙ", "ꙙ"); ("Ꙛ", "ꙛ"); ("Ꙝ", "ꙝ"); ("Ꙟ", "ꙟ"); ("Ꙡ", "ꙡ"); ("Ꙣ", "ꙣ");
("Ꙥ", "ꙥ"); ("Ꙧ", "ꙧ"); ("Ꙩ", "ꙩ"); ("Ꙫ", "ꙫ"); ("Ꙭ", "ꙭ"); ("Ꚁ", "ꚁ");
("Ꚃ", "ꚃ"); ("Ꚅ", "ꚅ"); ("Ꚇ", "ꚇ"); ("Ꚉ", "ꚉ"); ("Ꚋ", "ꚋ"); ("Ꚍ", "ꚍ");
("Ꚏ", "ꚏ"); ("Ꚑ", "ꚑ"); ("Ꚓ", "ꚓ"); ("Ꚕ", "ꚕ"); ("Ꚗ", "ꚗ"); ("Ꚙ", "ꚙ");
("Ꚛ", "ꚛ"); ("Ꜣ", "ꜣ"); ("Ꜥ", "ꜥ"); ("Ꜧ", "ꜧ"); ("Ꜩ", "ꜩ"); ("Ꜫ", "ꜫ");
("Ꜭ", "ꜭ"); ("Ꜯ", "ꜯ"); ("Ꜳ", "ꜳ"); ("Ꜵ", "ꜵ"); ("Ꜷ", "ꜷ"); ("Ꜹ", "ꜹ");
("Ꜻ", "ꜻ"); ("Ꜽ", "ꜽ"); ("Ꜿ", "ꜿ"); ("Ꝁ", "ꝁ"); ("Ꝃ", "ꝃ"); ("Ꝅ", "ꝅ");
("Ꝇ", "ꝇ"); ("Ꝉ", "ꝉ"); ("Ꝋ", "ꝋ"); ("Ꝍ", "ꝍ"); ("Ꝏ", "ꝏ"); ("Ꝑ", "ꝑ");
("Ꝓ", "ꝓ"); ("Ꝕ", "ꝕ"); ("Ꝗ", "ꝗ"); ("Ꝙ", "ꝙ"); ("Ꝛ", "ꝛ"); ("Ꝝ", "ꝝ");
("Ꝟ", "ꝟ"); ("Ꝡ", "ꝡ"); ("Ꝣ", "ꝣ"); ("Ꝥ", "ꝥ"); ("Ꝧ", "ꝧ"); ("Ꝩ", "ꝩ");
("Ꝫ", "ꝫ"); ("Ꝭ", "ꝭ"); ("Ꝯ", "ꝯ"); ("Ꝺ", "ꝺ"); ("Ꝼ", "ꝼ"); ("Ᵹ", "ᵹ");
("Ꝿ", "ꝿ"); ("Ꞁ", "ꞁ"); ("Ꞃ", "ꞃ"); ("Ꞅ", "ꞅ"); ("Ꞇ", "ꞇ"); ("Ꞌ", "ꞌ");
("Ɥ", "ɥ"); ("Ꞑ", "ꞑ"); ("Ꞓ", "ꞓ"); ("Ꞗ", "ꞗ"); ("Ꞙ", "ꞙ"); ("Ꞛ", "ꞛ");
("Ꞝ", "ꞝ"); ("Ꞟ", "ꞟ"); ("Ꞡ", "ꞡ"); ("Ꞣ", "ꞣ"); ("Ꞥ", "ꞥ"); ("Ꞧ", "ꞧ");
("Ꞩ", "ꞩ"); ("Ɦ", "ɦ"); ("Ɜ", "ɜ"); ("Ɡ", "ɡ"); ("Ɬ", "ɬ"); ("Ɪ", "ɪ");
("Ʞ", "ʞ"); ("Ʇ", "ʇ"); ("Ʝ", "ʝ"); ("Ꭓ", "ꭓ"); ("Ꞵ", "ꞵ"); ("Ꞷ", "ꞷ");
("Ꞹ", "ꞹ"); ("Ꞻ", "ꞻ"); ("Ꞽ", "ꞽ"); ("Ꞿ", "ꞿ"); ("Ꟁ", "ꟁ"); ("Ꟃ", "ꟃ");
("Ꞔ", "ꞔ"); ("Ʂ", "ʂ"); ("Ᶎ", "ᶎ"); ("Ꟈ", "ꟈ"); ("Ꟊ", "ꟊ"); ("Ꟑ", "ꟑ");
("Ꟗ", "ꟗ"); ("Ꟙ", "ꟙ"); ("Ꟶ", "ꟶ"); ("Ａ", "ａ"); ("Ｂ", "ｂ"); ("Ｃ", "ｃ");
("Ｄ", "ｄ"); ("Ｅ", "ｅ"); ("Ｆ", "ｆ"); ("Ｇ", "ｇ"); ("Ｈ", "ｈ"); ("Ｉ", "ｉ");
("Ｊ", "ｊ"); ("Ｋ", "ｋ"); ("Ｌ", "ｌ"); ("Ｍ", "ｍ"); ("Ｎ", "ｎ"); ("Ｏ", "ｏ");
("Ｐ", "ｐ"); ("Ｑ", "ｑ"); ("Ｒ", "ｒ"); ("Ｓ", "ｓ"); ("Ｔ", "ｔ"); ("Ｕ", "ｕ");
("Ｖ", "ｖ"); ("Ｗ", "ｗ"); ("Ｘ", "ｘ"); ("Ｙ", "ｙ"); ("Ｚ", "ｚ")].

Definition lower_supplementary : list (string * string) :=
[("𐐀", "𐐨"); ("𐐁", "𐐩"); ("𐐂", "𐐪"); ("𐐃", "𐐫"); ("𐐄", "𐐬"); ("𐐅", "𐐭");
("𐐆", "𐐮"); ("𐐇", "𐐯"); ("𐐈", "𐐰"); ("𐐉", "𐐱"); ("𐐊", "𐐲"); ("𐐋", "𐐳");
("𐐌", "𐐴"); ("𐐍", "𐐵"); ("𐐎", "𐐶"); ("𐐏", "𐐷"); ("𐐐", "𐐸"); ("𐐑", "𐐹");
("𐐒", "𐐺"); ("𐐓", "𐐻"); ("𐐔", "𐐼"); ("𐐕", "𐐽"); ("𐐖", "𐐾"); ("𐐗", "𐐿");
("𐐘", "𐑀"); ("𐐙", "𐑁"); ("𐐚", "𐑂"); ("𐐛", "𐑃"); ("𐐜", "𐑄"); ("𐐝", "𐑅");
("𐐞", "𐑆"); ("𐐟", "𐑇"); ("𐐠", "𐑈"); ("𐐡", "𐑉"); ("𐐢", "𐑊"); ("𐐣", "𐑋");
("𐐤", "𐑌"); ("𐐥", "𐑍"); ("𐐦", "𐑎"); ("𐐧", "𐑏"); ("𐒰", "𐓘"); ("𐒱", "𐓙");
("𐒲", "𐓚"); ("𐒳", "𐓛"); ("𐒴", "𐓜"); ("𐒵", "𐓝"); ("𐒶", "𐓞"); ("𐒷", "𐓟");
("𐒸", "𐓠"); ("𐒹", "𐓡"); ("𐒺", "𐓢"); ("𐒻", "𐓣"); ("𐒼", "𐓤"); ("𐒽", "𐓥");
("𐒾", "𐓦"); ("𐒿", "𐓧"); ("𐓀", "𐓨"); ("𐓁", "𐓩"); ("𐓂", "𐓪"); ("𐓃", "𐓫");
("𐓄", "𐓬"); ("𐓅", "𐓭"); ("𐓆", "𐓮"); ("𐓇", "𐓯"); ("𐓈", "𐓰"); ("𐓉", "𐓱");
("𐓊", "𐓲"); ("𐓋", "𐓳"); ("𐓌", "𐓴"); ("𐓍", "𐓵"); ("𐓎", "𐓶"); ("𐓏", "𐓷");
("𐓐", "𐓸"); ("𐓑", "𐓹"); ("𐓒", "𐓺"); ("𐓓", "𐓻"); ("𐕰", "𐖗"); ("𐕱", "𐖘");
("𐕲", "𐖙"); ("𐕳", "𐖚"); ("𐕴", "𐖛"); ("𐕵", "𐖜"); ("𐕶", "𐖝"); ("𐕷", "𐖞");
("𐕸", "𐖟"); ("𐕹", "𐖠"); ("𐕺", "𐖡"); ("𐕼", "𐖣"); ("𐕽", "𐖤"); ("𐕾", "𐖥");
("𐕿", "𐖦"); ("𐖀", "𐖧"); ("𐖁", "𐖨"); ("𐖂", "𐖩"); ("𐖃", "𐖪"); ("𐖄", "𐖫");
("𐖅", "𐖬"); ("𐖆", "𐖭"); ("𐖇", "𐖮"); ("𐖈", "𐖯"); ("𐖉", "𐖰"); ("𐖊", "𐖱");
("𐖌", "𐖳"); ("𐖍", "𐖴"); ("𐖎", "𐖵"); ("𐖏", "𐖶"); ("𐖐", "𐖷"); ("𐖑", "𐖸");
("𐖒", "𐖹"); ("𐖔", "𐖻"); ("𐖕", "𐖼"); ("𐲀", "𐳀"); ("𐲁", "𐳁"); ("𐲂", "𐳂");
("𐲃", "𐳃"); ("𐲄", "𐳄"); ("𐲅", "𐳅"); ("𐲆", "𐳆"); ("𐲇", "𐳇"); ("𐲈", "𐳈");
("𐲉", "𐳉"); ("𐲊", "𐳊"); ("𐲋", "𐳋"); ("𐲌", "𐳌"); ("𐲍", "𐳍"); ("𐲎", "𐳎");
("𐲏", "𐳏"); ("𐲐", "𐳐"); ("𐲑", "𐳑"); ("𐲒", "𐳒"); ("𐲓", "𐳓"); ("𐲔", "𐳔");
("𐲕", "𐳕"); ("𐲖", "𐳖"); ("𐲗", "𐳗"); ("𐲘", "𐳘"); ("𐲙", "𐳙"); ("𐲚", "𐳚");
("𐲛", "𐳛"); ("𐲜", "𐳜"); ("𐲝", "𐳝"); ("𐲞", "𐳞"); ("𐲟", "𐳟"); ("𐲠", "𐳠");
("𐲡", "𐳡"); ("𐲢", "𐳢"); ("𐲣", "𐳣"); ("𐲤", "𐳤"); ("𐲥", "𐳥"); ("𐲦", "𐳦");
("𐲧", "𐳧"); ("𐲨", "𐳨"); ("𐲩", "𐳩"); ("𐲪", "𐳪"); ("𐲫", "𐳫"); ("𐲬", "𐳬");
("𐲭", "𐳭"); ("𐲮", "𐳮"); ("𐲯", "𐳯"); ("𐲰", "𐳰"); ("𐲱", "𐳱"); ("𐲲", "𐳲");
("𑢠", "𑣀"); ("𑢡", "𑣁"); ("𑢢", "𑣂"); ("𑢣", "𑣃"); ("𑢤", "𑣄"); ("𑢥", "𑣅");
("𑢦", "𑣆"); ("𑢧", "𑣇"); ("𑢨", "𑣈"); ("𑢩", "𑣉"); ("𑢪", "𑣊"); ("𑢫", "𑣋");
("𑢬", "𑣌"); ("𑢭", "𑣍"); ("𑢮", "𑣎"); ("𑢯", "𑣏"); ("𑢰", "𑣐"); ("𑢱", "𑣑");
("𑢲", "𑣒"); ("𑢳", "𑣓"); ("𑢴", "𑣔"); ("𑢵", "𑣕"); ("𑢶", "𑣖"); ("𑢷", "𑣗");
("𑢸", "𑣘"); ("𑢹", "𑣙"); ("𑢺", "𑣚"); ("𑢻", "𑣛"); ("𑢼", "𑣜"); ("𑢽", "𑣝");
("𑢾", "𑣞"); ("𑢿", "𑣟"); ("𖹀", "𖹠"); ("𖹁", "𖹡"); ("𖹂", "𖹢"); ("𖹃", "𖹣");
("𖹄", "𖹤"); ("𖹅", "𖹥"); ("𖹆", "𖹦"); ("𖹇", "𖹧"); ("𖹈", "𖹨"); ("𖹉", "𖹩");
("𖹊", "𖹪"); ("𖹋", "𖹫"); ("𖹌", "𖹬"); ("𖹍", "𖹭"); ("𖹎", "𖹮"); ("𖹏", "𖹯");
("𖹐", "𖹰"); ("𖹑", "𖹱"); ("𖹒", "𖹲"); ("𖹓", "𖹳"); ("𖹔", "𖹴"); ("𖹕", "𖹵");
("𖹖", "𖹶"); ("𖹗", "𖹷"); ("𖹘", "𖹸"); ("𖹙", "𖹹"); ("𖹚", "𖹺"); ("𖹛", "𖹻");
("𖹜", "𖹼"); ("𖹝", "𖹽"); ("𖹞", "𖹾"); ("𖹟", "𖹿"); ("𞤀", "𞤢"); ("𞤁", "𞤣");
("𞤂", "𞤤"); ("𞤃", "𞤥"); ("𞤄", "𞤦"); ("𞤅", "𞤧"); ("𞤆", "𞤨"); ("𞤇", "𞤩");
("𞤈", "𞤪"); ("𞤉", "𞤫"); ("𞤊", "𞤬"); ("𞤋", "𞤭"); ("𞤌", "𞤮"); ("𞤍", "𞤯");
("𞤎", "𞤰"); ("𞤏", "𞤱"); ("𞤐", "𞤲"); ("𞤑", "𞤳"); ("𞤒", "𞤴"); ("𞤓", "𞤵");
("𞤔", "𞤶"); ("𞤕", "𞤷"); ("𞤖", "𞤸"); ("𞤗", "𞤹"); ("𞤘", "𞤺"); ("𞤙", "𞤻");
("𞤚", "𞤼"); ("𞤛", "𞤽"); ("𞤜", "𞤾"); ("𞤝", "𞤿"); ("𞤞", "𞥀"); ("𞤟", "𞥁");
("𞤠", "𞥂"); ("𞤡", "𞥃")].

Definition lower_table : list (string * string) :=
lower_latin ++
lower_greek ++
lower_cyrillic ++
lower_armenian_georgian_cherokee ++
lower_latin_additional ++
lower_greek_extended ++
lower_symbols ++
lower_glagolitic_coptic ++
lower_latin_extended ++
lower_supplementary.

Definition cased_ranges : list (N * N) :=
[(0x41, 0x5A); (0x61, 0x7A); (0xAA, 0xAA); (0xB5, 0xB5); (0xBA, 0xBA);
(0xC0, 0xD6); (0xD8, 0xF6); (0xF8, 0x1BA); (0x1BC, 0x1BF); (0x1C4, 0x293);
(0x295, 0x2AF); (0x370, 0x373); (0x376, 0x377); (0x37B, 0x37D); (0x37F, 0x37F);
(0x386, 0x386); (0x388, 0x38A); (0x38C, 0x38C); (0x38E, 0x3A1); (0x3A3, 0x3F5);
(0x3F7, 0x481); (0x48A, 0x52F); (0x531, 0x556); (0x560, 0x588); (0x10A0, 0x10C5);
(0x10C7, 0x10C7); (0x10CD, 0x10CD); (0x10D0, 0x10FA); (0x10FD, 0x10FF); (0x13A0, 0x13F5);
(0x13F8, 0x13FD); (0x1C80, 0x1C88); (0x1C90, 0x1CBA); (0x1CBD, 0x1CBF); (0x1D00, 0x1D2B);
(0x1D6B, 0x1D77); (0x1D79, 0x1D9A); (0x1E00, 0x1F15); (0x1F18, 0x1F1D); (0x1F20, 0x1F45);
(0x1F48, 0x1F4D); (0x1F50, 0x1F57); (0x1F59, 0x1F59); (0x1F5B, 0x1F5B); (0x1F5D, 0x1F5D);
(0x1F5F, 0x1F7D); (0x1F80, 0x1FB4); (0x1FB6, 0x1FBC); (0x1FBE, 0x1FBE); (0x1FC2, 0x1FC4);
(0x1FC6, 0x1FCC); (0x1FD0, 0x1FD3); (0x1FD6, 0x1FDB); (0x1FE0, 0x1FEC); (0x1FF2, 0x1FF4);
(0x1FF6, 0x1FFC); (0x2102, 0x2102); (0x2107, 0x2107); (0x210A, 0x2113); (0x2115, 0x2115);
(0x2119, 0x211D); (0x2124, 0x2124); (0x2126, 0x2126); (0x2128, 0x2128); (0x212A, 0x212D);
(0x212F, 0x2134); (0x2139, 0x2139); (0x213C, 0x213F); (0x2145, 0x2149); (0x214E, 0x214E);
(0x2160, 0x217F); (0x2183, 0x2184); (0x24B6, 0x24E9); (0x2C00, 0x2C7B); (0x2C7E, 0x2CE4);
(0x2CEB, 0x2CEE); (0x2CF2, 0x2CF3); (0x2D00, 0x2D25); (0x2D27, 0x2D27); (0x2D2D, 0x2D2D);
(0xA640, 0xA66D); (0xA680, 0xA69B); (0xA722, 0xA76F); (0xA771, 0xA787); (0xA78B, 0xA78E);
(0xA790, 0xA7CA); (0xA7D0, 0xA7D1); (0xA7D3, 0xA7D3); (0xA7D5, 0xA7D9); (0xA7F5, 0xA7F6);
(0xA7FA, 0xA7FA); (0xAB30, 0xAB5A); (0xAB60, 0xAB68); (0xAB70, 0xABBF); (0xFB00, 0xFB06);
(0xFB13, 0xFB17); (0xFF21, 0xFF3A); (0xFF41, 0xFF5A); (0x10400, 0x1044F); (0x104B0, 0x104D3);
(0x104D8, 0x104FB); (0x10570, 0x1057A); (0x1057C, 0x1058A); (0x1058C, 0x10592); (0x10594, 0x10595);
(0x10597, 0x105A1); (0x105A3, 0x105B1); (0x105B3, 0x105B9); (0x105BB, 0x105BC); (0x10C80, 0x10CB2);
(0x10CC0, 0x10CF2); (0x118A0, 0x118DF); (0x16E40, 0x16E7F); (0x1D400, 0x1D454); (0x1D456, 0x1D49C);
(0x1D49E, 0x1D49F); (0x1D4A2, 0x1D4A2); (0x1D4A5, 0x1D4A6); (0x1D4A9, 0x1D4AC); (0x1D4AE, 0x1D4B9);
(0x1D4BB, 0x1D4BB); (0x1D4BD, 0x1D4C3); (0x1D4C5, 0x1D505); (0x1D507, 0x1D50A); (0x1D50D, 0x1D514);
(0x1D516, 0x1D51C); (0x1D51E, 0x1D539); (0x1D53B, 0x1D53E); (0x1D540, 0x1D544); (0x1D546, 0x1D546);
(0x1D54A, 0x1D550); (0x1D552, 0x1D6A5); (0x1D6A8, 0x1D6C0); (0x1D6C2, 0x1D6DA); (0x1D6DC, 0x1D6FA);
(0x1D6FC, 0x1D714); (0x1D716, 0x1D734); (0x1D736, 0x1D74E); (0x1D750, 0x1D76E); (0x1D770, 0x1D788);
(0x1D78A, 0x1D7A8); (0x1D7AA, 0x1D7C2); (0x1D7C4, 0x1D7CB); (0x1DF00, 0x1DF09); (0x1DF0B, 0x1DF1E);
(0x1E900, 0x1E943); (0x1F130, 0x1F149); (0x1F150, 0x1F169); (0x1F170, 0x1F189)]%N.

Definition case_ignorable_ranges : list (N * N) :=
[(0x27, 0x27); (0x2E, 0x2E); (0x3A, 0x3A); (0x5E, 0x5E); (0x60, 0x60);
(0xA8, 0xA8); (0xAD, 0xAD); (0xAF, 0xAF); (0xB4, 0xB4); (0xB7, 0xB8);
(0x2B0, 0x36F); (0x374, 0x375); (0x37A, 0x37A); (0x384, 0x385); (0x387, 0x387);
(0x483, 0x489); (0x559, 0x559); (0x55F, 0x55F); (0x591, 0x5BD); (0x5BF, 0x5BF);
(0x5C1, 0x5C2); (0x5C4, 0x5C5); (0x5C7, 0x5C7); (0x5F4, 0x5F4); (0x600, 0x605);
(0x610, 0x61A); (0x61C, 0x61C); (0x640, 0x640); (0x64B, 0x65F); (0x670, 0x670);
(0x6D6, 0x6DD); (0x6DF, 0x6E8); (0x6EA, 0x6ED); (0x70F, 0x70F); (0x711, 0x711);
(0x730, 0x74A); (0x7A6, 0x7B0); (0x7EB, 0x7F5); (0x7FA, 0x7FA); (0x7FD, 0x7FD);
(0x816, 0x82D); (0x859, 0x85B); (0x888, 0x888); (0x890, 0x891); (0x898, 0x89F);
(0x8C9, 0x902); (0x93A, 0x93A); (0x93C, 0x93C); (0x941, 0x948); (0x94D, 0x94D);
(0x951, 0x957); (0x962, 0x963); (0x971, 0x971); (0x981, 0x981); (0x9BC, 0x9BC);
(0x9C1, 0x9C4); (0x9CD, 0x9CD); (0x9E2, 0x9E3); (0x9FE, 0x9FE); (0xA01, 0xA02);
(0xA3C, 0xA3C); (0xA41, 0xA42); (0xA47, 0xA48); (0xA4B, 0xA4D); (0xA51, 0xA51);
(0xA70, 0xA71); (0xA75, 0xA75); (0xA81, 0xA82); (0xABC, 0xABC); (0xAC1, 0xAC5);
(0xAC7, 0xAC8); (0xACD, 0xACD); (0xAE2, 0xAE3); (0xAFA, 0xAFF); (0xB01, 0xB01);
(0xB3C, 0xB3C); (0xB3F, 0xB3F); (0xB41, 0xB44); (0xB4D, 0xB4D); (0xB55, 0xB56);
(0xB62, 0xB63); (0xB82, 0xB82); (0xBC0, 0xBC0); (0xBCD, 0xBCD); (0xC00, 0xC00);
(0xC04, 0xC04); (0xC3C, 0xC3C); (0xC3E, 0xC40); (0xC46, 0xC48); (0xC4A, 0xC4D);
(0xC55, 0xC56); (0xC62, 0xC63); (0xC81, 0xC81); (0xCBC, 0xCBC); (0xCBF, 0xCBF);
(0xCC6, 0xCC6); (0xCCC, 0xCCD); (0xCE2, 0xCE3); (0xD00, 0xD01); (0xD3B, 0xD3C);
(0xD41, 0xD44); (0xD4D, 0xD4D); (0xD62, 0xD63); (0xD81, 0xD81); (0xDCA, 0xDCA);
(0xDD2, 0xDD4); (0xDD6, 0xDD6); (0xE31, 0xE31); (0xE34, 0xE3A); (0xE46, 0xE4E);
(0xEB1, 0xEB1); (0xEB4, 0xEBC); (0xEC6, 0xEC6); (0xEC8, 0xECD); (0xF18, 0xF19);
(0xF35, 0xF35); (0xF37, 0xF37); (0xF39, 0xF39); (0xF71, 0xF7E); (0xF80, 0xF84);
(0xF86, 0xF87); (0xF8D, 0xF97); (0xF99, 0xFBC); (0xFC6, 0xFC6); (0x102D, 0x1030);
(0x1032, 0x1037); (0x1039, 0x103A); (0x103D, 0x103E); (0x1058, 0x1059); (0x105E, 0x1060);
(0x1071, 0x1074); (0x1082, 0x1082); (0x1085, 0x1086); (0x108D, 0x108D); (0x109D, 0x109D);
(0x10FC, 0x10FC); (0x135D, 0x135F); (0x1712, 0x1714); (0x1732, 0x1733); (0x1752, 0x1753);
(0x1772, 0x1773); (0x17B4, 0x17B5); (0x17B7, 0x17BD); (0x17C6, 0x17C6); (0x17C9, 0x17D3);
(0x17D7, 0x17D7); (0x17DD, 0x17DD); (0x180B, 0x180F); (0x1843, 0x1843); (0x1885, 0x1886);
(0x18A9, 0x18A9); (0x1920, 0x1922); (0x1927, 0x1928); (0x1932, 0x1932); (0x1939, 0x193B);
(0x1A17, 0x1A18); (0x1A1B, 0x1A1B); (0x1A56, 0x1A56); (0x1A58, 0x1A5E); (0x1A60, 0x1A60);
(0x1A62, 0x1A62); (0x1A65, 0x1A6C); (0x1A73, 0x1A7C); (0x1A7F, 0x1A7F); (0x1AA7, 0x1AA7);
(0x1AB0, 0x1ACE); (0x1B00, 0x1B03); (0x1B34, 0x1B34); (0x1B36, 0x1B3A); (0x1B3C, 0x1B3C);
(0x1B42, 0x1B42); (0x1B6B, 0x1B73); (0x1B80, 0x1B81); (0x1BA2, 0x1BA5); (0x1BA8, 0x1BA9);
(0x1BAB, 0x1BAD); (0x1BE6, 0x1BE6); (0x1BE8, 0x1BE9); (0x1BED, 0x1BED); (0x1BEF, 0x1BF1);
(0x1C2C, 0x1C33); (0x1C36, 0x1C37); (0x1C78, 0x1C7D); (0x1CD0, 0x1CD2); (0x1CD4, 0x1CE0);
(0x1CE2, 0x1CE8); (0x1CED, 0x1CED); (0x1CF4, 0x1CF4); (0x1CF8, 0x1CF9); (0x1D2C, 0x1D6A);
(0x1D78, 0x1D78); (0x1D9B, 0x1DFF); (0x1FBD, 0x1FBD); (0x1FBF, 0x1FC1); (0x1FCD, 0x1FCF);
(0x1FDD, 0x1FDF); (0x1FED, 0x1FEF); (0x1FFD, 0x1FFE); (0x200B, 0x200F); (0x2018, 0x2019);
(0x2024, 0x2024); (0x2027, 0x2027); (0x202A, 0x202E); (0x2060, 0x2064); (0x2066, 0x206F);
(0x2071, 0x2071); (0x207F, 0x207F); (0x2090, 0x209C); (0x20D0, 0x20F0); (0x2C7C, 0x2C7D);
(0x2CEF, 0x2CF1); (0x2D6F, 0x2D6F); (0x2D7F, 0x2D7F); (0x2DE0, 0x2DFF); (0x2E2F, 0x2E2F);
(0x3005, 0x3005); (0x302A, 0x302D); (0x3031, 0x3035); (0x303B, 0x303B); (0x3099, 0x309E);
(0x30FC, 0x30FE); (0xA015, 0xA015); (0xA4F8, 0xA4FD); (0xA60C, 0xA60C); (0xA66F, 0xA672);
(0xA674, 0xA67D); (0xA67F, 0xA67F); (0xA69C, 0xA69F); (0xA6F0, 0xA6F1); (0xA700, 0xA721);
(0xA770, 0xA770); (0xA788, 0xA78A); (0xA7F2, 0xA7F4); (0xA7F8, 0xA7F9); (0xA802, 0xA802);
(0xA806, 0xA806); (0xA80B, 0xA80B); (0xA825, 0xA826); (0xA82C, 0xA82C); (0xA8C4, 0xA8C5);
(0xA8E0, 0xA8F1); (0xA8FF, 0xA8FF); (0xA926, 0xA92D); (0xA947, 0xA951); (0xA980, 0xA982);
(0xA9B3, 0xA9B3); (0xA9B6, 0xA9B9); (0xA9BC, 0xA9BD); (0xA9CF, 0xA9CF); (0xA9E5, 0xA9E6);
(0xAA29, 0xAA2E); (0xAA31, 0xAA32); (0xAA35, 0xAA36); (0xAA43, 0xAA43); (0xAA4C, 0xAA4C);
(0xAA70, 0xAA70); (0xAA7C, 0xAA7C); (0xAAB0, 0xAAB0); (0xAAB2, 0xAAB4); (0xAAB7, 0xAAB8);
(0xAABE, 0xAABF); (0xAAC1, 0xAAC1); (0xAADD, 0xAADD); (0xAAEC, 0xAAED); (0xAAF3, 0xAAF4);
(0xAAF6, 0xAAF6); (0xAB5B, 0xAB5F); (0xAB69, 0xAB6B); (0xABE5, 0xABE5); (0xABE8, 0xABE8);
(0xABED, 0xABED); (0xFB1E, 0xFB1E); (0xFBB2, 0xFBC2); (0xFE00, 0xFE0F); (0xFE13, 0xFE13);
(0xFE20, 0xFE2F); (0xFE52, 0xFE52); (0xFE55, 0xFE55); (0xFEFF, 0xFEFF); (0xFF07, 0xFF07);
(0xFF0E, 0xFF0E); (0xFF1A, 0xFF1A); (0xFF3E, 0xFF3E); (0xFF40, 0xFF40); (0xFF70, 0xFF70);
(0xFF9E, 0xFF9F); (0xFFE3, 0xFFE3); (0xFFF9, 0xFFFB); (0x101FD, 0x101FD); (0x102E0, 0x102E0);
(0x10376, 0x1037A); (0x10780, 0x10785); (0x10787, 0x107B0); (0x107B2, 0x107BA); (0x10A01, 0x10A03);
(0x10A05, 0x10A06); (0x10A0C, 0x10A0F); (0x10A38, 0x10A3A); (0x10A3F, 0x10A3F); (0x10AE5, 0x10AE6);
(0x10D24, 0x10D27); (0x10EAB, 0x10EAC); (0x10F46, 0x10F50); (0x10F82, 0x10F85); (0x11001, 0x11001);
(0x11038, 0x11046); (0x11070, 0x11070); (0x11073, 0x11074); (0x1107F, 0x11081); (0x110B3, 0x110B6);
(0x110B9, 0x110BA); (0x110BD, 0x110BD); (0x110C2, 0x110C2); (0x110CD, 0x110CD); (0x11100, 0x11102);
(0x11127, 0x1112B); (0x1112D, 0x11134); (0x11173, 0x11173); (0x11180, 0x11181); (0x111B6, 0x111BE);
(0x111C9, 0x111CC); (0x111CF, 0x111CF); (0x1122F, 0x11231); (0x11234, 0x11234); (0x11236, 0x11237);
(0x1123E, 0x1123E); (0x112DF, 0x112DF); (0x112E3, 0x112EA); (0x11300, 0x11301); (0x1133B, 0x1133C);
(0x11340, 0x11340); (0x11366, 0x1136C); (0x11370, 0x11374); (0x11438, 0x1143F); (0x11442, 0x11444);
(0x11446, 0x11446); (0x1145E, 0x1145E); (0x114B3, 0x114B8); (0x114BA, 0x114BA); (0x114BF, 0x114C0);
(0x114C2, 0x114C3); (0x115B2, 0x115B5); (0x115BC, 0x115BD); (0x115BF, 0x115C0); (0x115DC, 0x115DD);
(0x11633, 0x1163A); (0x1163D, 0x1163D); (0x1163F, 0x11640); (0x116AB, 0x116AB); (0x116AD, 0x116AD);
(0x116B0, 0x116B5); (0x116B7, 0x116B7); (0x1171D, 0x1171F); (0x11722, 0x11725); (0x11727, 0x1172B);
(0x1182F, 0x11837); (0x11839, 0x1183A); (0x1193B, 0x1193C); (0x1193E, 0x1193E); (0x11943, 0x11943);
(0x119D4, 0x119D7); (0x119DA, 0x119DB); (0x119E0, 0x119E0); (0x11A01, 0x11A0A); (0x11A33, 0x11A38);
(0x11A3B, 0x11A3E); (0x11A47, 0x11A47); (0x11A51, 0x11A56); (0x11A59, 0x11A5B); (0x11A8A, 0x11A96);
(0x11A98, 0x11A99); (0x11C30, 0x11C36); (0x11C38, 0x11C3D); (0x11C3F, 0x11C3F); (0x11C92, 0x11CA7);
(0x11CAA, 0x11CB0); (0x11CB2, 0x11CB3); (0x11CB5, 0x11CB6); (0x11D31, 0x11D36); (0x11D3A, 0x11D3A);
(0x11D3C, 0x11D3D); (0x11D3F, 0x11D45); (0x11D47, 0x11D47); (0x11D90, 0x11D91); (0x11D95, 0x11D95);
(0x11D97, 0x11D97); (0x11EF3, 0x11EF4); (0x13430, 0x13438); (0x16AF0, 0x16AF4); (0x16B30, 0x16B36);
(0x16B40, 0x16B43); (0x16F4F, 0x16F4F); (0x16F8F, 0x16F9F); (0x16FE0, 0x16FE1); (0x16FE3, 0x16FE4);
(0x1AFF0, 0x1AFF3); (0x1AFF5, 0x1AFFB); (0x1AFFD, 0x1AFFE); (0x1BC9D, 0x1BC9E); (0x1BCA0, 0x1BCA3);
(0x1CF00, 0x1CF2D); (0x1CF30, 0x1CF46); (0x1D167, 0x1D169); (0x1D173, 0x1D182); (0x1D185, 0x1D18B);
(0x1D1AA, 0x1D1AD); (0x1D242, 0x1D244); (0x1DA00, 0x1DA36); (0x1DA3B, 0x1DA6C); (0x1DA75, 0x1DA75);
(0x1DA84, 0x1DA84); (0x1DA9B, 0x1DA9F); (0x1DAA1, 0x1DAAF); (0x1E000, 0x1E006); (0x1E008, 0x1E018);
(0x1E01B, 0x1E021); (0x1E023, 0x1E024); (0x1E026, 0x1E02A); (0x1E130, 0x1E13D); (0x1E2AE, 0x1E2AE);
(0x1E2EC, 0x1E2EF); (0x1E8D0, 0x1E8D6); (0x1E944, 0x1E94B); (0x1F3FB, 0x1F3FF); (0xE0001, 0xE0001);
(0xE0020, 0xE007F); (0xE0100, 0xE01EF)]%N.

(** *** [str.lower] *)

Definition lower_ascii (c : ascii) : ascii :=
  let n := nat_of_ascii c in
  if (65 <=? n)%nat && (n <=? 90)%nat then ascii_of_nat (n + 32) else c.

Fixpoint assoc (k : string) (l : list (string * string)) : option string :=
match l with
| [] => None
| (k', v) :: l' => if String.eqb k k' then Some v else assoc k l'
end.

(** The lower-case form of one character, context apart. *)
Definition lower_char (c : string) : string :=
match c with
| String a EmptyString => String (lower_ascii a) EmptyString
| _ =>
    match assoc c lower_table with
    | Some l => l
    | None => c
    end
end.

Definition in_ranges (rs : list (N * N)) (c : string) : bool :=
match code_point c with
| Some n => existsb (fun r => (fst r <=? n)%N && (n <=? snd r)%N) rs
| None => false
end.

Definition cased : string -> bool := in_ranges cased_ranges.
Definition case_ignorable : string -> bool := in_ranges case_ignorable_ranges.

(** The nearest character of [cs] that is not case-ignorable is cased. *)
Fixpoint cased_next (cs : list string) : bool :=
match cs with
| [] => false
| c :: cs' => if case_ignorable c then cased_next cs' else cased c
end.

(** A capital sigma is final when a cased letter precedes it and none
    follows it, case-ignorable characters apart; [behind] holds the
    characters before it, nearest first. *)
Definition final_sigma (behind ahead : list string) : bool :=
  cased_next behind && negb (cased_next ahead).

Fixpoint lower_chars (behind cs : list string) : string :=
match cs with
| [] => EmptyString
| c :: cs' =>
    (if String.eqb c "Σ" && final_sigma behind cs' then "ς" else lower_char c)
    ++ lower_chars (c :: behind) cs'
end.

(** [s.lower()] *)
Definition lower (s : string) : string := lower_chars [] (chars s).

(** [s.startswith(p)] *)
Fixpoint startswith (p s : string) : bool :=
  match p, s with
  | EmptyString, _ => true
  | String _ _, EmptyString => false
  | String a p', String b s' => Ascii.eqb a b && startswith p' s'
  end.

(** [sub in s] *)
Fixpoint contains (sub s : string) : bool :=
  startswith sub s ||
  match s with
  | EmptyString => false
  | String _ s' => contains sub s'
  end.

(** The scan of [s.replace(old, new)] for a non-empty [old]: [skip]
    counts the characters of a match that are still to be dropped. *)
Fixpoint replace_scan (old new : string) (skip : nat) (s : string) : string :=
  match s with
  | EmptyString => EmptyString
  | String c s' =>
      match skip with
      | S k => replace_scan old new k s'
      | O =>
          if startswith old s
          then new ++ replace_scan old new (String.length old - 1) s'
          else String c (replace_scan old new 0 s')
      end
  end.

(** With an empty [old], [new] is inserted before every character and
    at the end. *)
Fixpoint interleave (new s : string) : string :=
  match s with
  | EmptyString => new
  | String c s' => new ++ String c (interleave new s')
  end.

(** [s.replace(old, new)]: every non-overlapping occurrence, scanning
    from the left. *)
Definition replace (old new s : string) : string :=
  match old with
  | EmptyString => interleave new s
  | String _ _ => replace_scan old new 0 s
  end.

(** *** Measures on strings, for the facts about [lower] *)

(** Every byte of [s] is an ASCII character. *)
Fixpoint ascii_only (s : string) : bool :=
match s with
| EmptyString => true
| String c s' => is_ascii c && ascii_only s'
end.

(** The number of ASCII characters of [s]. *)
Fixpoint ascii_count (s : string) : nat :=
match s with
| EmptyString => 0
| String c s' => (if is_ascii c then 1 else 0) + ascii_count s'
end.

(** [s] is made of ASCII characters other than the letter k: "k" is the
    one lower-case form without a byte outside ASCII that a character
    outside ASCII has (the Kelvin sign). *)
Fixpoint plain (s : string) : bool :=
match s with
| EmptyString => true
| String c s' => is_ascii c && negb (Ascii.eqb c "k") && plain s'
end.

(** [lower] on a text of ASCII characters. *)
Fixpoint ascii_lower (s : string) : string :=
match s with
| EmptyString => EmptyString
| String c s' => String (lower_ascii c) (ascii_lower s')
end.

End PyStr.

(** ** Floats: IEEE 754 binary64 *)

Module PyFloat.

Local Open Scope Z_scope.

Definition float : Type := spec_float.

Definition prec : Z := 53.
Definition emax : Z := 1024.

Definition fmul : float -> float -> float := SFmul prec emax.
Definition fdiv : float -> float -> float := SFdiv prec emax.
Definition flt : float -> float -> bool := SFltb.
Definition fle : float -> float -> bool := SFleb.

(** An integer as a float, rounded to nearest even; an integer beyond the
    range becomes an infinity here and an [OverflowError] in
    [float_of_int]. *)
Definition of_Z (z : Z) : float := binary_normalize prec emax z 0 false.

Definition is_zero (x : float) : bool :=
  match x with
  | S754_zero _ => true
  | _ => false
  end.

Definition is_inf (x : float) : bool :=
  match x with
  | S754_infinity _ => true
  | _ => false
  end.

(** [float(i)] for an [int] operand of a float operation *)
Definition float_of_int (i : Z) : result float :=
  let x := of_Z i in
  if is_inf x then Raise (OverflowError "int too large to convert to float")
  else Ok x.

(** [a / b] on two [int]s: the correctly rounded quotient *)
Definition int_truediv (a b : Z) : result float :=
  let negate := xorb (a <? 0) (b <? 0) in
  match a, b with
  | _, Z0 => Raise (ZeroDivisionError "division by zero")
  | Z0, _ => Ok (S754_zero negate)
  | (Zpos ma | Zneg ma), (Zpos mb | Zneg mb) =>
      let q := fdiv (S754_finite (a <? 0) ma 0) (S754_finite (b <? 0) mb 0) in
      if is_inf q
      then Raise (OverflowError "integer division result too large for a float")
      else Ok q
  end.

(** [x / y] on two [float]s *)
Definition float_truediv (x y : float) : result float :=
  if is_zero y then Raise (ZeroDivisionError "float division by zero")
  else Ok (fdiv x y).

(** The integer nearest to [a / b], ties to even, for [b > 0]. *)
Definition div_half_even (a b : Z) : Z :=
  let q := a / b in
  match (2 * (a mod b) ?= b) with
  | Lt => q
  | Gt => q + 1
  | Eq => if Z.even q then q else q + 1
  end.

(** The float nearest to [n / 10]: what the literal with one decimal
    digit denotes. *)
Definition decimal1 (n : Z) : float :=
  match n with
  | Z0 => S754_zero false
  | Zpos p => fdiv (S754_finite false p 0) (S754_finite false 10 0)
  | Zneg p => fdiv (S754_finite true p 0) (S754_finite false 10 0)
  end.

(** [round(x, 1)]: the exact value of [x] is rounded half-to-even to one
    decimal digit, and the float nearest to that decimal is returned
    (CPython prints with [dtoa] in mode 3 and reads back with [strtod]);
    zeros keep their sign, infinities and NaN round to themselves, and a
    float with a non-negative exponent is an integer already. *)
Definition round1 (x : float) : float :=
  match x with
  | S754_finite s m e =>
      if 0 <=? e then x
      else
        match div_half_even (10 * Zpos m) (2 ^ (- e)) with
        | Zpos p => fdiv (S754_finite s p 0) (S754_finite false 10 0)
        | _ => S754_zero s
        end
  | _ => x
  end.

End PyFloat.

(** A float that is not NaN and has the sign bit [s]. *)
Definition signed (s : bool) (x : spec_float) : Prop :=
  match x with
  | S754_zero s' | S754_infinity s' | S754_finite s' _ _ => s' = s
  | S754_nan => False
  end.

(** ** The object store

  Lists and dicts are mutable objects reached through references; a dict
  keeps its keys in insertion order.  Strings are immutable values.  An
  allocation takes the next free address, and nothing is ever freed. *)

Inductive ref : Type := Loc (n : nat).

Inductive val : Type :=
| Str (s : string)
| Ref (r : ref).

Inductive obj : Type :=
| ListObj (items : list string)
| DictObj (entries : list (string * val)).

Definition heap : Type := list obj.

Module PyDict.

Fixpoint lookup (k : string) (d : list (string * val)) : option val :=
  match d with
  | [] => None
  | (k', v) :: d' => if String.eqb k' k then Some v else lookup k d'
  end.

(** [d[k] = v]: an existing key keeps its position, a new one goes last. *)
Fixpoint set (k : string) (v : val) (d : list (string * val))
  : list (string * val) :=
  match d with
  | [] => [(k, v)]
  | (k', v') :: d' =>
      if String.eqb k' k then (k', v) :: d' else (k', v') :: set k v d'
  end.

Definition keys (d : list (string * val)) : list string := map fst d.

End PyDict.

(** Computations: a store in, a value or an exception and a store out. *)
Definition M (A : Type) : Type := heap -> result A * heap.

Definition ret {A : Type} (a : A) : M A := fun h => (Ok a, h).

Definition raise {A : Type} (e : exn) : M A := fun h => (Raise e, h).

Definition bind {A B : Type} (m : M A) (k : A -> M B) : M B :=
fun h =>
  match m h with
  | (Ok a, h') => k a h'
  | (Raise e, h') => (Raise e, h')
  end.

Declare Scope py_scope.
Delimit Scope py_scope with py.
Notation "x <- m ;; k" := (bind m (fun x => k))
(at level 61, m at next level, right associativity) : py_scope.
Notation "m ;; k" := (bind m (fun _ => k))
(at level 61, right associativity) : py_scope.
Local Open Scope py_scope.

(** A pure operation that may raise. *)
Definition lift {A : Type} (r : result A) : M A := fun h => (r, h).

Module Store.

Definition alloc (o : obj) : M ref :=
  fun h => (Ok (Loc (List.length h)), h ++ [o]).

Definition load (r : ref) : M obj :=
  fun h =>
    let 'Loc n := r in
    match nth_error h n with
    | Some o => (Ok o, h)
    | None => (Raise (SystemError "dangling reference"), h)
    end.

Fixpoint update (h : heap) (n : nat) (o : obj) : heap :=
  match h, n with
  | [], _ => []
  | _ :: h', O => o :: h'
  | o' :: h', S n' => o' :: update h' n' o
  end.

Definition store (r : ref) (o : obj) : M unit :=
  fun h =>
    let 'Loc n := r in
    match nth_error h n with
    | Some _ => (Ok tt, update h n o)
    | None => (Raise (SystemError "dangling reference"), h)
    end.

End Store.

(** ** Operations on list and dict objects *)

Module Py.

Import Store.

(** A list display [[a, b, ...]] or a comprehension result: a new object. *)
Definition new_list (items : list string) : M ref := alloc (ListObj items).

(** A dict display [{k: v, ...}]: a new object. *)
Definition new_dict (entries : list (string * val)) : M ref :=
  alloc (DictObj entries).

Definition as_ref (v : val) : M ref :=
  match v with
  | Ref r => ret r
  | Str _ => raise (TypeError "string indices must be integers, not 'str'")
  end.

Definition as_str (v : val) : M string :=
  match v with
  | Str s => ret s
  | Ref _ => raise (TypeError "expected str")
  end.

(** The items of a list object, as read by iteration or slicing. *)
Definition list_items (r : ref) : M (list string) :=
  o <- load r ;;
  match o with
  | ListObj items => ret items
  | DictObj _ => raise (TypeError "expected list")
  end.

(** [l.extend(xs)], in place *)
Definition list_extend (r : ref) (xs : list string) : M unit :=
  items <- list_items r ;;
  store r (ListObj (items ++ xs)).

(** [l.append(x)], in place *)
Definition list_append (r : ref) (x : string) : M unit :=
  list_extend r [x].

Definition dict_entries (r : ref) : M (list (string * val)) :=
  o <- load r ;;
  match o with
  | DictObj entries => ret entries
  | ListObj _ => raise (TypeError "list indices must be integers or slices, not str")
  end.

(** [k in d] *)
Definition dict_contains (r : ref) (k : string) : M bool :=
  entries <- dict_entries r ;;
  ret (match PyDict.lookup k entries with Some _ => true | None => false end).

(** [d[k]] *)
Definition dict_getitem (r : ref) (k : string) : M val :=
  entries <- dict_entries r ;;
  match PyDict.lookup k entries with
  | Some v => ret v
  | None => raise (KeyError k)
  end.

(** [d.get(k, default)] *)
Definition dict_get (r : ref) (k : string) (default : val) : M val :=
  entries <- dict_entries r ;;
  match PyDict.lookup k entries with
  | Some v => ret v
  | None => ret default
  end.

(** [d[k] = v], in place *)
Definition dict_setitem (r : ref) (k : string) (v : val) : M unit :=
  entries <- dict_entries r ;;
  store r (DictObj (PyDict.set k v entries)).

(** The keys a [for key in d] loop visits, in insertion order. *)
Definition dict_keys (r : ref) : M (list string) :=
  entries <- dict_entries r ;;
  ret (PyDict.keys entries).

(** [bool(d)] of a dict: non-empty. *)
Definition dict_truthy (r : ref) : M bool :=
  entries <- dict_entries r ;;
  ret (match entries with [] => false | _ :: _ => true end).

End Py.

(** ** Requests, responses and the handler boundary *)

Record ContentRequest : Type :=
{ username : string; topic : string; language : string }.

Record ContentResponse : Type := { content : string }.

Record FitnessRequest : Type := { height : Z; weight : Z; goal : string }.

Record FitnessResponse : Type :=
{ bmi : PyFloat.float; category : string; plan : list string }.

(** [preference] is [Optional[str]]: [None] is Python's [None]. *)
Record DiseaseRequest : Type :=
{ disease : string; preference : option string }.

Record DiseaseResponse : Type :=
{ recommended : list string; avoid : list string }.

(** What the client receives: the body of a 200, or the [detail] of the
  [HTTPException] with status 500. *)
Inductive http (A : Type) : Type :=
| HTTP200 (body : A)
| HTTP500 (detail : string).
Arguments HTTP200 {A} body.
Arguments HTTP500 {A} detail.

(** [try: ... except Exception as e: raise HTTPException(500, str(e))] *)
Definition try_except {A : Type} (body : M A) : heap -> http A * heap :=
fun h =>
  match body h with
  | (Ok a, h') => (HTTP200 a, h')
  | (Raise e, h') => (HTTP500 (str_exn e), h')
  end.

(** ** POST /generate *)

Module Generate.

Import PyStr Py.

Definition template_artificial_intelligence : string :=
  "# The Future of Artificial Intelligence

Artificial Intelligence (AI) is revolutionizing the way we live and work. From self-driving cars to virtual assistants, AI is becoming an integral part of our daily lives.

## Key Areas of AI Impact:
1. **Healthcare**: AI-powered diagnosis and drug discovery
2. **Education**: Personalized learning experiences
3. **Business**: Automated decision-making and analytics
4. **Environment**: Climate change prediction and solutions

## Challenges Ahead:
- Ethical considerations and bias in AI
- Privacy concerns
- Job displacement vs. job creation

The future of AI is both exciting and challenging. As we continue to develop these technologies, it's crucial to ensure they benefit humanity as a whole.".

Definition template_climate_change : string :=
  "# Understanding Climate Change: A Call to Action

Climate change is one of the most pressing issues of our time. The Earth's temperature has risen significantly over the past century, leading to severe environmental consequences.

## Key Facts:
- Global temperatures have risen by 1.1°C since pre-industrial times
- Sea levels are rising at an accelerating rate
- Extreme weather events are becoming more frequent

## What Can We Do?
1. Reduce carbon emissions
2. Switch to renewable energy
3. Practice sustainable living
4. Support environmental policies

Every action counts in the fight against climate change. Together, we can make a difference.".

Definition template_english_default : string :=
  "# {topic}

Here's some interesting information about {topic}:

## Key Points:
• {topic} is an important topic in today's world
• It affects various aspects of our lives
• Understanding it better can help us make informed decisions

## Why It Matters:
The significance of {topic} cannot be overstated. It plays a crucial role in shaping our future and the world around us.

## Take Action:
Learn more about {topic} and share this knowledge with others. Every conversation makes a difference!".

Definition template_hindi_default : string :=
  "# {topic} के बारे में जानकारी

{topic} आज के समय का एक महत्वपूर्ण विषय है। आइए जानते हैं इसके बारे में:

## मुख्य बिंदु:
• {topic} हमारे दैनिक जीवन को प्रभावित करता है
• इसकी समझ से हम बेहतर निर्णय ले सकते हैं
• यह भविष्य के लिए महत्वपूर्ण है

## क्यों जरूरी है:
{topic} की अहमियत को कम करके नहीं आंका जा सकता। यह हमारे भविष्य को आकार देने में महत्वपूर्ण भूमिका निभाता है।".

(** The dict display bound to [content_templates]: the inner dicts are
    built first, in source order, then the outer one. *)
Definition build_content_templates : M ref :=
  english <- new_dict
    [ ("Artificial Intelligence", Str template_artificial_intelligence);
      ("Climate Change", Str template_climate_change);
      ("default", Str template_english_default) ] ;;
  hindi <- new_dict [ ("default", Str template_hindi_default) ] ;;
  new_dict [ ("english", Ref english); ("hindi", Ref hindi) ].

Definition generate_content_body (request : ContentRequest)
  : M ContentResponse :=
  content_templates <- build_content_templates ;;
  (* Select language template *)
  let lang_key := lower request.(language) in
  known <- dict_contains content_templates lang_key ;;
  let lang_key := if negb known then "english" else lang_key in
  v <- dict_getitem content_templates lang_key ;;
  templates <- as_ref v ;;
  (* Get content or use default *)
  has_topic <- dict_contains templates request.(topic) ;;
  content <-
    (if has_topic then
       v <- dict_getitem templates request.(topic) ;;
       as_str v
     else
       v <- dict_getitem content_templates "english" ;;
       english <- as_ref v ;;
       fallback <- dict_getitem english "default" ;;
       v <- dict_get templates "default" fallback ;;
       default_template <- as_str v ;;
       ret (replace "{topic}" request.(topic) default_template)) ;;
  ret {| content := content |}.

Definition generate_content (request : ContentRequest)
  : heap -> http ContentResponse * heap :=
  try_except (generate_content_body request).

End Generate.

(** ** POST /fitness-plan *)

Module Fitness.

Import PyStr PyFloat Py.

Definition plan_lose : list string :=
  [ "🏃 Cardio: 30-45 minutes daily (running, cycling, swimming)";
    "🥗 Calorie deficit diet (reduce 500 calories from maintenance)";
    "💪 Strength training: 3 times a week";
    "🥤 Drink 3-4 liters of water daily";
    "😴 Get 7-8 hours of sleep";
    "📊 Track your progress weekly" ].

Definition plan_gain : list string :=
  [ "🏋️ Strength training: 4-5 times a week";
    "🍗 High protein diet (1.6-2.2g protein per kg bodyweight)";
    "📈 Calorie surplus (300-500 calories above maintenance)";
    "🥩 Include lean meats, eggs, dairy, and legumes";
    "💤 Rest and recovery are crucial";
    "📝 Progressive overload in workouts" ].

Definition plan_maintain : list string :=
  [ "🚶 Active lifestyle: 10,000 steps daily";
    "⚖️ Balanced diet with proper macros";
    "🏋️ Exercise: 3-4 times a week (mix of cardio and strength)";
    "🧘 Include flexibility training";
    "💧 Stay hydrated";
    "📊 Monitor weight weekly" ].

Definition plan_endurance : list string :=
  [ "🏃 Long-distance cardio: 3-4 times a week";
    "⏱️ Interval training: 2 times a week";
    "💪 Light strength training for muscle endurance";
    "🍝 Complex carbs for sustained energy";
    "🧘 Yoga for flexibility and recovery";
    "📈 Gradually increase intensity" ].

(** The [else] branch: "Get Fit (general)". *)
Definition plan_general : list string :=
  [ "🚶 Start with 20-30 minutes walking daily";
    "💪 Basic bodyweight exercises (push-ups, squats, lunges)";
    "🥗 Eat whole foods, avoid processed items";
    "🧘 Stretch for 10 minutes daily";
    "💧 Drink plenty of water";
    "📈 Gradually increase workout intensity" ].

(** [height_m = height / 100; bmi = weight / (height_m * height_m);
    bmi = round(bmi, 1)] *)
Definition compute_bmi (height weight : Z) : result float :=
  match int_truediv height 100 with
  | Raise e => Raise e
  | Ok height_m =>
      let square := fmul height_m height_m in
      match float_of_int weight with
      | Raise e => Raise e
      | Ok w => map_result round1 (float_truediv w square)
      end
  end.

(** The float literal [18.5] and the [int]s [25] and [30], which Python
    compares with a float by value. *)
Definition f18_5 : float := decimal1 185.
Definition f25 : float := of_Z 25.
Definition f30 : float := of_Z 30.

Definition bmi_category (bmi : float) : string :=
  if flt bmi f18_5 then "Underweight"
  else if fle f18_5 bmi && flt bmi f25 then "Normal weight"
  else if fle f25 bmi && flt bmi f30 then "Overweight"
  else "Obese".

(** The [if]/[elif] chain over the lower-cased goal. *)
Definition goal_plan (goal : string) : list string :=
  if contains "lose" goal then plan_lose
  else if contains "gain" goal || contains "muscle" goal then plan_gain
  else if contains "maintain" goal then plan_maintain
  else if contains "endurance" goal then plan_endurance
  else plan_general.

Definition get_fitness_plan_body (request : FitnessRequest)
  : M FitnessResponse :=
  (* Calculate BMI *)
  bmi <- lift (compute_bmi request.(height) request.(weight)) ;;
  (* Determine BMI category *)
  let category := bmi_category bmi in
  (* Generate personalized plan based on goal *)
  let goal := lower request.(goal) in
  _ <- new_list [] ;;
  plan <- new_list (goal_plan goal) ;;
  items <- list_items plan ;;
  ret {| bmi := bmi; category := category; plan := items |}.

Definition get_fitness_plan (request : FitnessRequest)
  : heap -> http FitnessResponse * heap :=
  try_except (get_fitness_plan_body request).

End Fitness.

(** ** POST /disease-diet *)

Module Diet.

Import PyStr Py.

(** [diet_plans]: each plan dict is built from its two list displays,
    then the outer dict, in source order. *)
Definition build_plan (rec av : list string) : M ref :=
  r <- new_list rec ;;
  a <- new_list av ;;
  new_dict [ ("recommended", Ref r); ("avoid", Ref a) ].

Definition diabetes_recommended : list string :=
  [ "Leafy greens (spinach, kale, lettuce)";
    "Whole grains (oats, quinoa, brown rice)";
    "Lean proteins (chicken, fish, tofu)";
    "Berries and citrus fruits";
    "Nuts and seeds (almonds, walnuts, chia seeds)";
    "Legumes (beans, lentils, chickpeas)";
    "Greek yogurt (unsweetened)" ].

Definition diabetes_avoid : list string :=
  [ "Sugary beverages and sodas";
    "White bread and refined flour";
    "Processed snacks and sweets";
    "Fried foods";
    "High-sugar fruits (bananas, grapes, mangoes)";
    "Sweetened breakfast cereals";
    "Honey, maple syrup, and added sugars" ].

Definition hypertension_recommended : list string :=
  [ "Bananas and avocados (potassium-rich)";
    "Leafy greens (spinach, swiss chard)";
    "Beets and beetroot juice";
    "Oats and whole grains";
    "Fatty fish (salmon, mackerel)";
    "Garlic and herbs (instead of salt)";
    "Low-fat dairy products" ].

Definition hypertension_avoid : list string :=
  [ "High-sodium foods (canned soups, processed meats)";
    "Pickled and fermented foods";
    "Fast food and restaurant meals";
    "Alcohol";
    "Caffeine in excess";
    "Frozen dinners";
    "Salty snacks (chips, pretzels)" ].

Definition thyroid_recommended : list string :=
  [ "Selenium-rich foods (Brazil nuts, tuna)";
    "Zinc-rich foods (oysters, beef, chickpeas)";
    "Antioxidant-rich berries";
    "Bone broth";
    "Seaweed (for hypothyroidism - consult doctor)";
    "Lean proteins";
    "Cruciferous veggies (cooked, not raw)" ].

Definition thyroid_avoid : list string :=
  [ "Soy-based products (can interfere with medication)";
    "Excessive iodine supplements";
    "Processed foods";
    "Gluten (if sensitive)";
    "Raw cruciferous vegetables in large amounts";
    "Sugar and refined carbs";
    "Alcohol" ].

Definition heart_disease_recommended : list string :=
  [ "Fatty fish (salmon, tuna, mackerel)";
    "Oats and barley";
    "Berries and cherries";
    "Nuts (walnuts, almonds)";
    "Olive oil";
    "Avocados";
    "Dark chocolate (70%+ cocoa)" ].

Definition heart_disease_avoid : list string :=
  [ "Trans fats (fried foods, baked goods)";
    "Red meat and processed meats";
    "Full-fat dairy";
    "Excessive sodium";
    "Sugar-sweetened beverages";
    "Refined carbohydrates";
    "Excessive alcohol" ].

Definition default_recommended : list string :=
  [ "Fresh fruits and vegetables";
    "Lean proteins (chicken, fish, legumes)";
    "Whole grains";
    "Healthy fats (avocado, nuts, olive oil)";
    "Plenty of water";
    "Herbal teas";
    "Probiotic foods (yogurt, kefir)" ].

Definition default_avoid : list string :=
  [ "Processed foods";
    "Excessive sugar";
    "Fried and fatty foods";
    "Excessive alcohol";
    "Caffeine late in the day";
    "Artificial additives";
    "Highly salted foods" ].

Definition build_diet_plans : M ref :=
  diabetes <- build_plan diabetes_recommended diabetes_avoid ;;
  hypertension <- build_plan hypertension_recommended hypertension_avoid ;;
  thyroid <- build_plan thyroid_recommended thyroid_avoid ;;
  heart_disease <- build_plan heart_disease_recommended heart_disease_avoid ;;
  new_dict
    [ ("diabetes", Ref diabetes);
      ("hypertension", Ref hypertension);
      ("thyroid", Ref thyroid);
      ("heart disease", Ref heart_disease) ].

Definition build_default_plan : M ref :=
  build_plan default_recommended default_avoid.

(** [for key in diet_plans: if key in disease: selected_plan =
    diet_plans[key]; break], over the keys still to visit; [None] is the
    initial [selected_plan = None]. *)
Fixpoint find_matching_plan (diet_plans : ref) (disease : string)
    (keys : list string) : M (option ref) :=
  match keys with
  | [] => ret None
  | key :: rest =>
      if contains key disease then
        v <- dict_getitem diet_plans key ;;
        p <- as_ref v ;;
        ret (Some p)
      else find_matching_plan diet_plans disease rest
  end.

(** [if not selected_plan: selected_plan = default_plan] *)
Definition or_default (selected_plan : option ref) (default_plan : ref)
  : M ref :=
  match selected_plan with
  | None => ret default_plan
  | Some p =>
      truthy <- dict_truthy p ;;
      if truthy then ret p else ret default_plan
  end.

(** [selected_plan["recommended"] = [f for f in
    selected_plan["recommended"] if keep(f)]]: the comprehension reads the
    list bound in the dict and builds a new list object, which the dict
    entry is then bound to. *)
Definition rebind_filtered (selected_plan : ref) (keep : string -> bool)
  : M unit :=
  v <- dict_getitem selected_plan "recommended" ;;
  old <- as_ref v ;;
  items <- list_items old ;;
  fresh <- new_list (filter keep items) ;;
  dict_setitem selected_plan "recommended" (Ref fresh).

(** [selected_plan["recommended"].extend(xs)] *)
Definition extend_recommended (selected_plan : ref) (xs : list string)
  : M unit :=
  v <- dict_getitem selected_plan "recommended" ;;
  l <- as_ref v ;;
  list_extend l xs.

(** [selected_plan["recommended"].append(x)] *)
Definition append_recommended (selected_plan : ref) (x : string) : M unit :=
  v <- dict_getitem selected_plan "recommended" ;;
  l <- as_ref v ;;
  list_append l x.

Definition keep_vegetarian (f : string) : bool :=
  negb (contains "chicken" (lower f)) && negb (contains "fish" (lower f)).

Definition keep_vegan (f : string) : bool :=
  negb (contains "chicken" (lower f)) && negb (contains "fish" (lower f))
  && negb (contains "yogurt" (lower f)) && negb (contains "dairy" (lower f)).

Definition keep_keto (f : string) : bool :=
  negb (contains "grains" (lower f)) && negb (contains "oats" (lower f)).

(** [request.preference and request.preference != "No Preference"] *)
Definition preference_given (preference : option string) : bool :=
  match preference with
  | None => false
  | Some p => negb (String.eqb p "") && negb (String.eqb p "No Preference")
  end.

(** "Adjust based on dietary preference" *)
Definition adjust_preference (selected_plan : ref)
    (preference : option string) : M unit :=
  match preference with
  | Some p =>
      if preference_given preference then
        let pref := lower p in
        if contains "vegetarian" pref then
          rebind_filtered selected_plan keep_vegetarian ;;
          append_recommended selected_plan
            "Plant-based proteins (tofu, tempeh, legumes)"
        else if contains "vegan" pref then
          rebind_filtered selected_plan keep_vegan ;;
          extend_recommended selected_plan
            [ "Plant-based proteins"; "Fortified plant milks" ]
        else if contains "keto" pref then
          rebind_filtered selected_plan keep_keto ;;
          extend_recommended selected_plan
            [ "Healthy fats"; "Low-carb vegetables" ]
        else ret tt
      else ret tt
  | None => ret tt
  end.

(** [selected_plan[key][:n]] *)
Definition slice_entry (selected_plan : ref) (key : string) (n : nat)
  : M (list string) :=
  v <- dict_getitem selected_plan key ;;
  l <- as_ref v ;;
  items <- list_items l ;;
  ret (firstn n items).

(** The statements up to "Find matching diet plan": the two tables are
    built and the plan the disease text selects is returned. *)
Definition choose_plan (disease : string) : M ref :=
  (* Diet databases *)
  diet_plans <- build_diet_plans ;;
  (* Default plan for unspecified diseases *)
  default_plan <- build_default_plan ;;
  (* Find matching diet plan *)
  keys <- dict_keys diet_plans ;;
  selected_plan <- find_matching_plan diet_plans disease keys ;;
  or_default selected_plan default_plan.

Definition get_disease_diet_body (request : DiseaseRequest)
  : M DiseaseResponse :=
  let disease := lower request.(disease) in
  selected_plan <- choose_plan disease ;;
  (* Adjust based on dietary preference *)
  adjust_preference selected_plan request.(preference) ;;
  rec <- slice_entry selected_plan "recommended" 8 ;;
  av <- slice_entry selected_plan "avoid" 6 ;;
  ret {| recommended := rec; avoid := av |}.

Definition get_disease_diet (request : DiseaseRequest)
  : heap -> http DiseaseResponse * heap :=
  try_except (get_disease_diet_body request).

(** The address a plan dict binds to [key] in a store, and the list at
    that address, for stating what a run has left there. *)
Definition bound_ref (h : heap) (plan : ref) (key : string) : option ref :=
  let 'Loc n := plan in
  match nth_error h n with
  | Some (DictObj entries) =>
      match PyDict.lookup key entries with
      | Some (Ref r) => Some r
      | _ => None
      end
  | _ => None
  end.

Definition bound_list (h : heap) (plan : ref) (key : string)
  : option (list string) :=
  let 'Loc n := plan in
  match nth_error h n with
  | Some (DictObj entries) =>
      match PyDict.lookup key entries with
      | Some (Ref (Loc l)) =>
          match nth_error h l with
          | Some (ListObj items) => Some items
          | _ => None
          end
      | _ => None
      end
  | _ => None
  end.

End Diet.

(** ** Moving a computation to another base address

    A handler only ever names the objects it has allocated itself, so a
    run above a store [h] is the run from the empty store with every
    address moved up by [length h].  [relocates] states that for one
    computation; it is preserved by [bind]. *)

Module Reloc.

Definition shift_ref (b : nat) (r : ref) : ref :=
  let 'Loc n := r in Loc (b + n).

Definition shift_val (b : nat) (v : val) : val :=
  match v with
  | Str s => Str s
  | Ref r => Ref (shift_ref b r)
  end.

Definition shift_entries (b : nat) (d : list (string * val))
  : list (string * val) :=
  map (fun kv => (fst kv, shift_val b (snd kv))) d.

Definition shift_obj (b : nat) (o : obj) : obj :=
  match o with
  | ListObj items => ListObj items
  | DictObj entries => DictObj (shift_entries b entries)
  end.

Definition shift_heap (b : nat) (l : heap) : heap := map (shift_obj b) l.

Definition shift_opt (b : nat) (o : option ref) : option ref :=
  option_map (shift_ref b) o.

(** [m'] is [m] with its addresses moved by [b]: above any store of size
    [b], [m'] does what [m] does on the objects allocated since. *)
Definition relocates {A : Type} (b : nat) (sh : A -> A) (m m' : M A) : Prop :=
  forall h l, List.length h = b ->
    m' (h ++ shift_heap b l)
    = (map_result sh (fst (m l)), h ++ shift_heap b (snd (m l))).

End Reloc.

(** ** The behaviour the specification describes, as pure functions

    These follow the wording of the specification and are what the
    handlers above are compared with. *)

Module Spec.

Import PyStr.

(** An entry "contains" one of the words, case-insensitively. *)
Definition mentions (words : list string) (entry : string) : bool :=
  existsb (fun w => contains w (lower entry)) words.

(** Drop the entries that mention one of [words], then append [extra]. *)
Definition drop_then_append (words extra rec : list string) : list string :=
  filter (fun entry => negb (mentions words entry)) rec ++ extra.

(** The Preference Filter: an else-if chain, vegetarian before vegan
    before keto; anything else, and no preference at all, is a no-op. *)
Definition preference_filter (preference : option string)
    (rec : list string) : list string :=
  match preference with
  | None => rec
  | Some p =>
      let pref := lower p in
      if contains "vegetarian" pref then
        drop_then_append [ "chicken"; "fish" ]
          [ "Plant-based proteins (tofu, tempeh, legumes)" ] rec
      else if contains "vegan" pref then
        drop_then_append [ "chicken"; "fish"; "yogurt"; "dairy" ]
          [ "Plant-based proteins"; "Fortified plant milks" ] rec
      else if contains "keto" pref then
        drop_then_append [ "grains"; "oats" ]
          [ "Healthy fats"; "Low-carb vegetables" ] rec
      else rec
  end.

(** Whether one of the three branches fires. *)
Definition filter_fires (preference : option string) : bool :=
  match preference with
  | None => false
  | Some p =>
      let pref := lower p in
      contains "vegetarian" pref || contains "vegan" pref
      || contains "keto" pref
  end.

(** The known condition keys with their (recommended, avoid) lists, in
    the order they are tried. *)
Definition condition_plans : list (string * (list string * list string)) :=
  [ ("diabetes", (Diet.diabetes_recommended, Diet.diabetes_avoid));
    ("hypertension", (Diet.hypertension_recommended, Diet.hypertension_avoid));
    ("thyroid", (Diet.thyroid_recommended, Diet.thyroid_avoid));
    ("heart disease",
      (Diet.heart_disease_recommended, Diet.heart_disease_avoid)) ].

Definition default_lists : list string * list string :=
  (Diet.default_recommended, Diet.default_avoid).

(** First key that is a substring of the text, else the default. *)
Fixpoint first_match (text : string)
    (plans : list (string * (list string * list string)))
  : list string * list string :=
  match plans with
  | [] => default_lists
  | (key, lists) :: rest =>
      if contains key text then lists else first_match text rest
  end.

Definition select_plan (disease : string) : list string * list string :=
  first_match (lower disease) condition_plans.

(** The full list after the filter, before the response truncates it. *)
Definition full_recommended (request : DiseaseRequest) : list string :=
  preference_filter request.(preference)
    (fst (select_plan request.(disease))).

Definition full_avoid (request : DiseaseRequest) : list string :=
  snd (select_plan request.(disease)).

Definition disease_diet (request : DiseaseRequest) : DiseaseResponse :=
  {| recommended := firstn 8 (full_recommended request);
     avoid := firstn 6 (full_avoid request) |}.

(** The language actually served, and its template set as
    (topic, text) pairs. *)
Definition served_language (language : string) : string :=
  let lang_key := lower language in
  if String.eqb lang_key "english" || String.eqb lang_key "hindi"
  then lang_key else "english".

Definition english_templates : list (string * string) :=
  [ ("Artificial Intelligence", Generate.template_artificial_intelligence);
    ("Climate Change", Generate.template_climate_change);
    ("default", Generate.template_english_default) ].

Definition hindi_templates : list (string * string) :=
  [ ("default", Generate.template_hindi_default) ].

Definition templates_of (lang_key : string) : list (string * string) :=
  if String.eqb lang_key "hindi" then hindi_templates else english_templates.

Fixpoint template_for (topic : string) (templates : list (string * string))
  : option string :=
  match templates with
  | [] => None
  | (k, text) :: rest =>
      if String.eqb k topic then Some text else template_for topic rest
  end.

(** The text between the occurrences of a non-empty [sep], scanning from
    the left, and the text put back together around another string. *)
Fixpoint pieces (sep : string) (skip : nat) (s : string) : list string :=
  match s with
  | EmptyString => [ EmptyString ]
  | String c s' =>
      match skip with
      | S k => pieces sep k s'
      | O =>
          if startswith sep s
          then EmptyString :: pieces sep (String.length sep - 1) s'
          else
            match pieces sep 0 s' with
            | p :: ps => String c p :: ps
            | [] => [ String c EmptyString ]
            end
      end
  end.

Fixpoint join (sep : string) (ps : list string) : string :=
  match ps with
  | [] => EmptyString
  | [ p ] => p
  | p :: ps' => p ++ sep ++ join sep ps'
  end.

Definition generated (request : ContentRequest) : string :=
  let templates := templates_of (served_language request.(language)) in
  match template_for request.(topic) templates with
  | Some text => text
  | None =>
      let default_template :=
        match template_for "default" templates with
        | Some text => text
        | None => Generate.template_english_default
        end in
      replace "{topic}" request.(topic) default_template
  end.

End Spec.

(** * Proofs *)

Local Open Scope py_scope.
Import Store Py Reloc.

(** ** The store: reading and writing above a prefix *)

Section StoreFacts.

Import Store.

Lemma nth_error_above (h l : heap) (n : nat) :
  nth_error (h ++ l) (List.length h + n) = nth_error l n.
Proof.
  induction h as [|o h IH]; simpl; auto.
Qed.

Lemma update_above (h l : heap) (n : nat) (o : obj) :
  update (h ++ l) (List.length h + n) o = h ++ update l n o.
Proof.
  induction h as [|o' h IH]; simpl; [reflexivity|].
  now rewrite IH.
Qed.

Lemma nth_error_update_same (h : heap) (n : nat) (o o' : obj) :
  nth_error h n = Some o' -> nth_error (update h n o) n = Some o.
Proof.
  revert n; induction h as [|x h IH]; intros [|n]; simpl;
    try discriminate; auto.
Qed.

Lemma nth_error_update_other (h : heap) (n k : nat) (o : obj) :
  k <> n -> nth_error (update h n o) k = nth_error h k.
Proof.
  revert n k; induction h as [|x h IH]; intros [|n] [|k] Hne; simpl; auto.
  contradiction.
Qed.

Lemma update_comm (h : heap) (n k : nat) (o o' : obj) :
  n <> k -> update (update h n o) k o' = update (update h k o') n o.
Proof.
  revert n k; induction h as [|x h IH]; intros [|n] [|k] Hne; simpl; auto.
  - contradiction.
  - rewrite IH by lia. reflexivity.
Qed.

End StoreFacts.

(** ** Relocation of the primitives *)

Section Relocation.

Variable b : nat.

Lemma shift_heap_app (l l' : heap) :
  shift_heap b (l ++ l') = shift_heap b l ++ shift_heap b l'.
Proof. apply map_app. Qed.

Lemma shift_heap_length (l : heap) :
  List.length (shift_heap b l) = List.length l.
Proof. apply length_map. Qed.

Lemma shift_heap_nth (l : heap) (n : nat) :
  nth_error (shift_heap b l) n = option_map (shift_obj b) (nth_error l n).
Proof. apply nth_error_map. Qed.

Lemma shift_heap_update (l : heap) (n : nat) (o : obj) :
  update (shift_heap b l) n (shift_obj b o) = shift_heap b (update l n o).
Proof.
  revert n; induction l as [|x l IH]; intros [|n]; simpl; auto.
  now rewrite IH.
Qed.

Lemma shift_lookup (k : string) (d : list (string * val)) :
  PyDict.lookup k (shift_entries b d)
  = option_map (shift_val b) (PyDict.lookup k d).
Proof.
  induction d as [|[k' v] d IH]; simpl; [reflexivity|].
  destruct (String.eqb k' k); auto.
Qed.

Lemma shift_set (k : string) (v : val) (d : list (string * val)) :
  PyDict.set k (shift_val b v) (shift_entries b d)
  = shift_entries b (PyDict.set k v d).
Proof.
  induction d as [|[k' v'] d IH]; simpl; [reflexivity|].
  destruct (String.eqb k' k); simpl; [reflexivity|].
  now rewrite IH.
Qed.

Lemma shift_keys (d : list (string * val)) :
  PyDict.keys (shift_entries b d) = PyDict.keys d.
Proof.
  unfold PyDict.keys, shift_entries. rewrite map_map. reflexivity.
Qed.

Lemma reloc_ret {A : Type} (sh : A -> A) (a a' : A) :
  a' = sh a -> relocates b sh (ret a) (ret a').
Proof. intros -> h l _. reflexivity. Qed.

Lemma reloc_raise {A : Type} (sh : A -> A) (e : exn) :
  relocates b sh (raise e) (raise e).
Proof. intros h l _. reflexivity. Qed.

Lemma reloc_lift {A : Type} (r : result A) :
  relocates b (fun a => a) (lift r) (lift r).
Proof. intros h l _. unfold lift. simpl. destruct r; reflexivity. Qed.

Lemma reloc_bind {A B : Type} (shA : A -> A) (shB : B -> B)
    (m m' : M A) (k k' : A -> M B) :
  relocates b shA m m' ->
  (forall a, relocates b shB (k a) (k' (shA a))) ->
  relocates b shB (bind m k) (bind m' k').
Proof.
  intros Hm Hk h l Hb. unfold bind.
  rewrite (Hm h l Hb).
  destruct (m l) as [[a|e] l1]; simpl; [|reflexivity].
  apply Hk, Hb.
Qed.

Lemma reloc_alloc (o o' : obj) :
  o' = shift_obj b o -> relocates b (shift_ref b) (alloc o) (alloc o').
Proof.
  intros -> h l Hb. unfold alloc. simpl.
  rewrite length_app, shift_heap_length, Hb, shift_heap_app, app_assoc.
  reflexivity.
Qed.

Lemma reloc_load (r r' : ref) :
  r' = shift_ref b r -> relocates b (shift_obj b) (load r) (load r').
Proof.
  intros -> h l Hb. destruct r as [n]. unfold load. simpl.
  pose proof (nth_error_above h (shift_heap b l) n) as E.
  rewrite Hb in E. rewrite E, shift_heap_nth.
  destruct (nth_error l n); reflexivity.
Qed.

Lemma reloc_store (r r' : ref) (o o' : obj) :
  r' = shift_ref b r -> o' = shift_obj b o ->
  relocates b (fun u => u) (store r o) (store r' o').
Proof.
  intros -> -> h l Hb. destruct r as [n]. unfold store. simpl.
  pose proof (nth_error_above h (shift_heap b l) n) as E.
  pose proof (update_above h (shift_heap b l) n (shift_obj b o)) as U.
  rewrite Hb in E, U. rewrite E, U, shift_heap_nth, shift_heap_update.
  destruct (nth_error l n); reflexivity.
Qed.

End Relocation.

(** One step of a relocation proof: a primitive, or a [bind] whose first
    computation is a primitive. *)
Ltac reloc_prim :=
  first
    [ eapply reloc_ret; reflexivity
    | apply reloc_raise
    | apply reloc_lift
    | eapply reloc_alloc; reflexivity
    | eapply reloc_load; reflexivity
    | eapply reloc_store; reflexivity ].

Ltac reloc_case :=
  match goal with
  | |- relocates _ _ (match ?x with _ => _ end) _ => destruct x; simpl
  | |- relocates _ _ (if ?x then _ else _) _ => destruct x; simpl
  end.

Ltac reloc_with tac :=
  repeat first
    [ tac
    | reloc_prim
    | eapply reloc_bind; [ first [ tac | reloc_prim ] | intro; cbv beta ]
    | eapply (reloc_bind _ (fun x => x));
        [ solve [ reloc_with tac ] | intro; cbv beta ]
    | reloc_case ].

(** ** Relocation of the operations on lists and dicts *)

Section DerivedOps.

Variable b : nat.

Lemma reloc_new_list (items : list string) :
  relocates b (shift_ref b) (new_list items) (new_list items).
Proof. unfold new_list. reloc_prim. Qed.

Lemma reloc_new_dict (d d' : list (string * val)) :
  d' = shift_entries b d ->
  relocates b (shift_ref b) (new_dict d) (new_dict d').
Proof. intros ->. unfold new_dict. reloc_prim. Qed.

Lemma reloc_as_ref (v v' : val) :
  v' = shift_val b v -> relocates b (shift_ref b) (as_ref v) (as_ref v').
Proof. intros ->. destruct v; simpl; reloc_prim. Qed.

Lemma reloc_as_str (v v' : val) :
  v' = shift_val b v -> relocates b (fun s => s) (as_str v) (as_str v').
Proof. intros ->. destruct v; simpl; reloc_prim. Qed.

Lemma reloc_list_items (r r' : ref) :
  r' = shift_ref b r ->
  relocates b (fun l => l) (list_items r) (list_items r').
Proof. intros ->. unfold list_items. reloc_with fail. Qed.

Lemma reloc_list_extend (r r' : ref) (xs : list string) :
  r' = shift_ref b r ->
  relocates b (fun u => u) (list_extend r xs) (list_extend r' xs).
Proof.
  intros ->. unfold list_extend.
  reloc_with ltac:(eapply reloc_list_items; reflexivity).
Qed.

Lemma reloc_dict_entries (r r' : ref) :
  r' = shift_ref b r ->
  relocates b (shift_entries b) (dict_entries r) (dict_entries r').
Proof. intros ->. unfold dict_entries. reloc_with fail. Qed.

Ltac reloc_dict :=
  intros; subst;
  unfold dict_contains, dict_getitem, dict_get, dict_setitem, dict_keys,
    dict_truthy;
  eapply reloc_bind;
    [ eapply reloc_dict_entries; reflexivity | intro; cbv beta ];
  rewrite ?shift_lookup, ?shift_keys;
  reloc_with fail.

Lemma reloc_dict_contains (r r' : ref) (k : string) :
  r' = shift_ref b r ->
  relocates b (fun x => x) (dict_contains r k) (dict_contains r' k).
Proof.
  reloc_dict. eapply reloc_ret.
  destruct (PyDict.lookup k a); reflexivity.
Qed.

Lemma reloc_dict_getitem (r r' : ref) (k : string) :
  r' = shift_ref b r ->
  relocates b (shift_val b) (dict_getitem r k) (dict_getitem r' k).
Proof. reloc_dict. Qed.

Lemma reloc_dict_get (r r' : ref) (k : string) (v v' : val) :
  r' = shift_ref b r -> v' = shift_val b v ->
  relocates b (shift_val b) (dict_get r k v) (dict_get r' k v').
Proof. reloc_dict. Qed.

Lemma reloc_dict_setitem (r r' : ref) (k : string) (v v' : val) :
  r' = shift_ref b r -> v' = shift_val b v ->
  relocates b (fun u => u) (dict_setitem r k v) (dict_setitem r' k v').
Proof.
  reloc_dict. eapply reloc_store; [reflexivity|].
  simpl. now rewrite shift_set.
Qed.

Lemma reloc_dict_keys (r r' : ref) :
  r' = shift_ref b r ->
  relocates b (fun x => x) (dict_keys r) (dict_keys r').
Proof. reloc_dict. Qed.

Lemma reloc_dict_truthy (r r' : ref) :
  r' = shift_ref b r ->
  relocates b (fun x => x) (dict_truthy r) (dict_truthy r').
Proof. reloc_dict. eapply reloc_ret. destruct a; reflexivity. Qed.

End DerivedOps.

(** Every operation on objects, for the steps of a handler. *)
Ltac reloc_op :=
  first
    [ apply reloc_new_list
    | eapply reloc_new_dict; reflexivity
    | eapply reloc_as_ref; reflexivity
    | eapply reloc_as_str; reflexivity
    | eapply reloc_list_items; reflexivity
    | eapply reloc_list_extend; reflexivity
    | eapply reloc_dict_contains; reflexivity
    | eapply reloc_dict_getitem; reflexivity
    | eapply reloc_dict_get; reflexivity
    | eapply reloc_dict_setitem; reflexivity
    | eapply reloc_dict_keys; reflexivity
    | eapply reloc_dict_truthy; reflexivity ].

Ltac reloc := reloc_with reloc_op.

(** ** Relocation of the handlers *)

Section Handlers.

Variable b : nat.

Lemma reloc_build_content_templates :
  relocates b (shift_ref b) Generate.build_content_templates
    Generate.build_content_templates.
Proof. unfold Generate.build_content_templates. reloc. Qed.

Lemma reloc_generate_content (request : ContentRequest) :
  relocates b (fun r => r) (Generate.generate_content_body request)
    (Generate.generate_content_body request).
Proof.
  unfold Generate.generate_content_body.
  reloc_with ltac:(first [ apply reloc_build_content_templates | reloc_op ]).
Qed.

Lemma reloc_get_fitness_plan (request : FitnessRequest) :
  relocates b (fun r => r) (Fitness.get_fitness_plan_body request)
    (Fitness.get_fitness_plan_body request).
Proof.
  unfold Fitness.get_fitness_plan_body.
  reloc.
Qed.

Lemma reloc_build_plan (rec av : list string) :
  relocates b (shift_ref b) (Diet.build_plan rec av) (Diet.build_plan rec av).
Proof. unfold Diet.build_plan. reloc. Qed.

Lemma reloc_build_diet_plans :
  relocates b (shift_ref b) Diet.build_diet_plans Diet.build_diet_plans.
Proof.
  unfold Diet.build_diet_plans.
  reloc_with ltac:(first [ apply reloc_build_plan | reloc_op ]).
Qed.

Lemma reloc_find_matching_plan (dp : ref) (disease : string)
    (keys : list string) :
  relocates b (shift_opt b) (Diet.find_matching_plan dp disease keys)
    (Diet.find_matching_plan (shift_ref b dp) disease keys).
Proof.
  induction keys as [|key rest IH]; simpl.
  - reloc.
  - destruct (PyStr.contains key disease); [reloc | exact IH].
Qed.

Lemma reloc_or_default (sel : option ref) (dflt : ref) :
  relocates b (shift_ref b) (Diet.or_default sel dflt)
    (Diet.or_default (shift_opt b sel) (shift_ref b dflt)).
Proof. destruct sel; simpl; reloc. Qed.

Lemma reloc_adjust_preference (sel : ref) (preference : option string) :
  relocates b (fun u => u) (Diet.adjust_preference sel preference)
    (Diet.adjust_preference (shift_ref b sel) preference).
Proof.
  unfold Diet.adjust_preference, Diet.rebind_filtered,
    Diet.extend_recommended, Diet.append_recommended, list_append.
  reloc.
Qed.

Lemma reloc_slice_entry (sel : ref) (key : string) (n : nat) :
  relocates b (fun l => l) (Diet.slice_entry sel key n)
    (Diet.slice_entry (shift_ref b sel) key n).
Proof. unfold Diet.slice_entry. reloc. Qed.

Lemma reloc_choose_plan (disease : string) :
  relocates b (shift_ref b) (Diet.choose_plan disease) (Diet.choose_plan disease).
Proof.
  unfold Diet.choose_plan, Diet.build_default_plan.
  reloc_with ltac:(first
    [ apply reloc_build_diet_plans | apply reloc_build_plan
    | apply reloc_find_matching_plan | apply reloc_or_default | reloc_op ]).
Qed.

Lemma reloc_get_disease_diet (request : DiseaseRequest) :
  relocates b (fun r => r) (Diet.get_disease_diet_body request)
    (Diet.get_disease_diet_body request).
Proof.
  unfold Diet.get_disease_diet_body.
  reloc_with ltac:(first
    [ apply reloc_choose_plan
    | apply reloc_adjust_preference | apply reloc_slice_entry | reloc_op ]).
Qed.

End Handlers.

(** ** A run above a store is the run from the empty store *)

Lemma run_above {A : Type} (m : M A) (h : heap) :
  relocates (List.length h) (fun a => a) m m ->
  m h = (fst (m []), h ++ shift_heap (List.length h) (snd (m []))).
Proof.
  intros Hm. specialize (Hm h [] eq_refl). simpl in Hm.
  rewrite app_nil_r in Hm. rewrite Hm.
  destruct (fst (m [])); reflexivity.
Qed.

Lemma try_except_above {A : Type} (m : M A) (h : heap) :
  relocates (List.length h) (fun a => a) m m ->
  try_except m h
  = (fst (try_except m []), h ++ shift_heap (List.length h) (snd (try_except m []))).
Proof.
  intros Hm. unfold try_except. rewrite (run_above m h Hm).
  destruct (m []) as [[a|e] l]; reflexivity.
Qed.

Lemma eqb_false_of_neq (p q : string) : p <> q -> String.eqb p q = false.
Proof.
  intros H. destruct (String.eqb_spec p q); [contradiction|reflexivity].
Qed.

(** ** /disease-diet on the empty store *)

(** Case analysis on the substring tests of a request's text fields. *)
Ltac split_tests :=
  repeat match goal with
  | |- context [PyStr.contains ?k (PyStr.lower ?d)] =>
      is_var d; destruct (PyStr.contains k (PyStr.lower d))
  end.

Lemma get_disease_diet_empty (request : DiseaseRequest) :
  fst (Diet.get_disease_diet request []) = HTTP200 (Spec.disease_diet request).
Proof.
  destruct request as [d [p|]].
  - destruct (String.eqb_spec p "") as [->|Hne].
    { cbv -[PyStr.contains PyStr.lower]. split_tests; vm_compute; reflexivity. }
    destruct (String.eqb_spec p "No Preference") as [->|Hnp].
    { cbv -[PyStr.contains PyStr.lower]. split_tests; vm_compute; reflexivity. }
    apply eqb_false_of_neq in Hne, Hnp.
    cbv -[PyStr.contains PyStr.lower String.eqb].
    rewrite Hne, Hnp.
    cbv -[PyStr.contains PyStr.lower String.eqb].
    split_tests; vm_compute; reflexivity.
  - cbv -[PyStr.contains PyStr.lower]. split_tests; vm_compute; reflexivity.
Qed.

(** ** The Preference Filter on any store *)

Section PreferenceFilter.

Import Diet.

Lemma lookup_set_same (k : string) (v : val) (d : list (string * val)) :
  PyDict.lookup k (PyDict.set k v d) = Some v.
Proof.
  induction d as [|[k' v'] d IH]; simpl.
  - now rewrite String.eqb_refl.
  - destruct (String.eqb k' k) eqn:E; simpl; rewrite E; auto.
Qed.

Lemma lookup_set_other (k k' : string) (v : val) (d : list (string * val)) :
  k' <> k -> PyDict.lookup k' (PyDict.set k v d) = PyDict.lookup k' d.
Proof.
  intros Hne. induction d as [|[k0 v0] d IH]; simpl.
  - destruct (String.eqb_spec k k'); [congruence|reflexivity].
  - destruct (String.eqb_spec k0 k) as [->|Hk0]; simpl.
    + destruct (String.eqb_spec k k'); [congruence|reflexivity].
    + destruct (String.eqb k0 k'); auto.
Qed.

Lemma nth_error_lt (h : heap) (n : nat) (o : obj) :
  nth_error h n = Some o -> n < List.length h.
Proof. intros H. apply nth_error_Some. congruence. Qed.

Lemma bind_ok {A B : Type} (m : M A) (k : A -> M B) (h h' : heap)
    (a : A) :
  m h = (Ok a, h') -> bind m k h = k a h'.
Proof. unfold bind. now intros ->. Qed.

Lemma run_dict_getitem (h : heap) (n : nat) (entries : list (string * val))
    (k : string) (v : val) :
  nth_error h n = Some (DictObj entries) -> PyDict.lookup k entries = Some v ->
  dict_getitem (Loc n) k h = (Ok v, h).
Proof.
  intros Hn Hk. unfold dict_getitem, dict_entries, bind, load.
  rewrite Hn. cbn [fst snd]. unfold ret. cbv beta iota. now rewrite Hk.
Qed.

Lemma run_dict_setitem (h : heap) (n : nat) (entries : list (string * val))
    (k : string) (v : val) :
  nth_error h n = Some (DictObj entries) ->
  dict_setitem (Loc n) k v h
  = (Ok tt, update h n (DictObj (PyDict.set k v entries))).
Proof.
  intros Hn. unfold dict_setitem, dict_entries, bind, load, store.
  rewrite Hn. unfold ret. cbv beta iota. now rewrite Hn.
Qed.

Lemma run_list_items (h : heap) (n : nat) (items : list string) :
  nth_error h n = Some (ListObj items) -> list_items (Loc n) h = (Ok items, h).
Proof.
  intros Hn. unfold list_items, bind, load. now rewrite Hn.
Qed.

Lemma run_list_extend (h : heap) (n : nat) (items xs : list string) :
  nth_error h n = Some (ListObj items) ->
  list_extend (Loc n) xs h = (Ok tt, update h n (ListObj (items ++ xs))).
Proof.
  intros Hn. unfold list_extend.
  rewrite (bind_ok _ _ _ _ _ (run_list_items _ _ _ Hn)).
  unfold store. now rewrite Hn.
Qed.

(** One branch of the filter, run on any store in which the plan dict
    binds ["recommended"] to a list: the kept items and the additions are
    in one new list object, and only the dict entry is rebound. *)
Lemma run_rebind_extend (h : heap) (sel old : nat)
    (entries : list (string * val)) (items : list string)
    (keep : string -> bool) (xs : list string) :
  nth_error h sel = Some (DictObj entries) ->
  PyDict.lookup "recommended" entries = Some (Ref (Loc old)) ->
  nth_error h old = Some (ListObj items) ->
  (rebind_filtered (Loc sel) keep ;; extend_recommended (Loc sel) xs) h
  = (Ok tt,
     update (h ++ [ListObj (filter keep items ++ xs)]) sel
       (DictObj (PyDict.set "recommended" (Ref (Loc (List.length h))) entries))).
Proof.
  intros Hsel Hrec Hold.
  pose proof (nth_error_lt _ _ _ Hsel) as Hlt.
  assert (Hne : List.length h <> sel) by lia.
  set (L := ListObj (filter keep items)).
  set (D := DictObj (PyDict.set "recommended" (Ref (Loc (List.length h))) entries)).
  assert (HselL : nth_error (h ++ [L]) sel = Some (DictObj entries))
    by (rewrite (nth_error_app1 h _ Hlt); exact Hsel).
  assert (HselD : nth_error (update (h ++ [L]) sel D) sel = Some D)
    by (exact (nth_error_update_same _ _ D _ HselL)).
  assert (HnewD : nth_error (update (h ++ [L]) sel D) (List.length h) = Some L).
  { rewrite (nth_error_update_other _ _ _ D Hne).
    rewrite (nth_error_app2 h [L] (Nat.le_refl _)), Nat.sub_diag. reflexivity. }
  assert (Hrebind : rebind_filtered (Loc sel) keep h
                    = (Ok tt, update (h ++ [L]) sel D)).
  { unfold rebind_filtered.
    rewrite (bind_ok _ _ _ _ _ (run_dict_getitem _ _ _ _ _ Hsel Hrec)). simpl.
    rewrite (bind_ok _ _ h h (Loc old) eq_refl).
    rewrite (bind_ok _ _ _ _ _ (run_list_items _ _ _ Hold)).
    rewrite (bind_ok _ _ h (h ++ [L]) (Loc (List.length h)) eq_refl).
    exact (run_dict_setitem _ _ _ _ _ HselL). }
  rewrite (bind_ok _ _ _ _ _ Hrebind).
  unfold extend_recommended.
  rewrite (bind_ok _ _ _ _ _
             (run_dict_getitem _ _ _ _ _ HselD (lookup_set_same _ _ _))).
  simpl.
  rewrite (bind_ok _ _ _ _ (Loc (List.length h)) eq_refl).
  rewrite (run_list_extend _ _ _ xs HnewD).
  f_equal.
  rewrite update_comm by lia.
  f_equal.
  pose proof (update_above h [L] 0 (ListObj (filter keep items ++ xs))) as U.
  rewrite Nat.add_0_r in U. exact U.
Qed.

Lemma keep_vegetarian_spec (f : string) :
  keep_vegetarian f = negb (Spec.mentions [ "chicken"; "fish" ] f).
Proof.
  unfold keep_vegetarian, Spec.mentions. simpl.
  now rewrite orb_false_r, negb_orb.
Qed.

Lemma keep_vegan_spec (f : string) :
  keep_vegan f
  = negb (Spec.mentions [ "chicken"; "fish"; "yogurt"; "dairy" ] f).
Proof.
  unfold keep_vegan, Spec.mentions. simpl.
  now rewrite orb_false_r, !negb_orb, !andb_assoc.
Qed.

Lemma keep_keto_spec (f : string) :
  keep_keto f = negb (Spec.mentions [ "grains"; "oats" ] f).
Proof.
  unfold keep_keto, Spec.mentions. simpl.
  now rewrite orb_false_r, negb_orb.
Qed.

(** The whole filter on any store in which the plan dict binds
    ["recommended"] to a list. *)
Lemma run_adjust_preference (h : heap) (sel old : nat)
    (entries : list (string * val)) (rec0 : list string)
    (preference : option string) :
  nth_error h sel = Some (DictObj entries) ->
  PyDict.lookup "recommended" entries = Some (Ref (Loc old)) ->
  nth_error h old = Some (ListObj rec0) ->
  adjust_preference (Loc sel) preference h
  = (Ok tt,
     if Spec.filter_fires preference
     then update (h ++ [ListObj (Spec.preference_filter preference rec0)]) sel
            (DictObj
               (PyDict.set "recommended" (Ref (Loc (List.length h))) entries))
     else h).
Proof.
  intros Hsel Hrec Hold.
  destruct preference as [p|]; [|reflexivity].
  unfold adjust_preference, preference_given.
  destruct (String.eqb_spec p "") as [->|_]; [reflexivity|].
  destruct (String.eqb_spec p "No Preference") as [->|_]; [reflexivity|].
  unfold Spec.filter_fires, Spec.preference_filter, Spec.drop_then_append.
  cbn [negb andb].
  destruct (PyStr.contains "vegetarian" (PyStr.lower p)).
  { change (append_recommended (Loc sel) ?x)
      with (extend_recommended (Loc sel) [ x ]).
    rewrite (run_rebind_extend _ _ _ _ _ _ _ Hsel Hrec Hold).
    now rewrite (filter_ext _ _ keep_vegetarian_spec). }
  destruct (PyStr.contains "vegan" (PyStr.lower p)).
  { rewrite (run_rebind_extend _ _ _ _ _ _ _ Hsel Hrec Hold).
    now rewrite (filter_ext _ _ keep_vegan_spec). }
  destruct (PyStr.contains "keto" (PyStr.lower p)).
  { rewrite (run_rebind_extend _ _ _ _ _ _ _ Hsel Hrec Hold).
    now rewrite (filter_ext _ _ keep_keto_spec). }
  reflexivity.
Qed.

Lemma preference_filter_idle (preference : option string)
    (rec0 : list string) :
  Spec.filter_fires preference = false ->
  Spec.preference_filter preference rec0 = rec0.
Proof.
  destruct preference as [p|]; [|reflexivity].
  unfold Spec.filter_fires, Spec.preference_filter.
  destruct (PyStr.contains "vegetarian" (PyStr.lower p)); [discriminate|].
  destruct (PyStr.contains "vegan" (PyStr.lower p)); [discriminate|].
  destruct (PyStr.contains "keto" (PyStr.lower p)); [discriminate|].
  reflexivity.
Qed.

Lemma bound_list_inv (h : heap) (sel : nat) (key : string)
    (items : list string) :
  bound_list h (Loc sel) key = Some items ->
  exists entries l,
    nth_error h sel = Some (DictObj entries) /\
    PyDict.lookup key entries = Some (Ref (Loc l)) /\
    nth_error h l = Some (ListObj items).
Proof.
  unfold bound_list.
  destruct (nth_error h sel) as [[|entries]|] eqn:Es; try discriminate.
  destruct (PyDict.lookup key entries) as [[|[l]]|] eqn:Ek; try discriminate.
  destruct (nth_error h l) as [[its|]|] eqn:El; try discriminate.
  intros [= <-]. exists entries, l. repeat split; reflexivity || assumption.
Qed.

Lemma bound_list_intro (h : heap) (sel l : nat) (key : string)
    (entries : list (string * val)) (items : list string) :
  nth_error h sel = Some (DictObj entries) ->
  PyDict.lookup key entries = Some (Ref (Loc l)) ->
  nth_error h l = Some (ListObj items) ->
  bound_list h (Loc sel) key = Some items.
Proof. unfold bound_list. now intros -> -> ->. Qed.

(** What the filter leaves in the store: the filtered list is bound to
    ["recommended"], the plan dict is the only existing object that is
    written, and its other bindings are kept. *)
Lemma adjust_preference_effect (h : heap) (sel : nat) (rec0 : list string)
    (preference : option string) :
  bound_list h (Loc sel) "recommended" = Some rec0 ->
  exists h1,
    adjust_preference (Loc sel) preference h = (Ok tt, h1) /\
    bound_list h1 (Loc sel) "recommended"
    = Some (Spec.preference_filter preference rec0) /\
    (forall n o, n <> sel ->
       nth_error h n = Some o -> nth_error h1 n = Some o) /\
    (forall key items, key <> "recommended" ->
       bound_list h (Loc sel) key = Some items ->
       bound_list h1 (Loc sel) key = Some items).
Proof.
  intros Hb.
  destruct (bound_list_inv _ _ _ _ Hb) as (entries & old & Hsel & Hrec & Hold).
  rewrite (run_adjust_preference _ _ _ _ _ preference Hsel Hrec Hold).
  destruct (Spec.filter_fires preference) eqn:Hf.
  - pose proof (nth_error_lt _ _ _ Hsel) as Hlt.
    set (F := ListObj (Spec.preference_filter preference rec0)).
    set (D := DictObj (PyDict.set "recommended" (Ref (Loc (List.length h))) entries)).
    assert (HselF : nth_error (h ++ [F]) sel = Some (DictObj entries))
      by (rewrite (nth_error_app1 h _ Hlt); exact Hsel).
    assert (Hkeep : forall n o, n <> sel -> nth_error h n = Some o ->
                      nth_error (update (h ++ [F]) sel D) n = Some o).
    { intros n o Hn Ho. rewrite nth_error_update_other by exact Hn.
      rewrite (nth_error_app1 h _ (nth_error_lt _ _ _ Ho)). exact Ho. }
    eexists. split; [reflexivity|]. split; [|split].
    + apply (bound_list_intro _ _ (List.length h) _ _ _
               (nth_error_update_same _ _ D _ HselF) (lookup_set_same _ _ _)).
      rewrite nth_error_update_other by lia.
      rewrite (nth_error_app2 h [F] (Nat.le_refl _)), Nat.sub_diag. reflexivity.
    + exact Hkeep.
    + intros key items Hkey Hk.
      destruct (bound_list_inv _ _ _ _ Hk) as (entries' & l & Hsel' & Hl & Hitems).
      rewrite Hsel in Hsel'. injection Hsel' as <-.
      apply (bound_list_intro _ _ l _ _ _
               (nth_error_update_same _ _ D _ HselF)).
      * unfold D. rewrite lookup_set_other by exact Hkey. exact Hl.
      * apply Hkeep; [|exact Hitems]. intros ->. congruence.
  - exists h. rewrite (preference_filter_idle _ _ Hf). auto.
Qed.

End PreferenceFilter.

(** ** /disease-diet on any store *)

Lemma run_above_ref (m : M ref) (h : heap) :
  relocates (List.length h) (shift_ref (List.length h)) m m ->
  m h = (map_result (shift_ref (List.length h)) (fst (m [])),
         h ++ shift_heap (List.length h) (snd (m []))).
Proof.
  intros Hm. specialize (Hm h [] eq_refl). simpl in Hm.
  now rewrite app_nil_r in Hm.
Qed.

Lemma bound_list_above (h l : heap) (r : ref) (key : string) :
  Diet.bound_list (h ++ shift_heap (List.length h) l)
    (shift_ref (List.length h) r) key
  = Diet.bound_list l r key.
Proof.
  destruct r as [n]. unfold Diet.bound_list, shift_ref.
  rewrite nth_error_above, shift_heap_nth.
  destruct (nth_error l n) as [[items|entries]|]; simpl; try reflexivity.
  rewrite shift_lookup.
  destruct (PyDict.lookup key entries) as [[s|[k]]|]; simpl; try reflexivity.
  rewrite nth_error_above, shift_heap_nth.
  destruct (nth_error l k) as [[items|entries']|]; reflexivity.
Qed.

Ltac split_on_text d :=
  repeat match goal with
  | |- context [PyStr.contains ?k d] => destruct (PyStr.contains k d)
  end.

Lemma choose_plan_empty (text : string) :
  exists sel l,
    Diet.choose_plan text [] = (Ok sel, l) /\
    Diet.bound_list l sel "recommended"
    = Some (fst (Spec.first_match text Spec.condition_plans)) /\
    Diet.bound_list l sel "avoid"
    = Some (snd (Spec.first_match text Spec.condition_plans)).
Proof.
  cbv -[PyStr.contains].
  split_on_text text; do 2 eexists; (split; [reflexivity|]); split; reflexivity.
Qed.

Lemma choose_plan_run (text : string) (h : heap) :
  exists sel l,
    Diet.choose_plan text h = (Ok sel, h ++ l) /\
    Diet.bound_list (h ++ l) sel "recommended"
    = Some (fst (Spec.first_match text Spec.condition_plans)) /\
    Diet.bound_list (h ++ l) sel "avoid"
    = Some (snd (Spec.first_match text Spec.condition_plans)).
Proof.
  destruct (choose_plan_empty text) as (sel & l & Hrun & Hrec & Hav).
  exists (shift_ref (List.length h) sel), (shift_heap (List.length h) l).
  rewrite (run_above_ref _ h (reloc_choose_plan _ text)), Hrun.
  rewrite !bound_list_above. auto.
Qed.

Lemma get_disease_diet_run (request : DiseaseRequest) (h : heap) :
  exists l,
    Diet.get_disease_diet request h
    = (HTTP200 (Spec.disease_diet request), h ++ l).
Proof.
  unfold Diet.get_disease_diet.
  rewrite (try_except_above _ h (reloc_get_disease_diet _ request)).
  pose proof (get_disease_diet_empty request) as E.
  unfold Diet.get_disease_diet in E. rewrite E. eauto.
Qed.

(** ** /fitness-plan on any store *)

Lemma get_fitness_plan_empty (request : FitnessRequest) :
  fst (Fitness.get_fitness_plan request [])
  = match Fitness.compute_bmi request.(height) request.(weight) with
    | Ok b =>
        HTTP200 {| bmi := b;
                   category := Fitness.bmi_category b;
                   plan := Fitness.goal_plan (PyStr.lower request.(goal)) |}
    | Raise e => HTTP500 (str_exn e)
    end.
Proof.
  unfold Fitness.get_fitness_plan, Fitness.get_fitness_plan_body, try_except,
    bind, lift.
  destruct (Fitness.compute_bmi (height request) (weight request));
    reflexivity.
Qed.

Lemma get_fitness_plan_run (request : FitnessRequest) (h : heap) :
  exists l,
    Fitness.get_fitness_plan request h
    = (match Fitness.compute_bmi request.(height) request.(weight) with
       | Ok b =>
           HTTP200 {| bmi := b;
                      category := Fitness.bmi_category b;
                      plan := Fitness.goal_plan (PyStr.lower request.(goal)) |}
       | Raise e => HTTP500 (str_exn e)
       end, h ++ l).
Proof.
  unfold Fitness.get_fitness_plan.
  rewrite (try_except_above _ h (reloc_get_fitness_plan _ request)).
  pose proof (get_fitness_plan_empty request) as E.
  unfold Fitness.get_fitness_plan in E. rewrite E. eauto.
Qed.

(** ** /generate on any store *)

Lemma eqb_false_sym (p q : string) : p <> q -> String.eqb q p = false.
Proof.
  intros H. destruct (String.eqb_spec q p); [congruence|reflexivity].
Qed.

Ltac eqb_facts :=
  repeat match goal with
  | H : ?p <> ?q |- _ =>
      pose proof (eqb_false_of_neq _ _ H);
      pose proof (eqb_false_sym _ _ H);
      clear H
  end.

Ltac eqb_rewrite :=
  repeat match goal with
  | H : String.eqb _ _ = false |- _ => rewrite !H
  end.

Ltac eqb_ground :=
  repeat match goal with
  | |- context [String.eqb ?a ?b] =>
      let v := eval vm_compute in (String.eqb a b) in
      match v with
      | true => change (String.eqb a b) with true
      | false => change (String.eqb a b) with false
      end
  end.

Ltac by_eqb_cases :=
  eqb_facts;
  cbv -[String.eqb PyStr.lower PyStr.replace];
  repeat (progress (eqb_rewrite; eqb_ground;
                    cbv -[String.eqb PyStr.lower PyStr.replace]));
  reflexivity.

Lemma generate_content_empty (request : ContentRequest) :
  fst (Generate.generate_content request [])
  = HTTP200 {| content := Spec.generated request |}.
Proof.
  destruct request as [u t lang].
  unfold Spec.generated, Spec.served_language, Spec.templates_of,
    Generate.generate_content, Generate.generate_content_body.
  cbn [topic language].
  destruct (String.eqb_spec (PyStr.lower lang) "english") as [El|El];
    [ rewrite El
    | destruct (String.eqb_spec (PyStr.lower lang) "hindi") as [Eh|Eh];
      [ rewrite Eh | ] ].
  - destruct (String.eqb_spec t "Artificial Intelligence") as [->|H1];
      [vm_compute; reflexivity|].
    destruct (String.eqb_spec t "Climate Change") as [->|H2];
      [vm_compute; reflexivity|].
    destruct (String.eqb_spec t "default") as [->|H3];
      [vm_compute; reflexivity|].
    by_eqb_cases.
  - destruct (String.eqb_spec t "default") as [->|H3];
      [vm_compute; reflexivity|].
    by_eqb_cases.
  - destruct (String.eqb_spec t "Artificial Intelligence") as [->|H1];
      [by_eqb_cases|].
    destruct (String.eqb_spec t "Climate Change") as [->|H2];
      [by_eqb_cases|].
    destruct (String.eqb_spec t "default") as [->|H3];
      [by_eqb_cases|].
    by_eqb_cases.
Qed.

Lemma generate_content_run (request : ContentRequest) (h : heap) :
  exists l,
    Generate.generate_content request h
    = (HTTP200 {| content := Spec.generated request |}, h ++ l).
Proof.
  unfold Generate.generate_content.
  rewrite (try_except_above _ h (reloc_generate_content _ request)).
  pose proof (generate_content_empty request) as E.
  unfold Generate.generate_content in E. rewrite E. eauto.
Qed.

(** ** The BMI categories and the order on floats *)

Section FloatOrder.

Import PyFloat.

(** [c <= b] excludes [b < c]. *)
Lemma fle_not_flt (c b : float) : fle c b = true -> flt b c = false.
Proof.
  unfold fle, flt, SFleb, SFltb.
  destruct c as [sc|sc| |sc mc ec], b as [sb|sb| |sb mb eb]; simpl;
    try discriminate; try reflexivity;
    try (destruct sc, sb; simpl; discriminate || reflexivity);
    try (destruct sc; simpl; discriminate || reflexivity);
    try (destruct sb; simpl; discriminate || reflexivity).
  destruct sc, sb; simpl; try discriminate; try reflexivity;
    rewrite (Z.compare_antisym ec eb);
    destruct (ec ?= eb)%Z; simpl; try discriminate; try reflexivity;
    change (Pos.compare_cont Eq mb mc) with (mb ?= mc)%positive;
    change (Pos.compare_cont Eq mc mb) with (mc ?= mb)%positive;
    rewrite (Pos.compare_antisym mc mb);
    destruct (mc ?= mb)%positive; simpl; discriminate || reflexivity.
Qed.

(** Two positive constants with one exponent: at or above the larger is
    not below the smaller. *)
Lemma fle_above_not_flt_below (m1 m2 : positive) (e : Z) (b : float) :
  (m1 <= m2)%positive ->
  fle (S754_finite false m2 e) b = true ->
  flt b (S754_finite false m1 e) = false.
Proof.
  intros Hm. unfold fle, flt, SFleb, SFltb.
  destruct b as [sb|sb| |sb mb eb]; simpl; try discriminate.
  - destruct sb; simpl; discriminate || reflexivity.
  - destruct sb; simpl; try discriminate.
    rewrite (Z.compare_antisym e eb).
    destruct (e ?= eb)%Z; simpl; try discriminate; try reflexivity.
    change (Pos.compare_cont Eq m2 mb) with (m2 ?= mb)%positive.
    change (Pos.compare_cont Eq mb m1) with (mb ?= m1)%positive.
    destruct (Pos.compare_spec m2 mb); try discriminate;
      destruct (Pos.compare_spec mb m1); try reflexivity; lia.
Qed.

Lemma category_underweight (b : float) :
  flt b Fitness.f18_5 = true -> Fitness.bmi_category b = "Underweight".
Proof. unfold Fitness.bmi_category. now intros ->. Qed.

Lemma category_normal (b : float) :
  fle Fitness.f18_5 b = true -> flt b Fitness.f25 = true ->
  Fitness.bmi_category b = "Normal weight".
Proof.
  intros H1 H2. unfold Fitness.bmi_category.
  now rewrite (fle_not_flt _ _ H1), H1, H2.
Qed.

Lemma category_overweight (b : float) :
  fle Fitness.f25 b = true -> flt b Fitness.f30 = true ->
  Fitness.bmi_category b = "Overweight".
Proof.
  intros H1 H2. unfold Fitness.bmi_category.
  rewrite (fle_not_flt _ _ H1), H1, H2, andb_false_r.
  change Fitness.f18_5 with (S754_finite false 5207287069147136 (-48)).
  change Fitness.f25 with (S754_finite false 7036874417766400 (-48)) in H1.
  now rewrite (fle_above_not_flt_below 5207287069147136 7036874417766400
                 (-48) b ltac:(lia) H1).
Qed.

Lemma category_obese (b : float) :
  fle Fitness.f30 b = true -> Fitness.bmi_category b = "Obese".
Proof.
  intros H1. unfold Fitness.bmi_category.
  rewrite (fle_not_flt _ _ H1), !andb_false_r.
  change Fitness.f30 with (S754_finite false 8444249301319680 (-48)) in H1.
  change Fitness.f18_5 with (S754_finite false 5207287069147136 (-48)).
  change Fitness.f25 with (S754_finite false 7036874417766400 (-48)).
  rewrite (fle_above_not_flt_below 5207287069147136 8444249301319680
             (-48) b ltac:(lia) H1).
  rewrite (fle_above_not_flt_below 7036874417766400 8444249301319680
             (-48) b ltac:(lia) H1).
  now rewrite !andb_false_r.
Qed.

End FloatOrder.

(** * The claims *)

Section FitnessClaims.

Import PyStr PyFloat Fitness.

Lemma fitness_response (h : heap) (request : FitnessRequest)
    (resp : FitnessResponse) :
  fst (get_fitness_plan request h) = HTTP200 resp ->
  exists b,
    compute_bmi request.(height) request.(weight) = Ok b /\
    resp = {| bmi := b; category := bmi_category b;
              plan := goal_plan (lower request.(goal)) |}.
Proof.
  destruct (get_fitness_plan_run request h) as [l ->]. simpl.
  destruct (compute_bmi (height request) (weight request)) as [b|e];
    [|discriminate].
  intros [= <-]. eauto.
Qed.

Lemma compute_bmi_ok (ht wt : Z) (b : float) :
  compute_bmi ht wt = Ok b ->
  exists height_m w,
    int_truediv ht 100 = Ok height_m /\
    float_of_int wt = Ok w /\
    b = round1 (fdiv w (fmul height_m height_m)).
Proof.
  unfold compute_bmi.
  destruct (int_truediv ht 100) as [height_m|e]; [|discriminate].
  destruct (float_of_int wt) as [w|e]; [|discriminate].
  unfold float_truediv.
  destruct (is_zero (fmul height_m height_m)); [discriminate|].
  simpl. intros [= <-]. eauto.
Qed.

(** The quotient is a binary64 quotient: for height 40 and weight 3 the
    exact value is 18.75, the computed one lies just below it, and the
    rounded BMI is 18.7. *)
Example compute_bmi_40_3 : compute_bmi 40 3 = Ok (decimal1 187).
Proof. reflexivity. Qed.

(** C1. The fitness handler computes [weight / (height/100)^2] in binary64
    arithmetic, rounds it to one decimal with [round(_, 1)], and classifies
    the rounded value by the half-open intervals: below 18.5 is
    "Underweight", from 18.5 and below 25 is "Normal weight", from 25 and
    below 30 is "Overweight", from 30 on is "Obese".  In particular
    (180, 81) gives 25.0 and "Overweight", (160, 50) gives 19.5 and
    "Normal weight", (150, 30) gives 13.3 and "Underweight", (170, 100)
    gives 34.6 and "Obese". *)
Theorem C1_bmi_rounded_and_classified :
  (forall (h : heap) (request : FitnessRequest) (resp : FitnessResponse),
      fst (get_fitness_plan request h) = HTTP200 resp ->
      (exists height_m w,
          int_truediv request.(height) 100 = Ok height_m /\
          float_of_int request.(weight) = Ok w /\
          resp.(bmi) = round1 (fdiv w (fmul height_m height_m))) /\
      (flt resp.(bmi) f18_5 = true -> resp.(category) = "Underweight") /\
      (fle f18_5 resp.(bmi) = true -> flt resp.(bmi) f25 = true ->
       resp.(category) = "Normal weight") /\
      (fle f25 resp.(bmi) = true -> flt resp.(bmi) f30 = true ->
       resp.(category) = "Overweight") /\
      (fle f30 resp.(bmi) = true -> resp.(category) = "Obese"))
  /\ (forall (h : heap) (g : string),
        fst (get_fitness_plan {| height := 180; weight := 81; goal := g |} h)
        = HTTP200 {| bmi := decimal1 250; category := "Overweight";
                     plan := goal_plan (lower g) |})
  /\ (forall (h : heap) (g : string),
        fst (get_fitness_plan {| height := 160; weight := 50; goal := g |} h)
        = HTTP200 {| bmi := decimal1 195; category := "Normal weight";
                     plan := goal_plan (lower g) |})
  /\ (forall (h : heap) (g : string),
        fst (get_fitness_plan {| height := 150; weight := 30; goal := g |} h)
        = HTTP200 {| bmi := decimal1 133; category := "Underweight";
                     plan := goal_plan (lower g) |})
  /\ (forall (h : heap) (g : string),
        fst (get_fitness_plan {| height := 170; weight := 100; goal := g |} h)
        = HTTP200 {| bmi := decimal1 346; category := "Obese";
                     plan := goal_plan (lower g) |}).
Proof.
  split; [|repeat split; intros h g;
             match goal with
             | |- fst (get_fitness_plan ?r _) = _ =>
                 destruct (get_fitness_plan_run r h) as [l ->]
             end; reflexivity].
  intros h request resp Hresp.
  destruct (fitness_response _ _ _ Hresp) as (b & Hb & ->). simpl.
  split; [exact (compute_bmi_ok _ _ _ Hb)|].
  split; [apply category_underweight|].
  split; [apply category_normal|].
  split; [apply category_overweight|apply category_obese].
Qed.

Lemma C1_witness :
  let request := {| height := 180; weight := 81; goal := "xyz" |} in
  let resp := {| bmi := decimal1 250; category := "Overweight";
                 plan := plan_general |} in
  fst (get_fitness_plan request []) = HTTP200 resp /\
  fle f25 resp.(bmi) = true /\ flt resp.(bmi) f30 = true /\
  resp.(category) = "Overweight".
Proof.
  intros request resp.
  assert (Hrun : fst (get_fitness_plan request []) = HTTP200 resp)
    by reflexivity.
  destruct (proj1 C1_bmi_rounded_and_classified [] request resp Hrun)
    as (_ & _ & _ & Hover & _).
  split; [exact Hrun|].
  split; [reflexivity|]. split; [reflexivity|].
  apply Hover; reflexivity.
Defined.

Lemma goal_plan_cases (g : string) :
  (contains "lose" g = true -> goal_plan g = plan_lose) /\
  (contains "lose" g = false ->
   contains "gain" g = true \/ contains "muscle" g = true ->
   goal_plan g = plan_gain) /\
  (contains "lose" g = false -> contains "gain" g = false ->
   contains "muscle" g = false -> contains "maintain" g = true ->
   goal_plan g = plan_maintain) /\
  (contains "lose" g = false -> contains "gain" g = false ->
   contains "muscle" g = false -> contains "maintain" g = false ->
   contains "endurance" g = true -> goal_plan g = plan_endurance) /\
  (contains "lose" g = false -> contains "gain" g = false ->
   contains "muscle" g = false -> contains "maintain" g = false ->
   contains "endurance" g = false -> goal_plan g = plan_general).
Proof.
  unfold goal_plan. repeat split.
  - now intros ->.
  - intros -> [-> | ->]; [reflexivity | now rewrite orb_true_r].
  - now intros -> -> -> ->.
  - now intros -> -> -> -> ->.
  - now intros -> -> -> -> ->.
Qed.

(** C2. The plan is chosen by substring tests on the lower-cased goal, in
    a fixed order: "lose" gives the weight-loss plan; otherwise "gain" or
    "muscle" gives the muscle-gain plan; otherwise "maintain" the
    maintenance plan; otherwise "endurance" the endurance plan; otherwise,
    and for the empty goal, the general-fitness plan.  "I want to LOSE
    weight", "build Muscle" and "xyz" select the weight-loss, muscle-gain
    and general-fitness plans. *)
Theorem C2_goal_selection :
  (forall (h : heap) (request : FitnessRequest) (resp : FitnessResponse),
      fst (get_fitness_plan request h) = HTTP200 resp ->
      let g := lower request.(goal) in
      (contains "lose" g = true -> resp.(plan) = plan_lose) /\
      (contains "lose" g = false ->
       contains "gain" g = true \/ contains "muscle" g = true ->
       resp.(plan) = plan_gain) /\
      (contains "lose" g = false -> contains "gain" g = false ->
       contains "muscle" g = false -> contains "maintain" g = true ->
       resp.(plan) = plan_maintain) /\
      (contains "lose" g = false -> contains "gain" g = false ->
       contains "muscle" g = false -> contains "maintain" g = false ->
       contains "endurance" g = true -> resp.(plan) = plan_endurance) /\
      (contains "lose" g = false -> contains "gain" g = false ->
       contains "muscle" g = false -> contains "maintain" g = false ->
       contains "endurance" g = false -> resp.(plan) = plan_general))
  /\ (forall (h : heap) (ht wt : Z) (resp : FitnessResponse),
        fst (get_fitness_plan
               {| height := ht; weight := wt;
                  goal := "I want to LOSE weight" |} h) = HTTP200 resp ->
        resp.(plan) = plan_lose)
  /\ (forall (h : heap) (ht wt : Z) (resp : FitnessResponse),
        fst (get_fitness_plan
               {| height := ht; weight := wt; goal := "build Muscle" |} h)
        = HTTP200 resp ->
        resp.(plan) = plan_gain)
  /\ (forall (h : heap) (ht wt : Z) (resp : FitnessResponse),
        fst (get_fitness_plan
               {| height := ht; weight := wt; goal := "xyz" |} h)
        = HTTP200 resp ->
        resp.(plan) = plan_general)
  /\ (forall (h : heap) (ht wt : Z) (resp : FitnessResponse),
        fst (get_fitness_plan
               {| height := ht; weight := wt; goal := "" |} h)
        = HTTP200 resp ->
        resp.(plan) = plan_general).
Proof.
  split; [|repeat split; intros h ht wt resp Hresp;
             destruct (fitness_response _ _ _ Hresp) as (b & _ & ->);
             reflexivity].
  intros h request resp Hresp.
  destruct (fitness_response _ _ _ Hresp) as (b & _ & ->).
  exact (goal_plan_cases _).
Qed.

Lemma C2_witness :
  let request :=
    {| height := 180; weight := 81; goal := "I want to LOSE weight" |} in
  let resp := {| bmi := decimal1 250; category := "Overweight";
                 plan := plan_lose |} in
  fst (get_fitness_plan request []) = HTTP200 resp /\
  contains "lose" (lower request.(goal)) = true /\
  resp.(plan) = plan_lose.
Proof.
  intros request resp.
  assert (Hrun : fst (get_fitness_plan request []) = HTTP200 resp)
    by reflexivity.
  destruct (proj1 C2_goal_selection [] request resp Hrun) as (Hlose & _).
  split; [exact Hrun|]. split; [reflexivity|].
  apply Hlose. reflexivity.
Defined.

(** C7. Whatever the goal, the plan of a fitness response is one of the
    five fixed lists and has exactly 6 entries; the general-fitness list is
    the only fallback and is the plan exactly when no goal keyword occurs
    in the lower-cased goal. *)
Theorem C7_plan_has_six_entries :
  forall (h : heap) (request : FitnessRequest) (resp : FitnessResponse),
    fst (get_fitness_plan request h) = HTTP200 resp ->
    let g := lower request.(goal) in
    List.length resp.(plan) = 6 /\
    In resp.(plan)
      [ plan_lose; plan_gain; plan_maintain; plan_endurance; plan_general ] /\
    (resp.(plan) = plan_general <->
     contains "lose" g = false /\ contains "gain" g = false /\
     contains "muscle" g = false /\ contains "maintain" g = false /\
     contains "endurance" g = false).
Proof.
  intros h request resp Hresp g.
  destruct (fitness_response _ _ _ Hresp) as (b & _ & ->).
  cbn [plan]. fold g. unfold goal_plan.
  destruct (contains "lose" g);
    [ split; [reflexivity|]; split; [simpl; tauto|];
      split; [discriminate | intros (H & _); discriminate] |].
  destruct (contains "gain" g);
    [ split; [reflexivity|]; split; [simpl; tauto|];
      split; [discriminate | intros (_ & H & _); discriminate] |].
  destruct (contains "muscle" g);
    [ split; [reflexivity|]; split; [simpl; tauto|];
      split; [discriminate | intros (_ & _ & H & _); discriminate] |].
  destruct (contains "maintain" g);
    [ split; [reflexivity|]; split; [simpl; tauto|];
      split; [discriminate | intros (_ & _ & _ & H & _); discriminate] |].
  destruct (contains "endurance" g);
    [ split; [reflexivity|]; split; [simpl; tauto|];
      split; [discriminate | intros (_ & _ & _ & _ & H); discriminate] |].
  split; [reflexivity|]. split; [simpl; tauto|]. tauto.
Qed.

Lemma C7_witness :
  let request := {| height := 170; weight := 100; goal := "xyz" |} in
  let resp := {| bmi := decimal1 346; category := "Obese";
                 plan := plan_general |} in
  fst (get_fitness_plan request []) = HTTP200 resp /\
  List.length resp.(plan) = 6.
Proof.
  intros request resp.
  assert (Hrun : fst (get_fitness_plan request []) = HTTP200 resp)
    by reflexivity.
  split; [exact Hrun|].
  exact (proj1 (C7_plan_has_six_entries [] request resp Hrun)).
Defined.

(** C9. The fitness handler checks nothing about height and weight: its
    answer is decided by the BMI arithmetic alone.  When the arithmetic
    raises, the client gets a 500 whose detail is the exception's message;
    otherwise a 200 with all three fields.  With height 0 the division
    raises (division by zero, unless the weight does not even convert to a
    float), while negative heights and weights are answered with a 200. *)
Theorem C9_faults_become_500 :
  forall (h : heap),
    (forall (request : FitnessRequest),
        fst (get_fitness_plan request h)
        = match compute_bmi request.(height) request.(weight) with
          | Ok b =>
              HTTP200 {| bmi := b; category := bmi_category b;
                         plan := goal_plan (lower request.(goal)) |}
          | Raise e => HTTP500 (str_exn e)
          end)
    /\ (forall (wt : Z) (g : string),
          compute_bmi 0 wt
          = Raise (if is_inf (of_Z wt)
                   then OverflowError "int too large to convert to float"
                   else ZeroDivisionError "float division by zero")
          /\ fst (get_fitness_plan {| height := 0; weight := wt; goal := g |} h)
             = HTTP500 (if is_inf (of_Z wt)
                        then "int too large to convert to float"
                        else "float division by zero"))
    /\ (forall (g : string),
          fst (get_fitness_plan {| height := 0; weight := 70; goal := g |} h)
          = HTTP500 "float division by zero")
    /\ (forall (g : string),
          fst (get_fitness_plan
                 {| height := -180; weight := 81; goal := g |} h)
          = HTTP200 {| bmi := decimal1 250; category := "Overweight";
                       plan := goal_plan (lower g) |})
    /\ (forall (g : string),
          fst (get_fitness_plan
                 {| height := 180; weight := -81; goal := g |} h)
          = HTTP200 {| bmi := decimal1 (-250); category := "Underweight";
                       plan := goal_plan (lower g) |}).
Proof.
  intros h.
  assert (Hrun : forall request,
             fst (get_fitness_plan request h)
             = match compute_bmi request.(height) request.(weight) with
               | Ok b =>
                   HTTP200 {| bmi := b; category := bmi_category b;
                              plan := goal_plan (lower request.(goal)) |}
               | Raise e => HTTP500 (str_exn e)
               end).
  { intros request. now destruct (get_fitness_plan_run request h) as [l ->]. }
  assert (Hzero : forall wt,
             compute_bmi 0 wt
             = Raise (if is_inf (of_Z wt)
                      then OverflowError "int too large to convert to float"
                      else ZeroDivisionError "float division by zero")).
  { intros wt. unfold compute_bmi, float_of_int. cbn [int_truediv].
    destruct (is_inf (of_Z wt)); reflexivity. }
  split; [exact Hrun|].
  split; [|repeat split; intros g; rewrite Hrun; reflexivity].
  intros wt g. split; [apply Hzero|].
  rewrite Hrun. cbn [height weight]. rewrite Hzero.
  destruct (is_inf (of_Z wt)); reflexivity.
Qed.

End FitnessClaims.

Section DietClaims.

Import PyStr Diet.

(** A chosen plan is always an address. *)
Lemma choose_plan_at (text : string) (h : heap) :
  exists sel l,
    choose_plan text h = (Ok (Loc sel), h ++ l) /\
    bound_list (h ++ l) (Loc sel) "recommended"
    = Some (fst (Spec.first_match text Spec.condition_plans)) /\
    bound_list (h ++ l) (Loc sel) "avoid"
    = Some (snd (Spec.first_match text Spec.condition_plans)).
Proof.
  destruct (choose_plan_run text h) as ([sel] & l & H). eauto.
Qed.

(** C3. The Preference Filter rewrites the recommended list of the
    selected plan by an else-if chain on the lower-cased preference, at
    most one branch firing: "vegetarian" drops the entries mentioning
    chicken or fish and appends the tofu/tempeh entry; else "vegan" drops
    chicken, fish, yogurt and dairy and appends two entries; else "keto"
    drops grains and oats and appends two entries; "No Preference", no
    preference at all, and any text with none of the keywords leave the
    list as it was. *)
Theorem C3_preference_filter :
  forall (h : heap) (request : DiseaseRequest) (sel : ref) (h0 : heap),
    choose_plan (lower request.(disease)) h = (Ok sel, h0) ->
    exists (rec0 rec1 : list string) (h1 : heap),
      bound_list h0 sel "recommended" = Some rec0 /\
      adjust_preference sel request.(preference) h0 = (Ok tt, h1) /\
      bound_list h1 sel "recommended" = Some rec1 /\
      match request.(preference) with
      | None => rec1 = rec0
      | Some p =>
          let pref := lower p in
          (contains "vegetarian" pref = true ->
           rec1 = Spec.drop_then_append [ "chicken"; "fish" ]
                    [ "Plant-based proteins (tofu, tempeh, legumes)" ] rec0) /\
          (contains "vegetarian" pref = false ->
           contains "vegan" pref = true ->
           rec1 = Spec.drop_then_append
                    [ "chicken"; "fish"; "yogurt"; "dairy" ]
                    [ "Plant-based proteins"; "Fortified plant milks" ] rec0) /\
          (contains "vegetarian" pref = false ->
           contains "vegan" pref = false ->
           contains "keto" pref = true ->
           rec1 = Spec.drop_then_append [ "grains"; "oats" ]
                    [ "Healthy fats"; "Low-carb vegetables" ] rec0) /\
          (contains "vegetarian" pref = false ->
           contains "vegan" pref = false ->
           contains "keto" pref = false ->
           rec1 = rec0) /\
          (p = "No Preference" -> rec1 = rec0)
      end.
Proof.
  intros h [d pref] sel h0 Hch. cbn [disease preference] in *.
  destruct (choose_plan_at (lower d) h) as (n & l & Hrun & Hrec & _).
  rewrite Hrun in Hch. injection Hch as <- <-.
  destruct (adjust_preference_effect _ _ _ pref Hrec)
    as (h1 & Hadj & Hnew & _).
  eexists _, _, h1. split; [exact Hrec|]. split; [exact Hadj|].
  split; [exact Hnew|].
  destruct pref as [p|]; [|reflexivity].
  unfold Spec.preference_filter. cbv zeta.
  repeat split.
  - now intros ->.
  - now intros -> ->.
  - now intros -> -> ->.
  - now intros -> -> ->.
  - now intros ->.
Qed.

Lemma C3_witness :
  let request := {| disease := "Type 2 Diabetes";
                    preference := Some "Vegetarian" |} in
  let sel := Loc 2 in
  let h0 := snd (choose_plan (lower request.(disease)) []) in
  choose_plan (lower request.(disease)) [] = (Ok sel, h0) /\
  exists (rec1 : list string) (h1 : heap),
    adjust_preference sel request.(preference) h0 = (Ok tt, h1) /\
    bound_list h1 sel "recommended" = Some rec1 /\
    rec1 = Spec.drop_then_append [ "chicken"; "fish" ]
             [ "Plant-based proteins (tofu, tempeh, legumes)" ]
             diabetes_recommended.
Proof.
  intros request sel h0.
  assert (Hch : choose_plan (lower request.(disease)) [] = (Ok sel, h0))
    by (vm_compute; reflexivity).
  split; [exact Hch|].
  destruct (C3_preference_filter [] request sel h0 Hch)
    as (rec0 & rec1 & h1 & Hrec0 & Hadj & Hrec1 & Hveg & _).
  exists rec1, h1. split; [exact Hadj|]. split; [exact Hrec1|].
  rewrite (Hveg eq_refl). f_equal.
  vm_compute in Hrec0. now injection Hrec0 as <-.
Defined.

(** The preference is lower-cased as [str.lower] does it: "Keto" spelt
    with the Kelvin sign (U+212A) holds the keyword once lower-cased, the
    keto branch runs, and the request is answered like the one spelt
    with the letter k. *)
Example keto_with_kelvin_sign :
  let kelvin_keto :=
    String "226" (String "132" (String "170" "eto")) in
  contains "keto" (lower kelvin_keto) = true
  /\ fst (get_disease_diet
            {| disease := "flu"; preference := Some kelvin_keto |} [])
     = HTTP200
         {| recommended :=
              [ "Fresh fruits and vegetables";
                "Lean proteins (chicken, fish, legumes)";
                "Healthy fats (avocado, nuts, olive oil)";
                "Plenty of water";
                "Herbal teas";
                "Probiotic foods (yogurt, kefir)";
                "Healthy fats";
                "Low-carb vegetables" ];
            avoid := firstn 6 default_avoid |}
  /\ fst (get_disease_diet
            {| disease := "diabetes"; preference := Some kelvin_keto |} [])
     = fst (get_disease_diet
              {| disease := "diabetes"; preference := Some "keto" |} []).
Proof. repeat split; vm_compute; reflexivity. Qed.

(** C4. The plan is selected by substring tests of the condition keys
    ("diabetes", "hypertension", "thyroid", "heart disease", tried in that
    order) on the lower-cased disease text; when none occurs, also for the
    empty text, the default plan is selected, and the handler answers with
    a 200 in every case.  "Type 2 Diabetes" selects the diabetes plan and
    "unknown condition" the default plan. *)
Theorem C4_disease_selection :
  (forall (h : heap) (request : DiseaseRequest),
      let d := lower request.(disease) in
      (exists resp, fst (get_disease_diet request h) = HTTP200 resp) /\
      exists (sel : ref) (h0 : heap) (rec av : list string),
        choose_plan d h = (Ok sel, h0) /\
        bound_list h0 sel "recommended" = Some rec /\
        bound_list h0 sel "avoid" = Some av /\
        (contains "diabetes" d = true ->
         rec = diabetes_recommended /\ av = diabetes_avoid) /\
        (contains "diabetes" d = false ->
         contains "hypertension" d = true ->
         rec = hypertension_recommended /\ av = hypertension_avoid) /\
        (contains "diabetes" d = false ->
         contains "hypertension" d = false ->
         contains "thyroid" d = true ->
         rec = thyroid_recommended /\ av = thyroid_avoid) /\
        (contains "diabetes" d = false ->
         contains "hypertension" d = false ->
         contains "thyroid" d = false ->
         contains "heart disease" d = true ->
         rec = heart_disease_recommended /\ av = heart_disease_avoid) /\
        (contains "diabetes" d = false ->
         contains "hypertension" d = false ->
         contains "thyroid" d = false ->
         contains "heart disease" d = false ->
         rec = default_recommended /\ av = default_avoid))
  /\ (forall (h : heap),
        fst (get_disease_diet
               {| disease := "Type 2 Diabetes"; preference := None |} h)
        = HTTP200 {| recommended := diabetes_recommended;
                     avoid := firstn 6 diabetes_avoid |})
  /\ (forall (h : heap),
        fst (get_disease_diet
               {| disease := "unknown condition"; preference := None |} h)
        = HTTP200 {| recommended := default_recommended;
                     avoid := firstn 6 default_avoid |})
  /\ (forall (h : heap),
        fst (get_disease_diet {| disease := ""; preference := None |} h)
        = HTTP200 {| recommended := default_recommended;
                     avoid := firstn 6 default_avoid |}).
Proof.
  split; [|repeat split; intros h;
             match goal with
             | |- fst (get_disease_diet ?r _) = _ =>
                 destruct (get_disease_diet_run r h) as [l ->]
             end; reflexivity].
  intros h request d.
  split; [destruct (get_disease_diet_run request h) as [l' ->];
          now eexists|].
  destruct (choose_plan_at d h) as (n & l & Hrun & Hrec & Hav).
  exists (Loc n), (h ++ l). do 2 eexists.
  split; [exact Hrun|]. split; [exact Hrec|]. split; [exact Hav|].
  clearbody d. unfold Spec.first_match, Spec.condition_plans.
  repeat split; intros;
    repeat match goal with
    | H : contains _ d = _ |- _ => rewrite H; clear H
    end; reflexivity.
Qed.

Lemma C4_witness :
  let d := lower "Type 2 Diabetes" in
  contains "diabetes" d = true /\
  exists (sel : ref) (h0 : heap),
    choose_plan d [] = (Ok sel, h0) /\
    bound_list h0 sel "recommended" = Some diabetes_recommended /\
    bound_list h0 sel "avoid" = Some diabetes_avoid.
Proof.
  intros d. split; [reflexivity|].
  destruct (proj2 (proj1 C4_disease_selection []
                     {| disease := "Type 2 Diabetes"; preference := None |}))
    as (sel & h0 & rec & av & Hch & Hrec & Hav & Hdiab & _).
  destruct (Hdiab eq_refl) as [-> ->].
  exists sel, h0. auto.
Defined.

(** C5. For every disease and preference the response carries at most 8
    recommended and at most 6 avoid entries, also after the filter has
    appended entries: each response list is the list bound in the selected
    plan cut after its first 8 (6) entries, in the same order, and a
    shorter list is returned whole.  The thyroid plan under "keto" has 9
    entries, of which the last is cut. *)
Theorem C5_truncation :
  forall (h : heap) (request : DiseaseRequest),
    (exists (sel : ref) (h0 h1 : heap) (full_rec full_av : list string)
            (resp : DiseaseResponse),
        choose_plan (lower request.(disease)) h = (Ok sel, h0) /\
        adjust_preference sel request.(preference) h0 = (Ok tt, h1) /\
        bound_list h1 sel "recommended" = Some full_rec /\
        bound_list h1 sel "avoid" = Some full_av /\
        fst (get_disease_diet request h) = HTTP200 resp /\
        resp.(recommended) = firstn 8 full_rec /\
        resp.(avoid) = firstn 6 full_av /\
        List.length resp.(recommended) <= 8 /\
        List.length resp.(avoid) <= 6 /\
        (exists cut, full_rec = resp.(recommended) ++ cut) /\
        (exists cut, full_av = resp.(avoid) ++ cut))
    /\ fst (get_disease_diet
              {| disease := "thyroid"; preference := Some "keto" |} h)
       = HTTP200 {| recommended := thyroid_recommended ++ [ "Healthy fats" ];
                    avoid := firstn 6 thyroid_avoid |}.
Proof.
  intros h request.
  split; [|destruct (get_disease_diet_run
                       {| disease := "thyroid"; preference := Some "keto" |} h)
             as [l ->]; reflexivity].
  destruct request as [d pref]. cbn [disease preference].
  destruct (choose_plan_at (lower d) h) as (n & l & Hrun & Hrec & Hav).
  destruct (adjust_preference_effect _ _ _ pref Hrec)
    as (h1 & Hadj & Hnew & _ & Hother).
  assert (Hav1 := Hother "avoid" _ ltac:(discriminate) Hav).
  destruct (get_disease_diet_run {| disease := d; preference := pref |} h)
    as [l' Hresp].
  exists (Loc n), (h ++ l), h1. do 3 eexists.
  split; [exact Hrun|]. split; [exact Hadj|].
  split; [exact Hnew|]. split; [exact Hav1|].
  split; [rewrite Hresp; reflexivity|].
  split; [reflexivity|]. split; [reflexivity|].
  split; [apply firstn_le_length|]. split; [apply firstn_le_length|].
  split; eexists; symmetry; apply firstn_skipn.
Qed.

(** C8. The filter never alters a template.  Its comprehension builds a
    new list object, so in the store only the entry ["recommended"] of the
    selected plan dict is rebound: every other object (the list that entry
    was bound to, which the filter has copied from; the avoid list; every
    other plan; the table of plans) is as it was.  The tables are built anew by each call, so a request finds the
    untouched lists whatever earlier requests did, and a request repeated
    on the store its first run left gets the same response. *)
Theorem C8_filter_leaves_templates_alone :
  forall (h : heap) (request : DiseaseRequest) (sel : ref) (h0 h1 : heap)
         (r : result unit),
    choose_plan (lower request.(disease)) h = (Ok sel, h0) ->
    adjust_preference sel request.(preference) h0 = (r, h1) ->
    (forall n o, Loc n <> sel ->
       nth_error h0 n = Some o -> nth_error h1 n = Some o) /\
    (forall old items,
       bound_ref h0 sel "recommended" = Some (Loc old) ->
       nth_error h0 old = Some (ListObj items) ->
       nth_error h1 old = Some (ListObj items)) /\
    bound_list h0 sel "recommended"
    = Some (fst (Spec.select_plan request.(disease))) /\
    bound_list h0 sel "avoid"
    = Some (snd (Spec.select_plan request.(disease))) /\
    bound_list h1 sel "avoid" = bound_list h0 sel "avoid" /\
    fst (get_disease_diet request (snd (get_disease_diet request h)))
    = fst (get_disease_diet request h).
Proof.
  intros h [d pref] sel h0 h1 r Hch Hadj. cbn [disease preference] in *.
  destruct (choose_plan_at (lower d) h) as (n & l & Hrun & Hrec & Hav).
  rewrite Hrun in Hch. injection Hch as <- <-.
  destruct (adjust_preference_effect _ _ _ pref Hrec)
    as (h1' & Hadj' & _ & Hframe & Hother).
  rewrite Hadj' in Hadj. injection Hadj as <- <-.
  split.
  { intros k o Hk. apply Hframe. congruence. }
  split.
  { intros old items Hold Hitems. apply Hframe; [|exact Hitems].
    intros ->. unfold bound_ref in Hold. rewrite Hitems in Hold.
    discriminate. }
  split; [exact Hrec|]. split; [exact Hav|].
  split.
  { rewrite Hav. apply Hother; [discriminate|exact Hav]. }
  destruct (get_disease_diet_run {| disease := d; preference := pref |} h)
    as [l1 ->].
  cbn [fst snd].
  now destruct (get_disease_diet_run {| disease := d; preference := pref |}
                  (h ++ l1)) as [l2 ->].
Qed.

Lemma C8_witness :
  let request := {| disease := "hypertension";
                    preference := Some "vegan" |} in
  let sel := Loc 5 in
  let h0 := snd (choose_plan (lower request.(disease)) []) in
  let h1 := snd (adjust_preference sel request.(preference) h0) in
  choose_plan (lower request.(disease)) [] = (Ok sel, h0) /\
  adjust_preference sel request.(preference) h0 = (Ok tt, h1) /\
  bound_ref h0 sel "recommended" = Some (Loc 3) /\
  nth_error h0 3 = Some (ListObj hypertension_recommended) /\
  nth_error h1 3 = Some (ListObj hypertension_recommended) /\
  bound_ref h1 sel "recommended" = Some (Loc 16) /\
  bound_list h1 sel "avoid" = Some hypertension_avoid.
Proof.
  intros request sel h0 h1.
  assert (Hch : choose_plan (lower request.(disease)) [] = (Ok sel, h0))
    by (vm_compute; reflexivity).
  assert (Hadj : adjust_preference sel request.(preference) h0 = (Ok tt, h1))
    by (vm_compute; reflexivity).
  destruct (C8_filter_leaves_templates_alone [] request sel h0 h1 (Ok tt)
              Hch Hadj) as (_ & Hcopy & _ & Hav0 & Hav1 & _).
  split; [exact Hch|]. split; [exact Hadj|].
  split; [reflexivity|]. split; [reflexivity|].
  split; [apply Hcopy; reflexivity|].
  split; [reflexivity|].
  rewrite Hav1. exact Hav0.
Defined.

End DietClaims.

Section GenerateClaims.

Import PyStr Generate.

(** C6. The language is lower-cased and anything but "english" and
    "hindi" is served as "english".  A topic that is a key of the served
    language's templates gets the stored text as it is; any other topic
    gets the language's "default" template (English's if the language had
    none) in which every occurrence of the placeholder is replaced by the
    topic: the text between the placeholders is kept and the topic is put
    in each gap.  "Artificial Intelligence" in "english" returns the AI
    template, "Unknown Topic X" the filled-in default, and "french" is
    answered as "english".  The language counts in its lower-cased form
    only: two languages that agree once lower-cased are answered alike,
    every spelling of "hindi" is served from the Hindi templates and
    every spelling of "english" from the English ones ("HINDI" gives the
    filled-in Hindi default, "English" the AI template), while the topic
    is compared as it is written: "artificial intelligence" is no key. *)
Theorem C6_generate_content :
  (forall (h : heap) (request : ContentRequest),
      let templates :=
        Spec.templates_of (Spec.served_language request.(language)) in
      let default_template :=
        match Spec.template_for "default" templates with
        | Some text => text
        | None => template_english_default
        end in
      exists text,
        fst (generate_content request h) = HTTP200 {| content := text |} /\
        (forall stored,
            Spec.template_for request.(topic) templates = Some stored ->
            text = stored) /\
        (Spec.template_for request.(topic) templates = None ->
         text = replace "{topic}" request.(topic) default_template))
  /\ (forall (lang : string),
        lower lang <> "english" -> lower lang <> "hindi" ->
        Spec.served_language lang = "english")
  /\ (forall (t : string),
        replace "{topic}" t template_english_default
        = Spec.join t (Spec.pieces "{topic}" 0 template_english_default)
        /\ replace "{topic}" t template_hindi_default
           = Spec.join t (Spec.pieces "{topic}" 0 template_hindi_default))
  /\ forallb (fun p => negb (contains "{topic}" p))
       (Spec.pieces "{topic}" 0 template_english_default
        ++ Spec.pieces "{topic}" 0 template_hindi_default) = true
  /\ (forall (h : heap) (u : string),
        fst (generate_content
               {| username := u; topic := "Artificial Intelligence";
                  language := "english" |} h)
        = HTTP200 {| content := template_artificial_intelligence |})
  /\ (forall (h : heap) (u : string),
        fst (generate_content
               {| username := u; topic := "Unknown Topic X";
                  language := "english" |} h)
        = HTTP200
            {| content :=
                 Spec.join "Unknown Topic X"
                   (Spec.pieces "{topic}" 0 template_english_default) |})
  /\ (forall (h : heap) (u t : string),
        fst (generate_content
               {| username := u; topic := t; language := "french" |} h)
        = fst (generate_content
                 {| username := u; topic := t; language := "english" |} h))
  /\ (forall (h : heap) (u u' t lang lang' : string),
        lower lang = lower lang' ->
        fst (generate_content
               {| username := u; topic := t; language := lang |} h)
        = fst (generate_content
                 {| username := u'; topic := t; language := lang' |} h))
  /\ (forall (lang : string),
        (lower lang = "hindi" ->
         Spec.templates_of (Spec.served_language lang) = Spec.hindi_templates)
        /\ (lower lang <> "hindi" ->
            Spec.templates_of (Spec.served_language lang)
            = Spec.english_templates))
  /\ (forall (h : heap) (u : string),
        fst (generate_content
               {| username := u; topic := "Unknown Topic X";
                  language := "HINDI" |} h)
        = HTTP200
            {| content :=
                 Spec.join "Unknown Topic X"
                   (Spec.pieces "{topic}" 0 template_hindi_default) |})
  /\ (forall (h : heap) (u : string),
        fst (generate_content
               {| username := u; topic := "Artificial Intelligence";
                  language := "English" |} h)
        = HTTP200 {| content := template_artificial_intelligence |})
  /\ (forall (h : heap) (u : string),
        fst (generate_content
               {| username := u; topic := "artificial intelligence";
                  language := "english" |} h)
        = HTTP200
            {| content :=
                 Spec.join "artificial intelligence"
                   (Spec.pieces "{topic}" 0 template_english_default) |}).
Proof.
  split.
  { intros h request templates default_template.
    destruct (generate_content_run request h) as [l ->].
    eexists. split; [reflexivity|].
    unfold Spec.generated. fold templates. fold default_template.
    split.
    - now intros stored ->.
    - now intros ->. }
  split.
  { intros lang He Hh. unfold Spec.served_language.
    now rewrite (eqb_false_of_neq _ _ He), (eqb_false_of_neq _ _ Hh). }
  split; [intros t; split; vm_compute; reflexivity|].
  split; [vm_compute; reflexivity|].
  assert (Hrun : forall request h,
             fst (generate_content request h)
             = HTTP200 {| content := Spec.generated request |}).
  { intros request h. now destruct (generate_content_run request h) as [l ->]. }
  split; [intros; rewrite Hrun; vm_compute; reflexivity|].
  split; [intros; rewrite Hrun; vm_compute; reflexivity|].
  split; [intros; rewrite !Hrun; vm_compute; reflexivity|].
  split.
  { intros h u u' t lang lang' Hlang. rewrite !Hrun.
    unfold Spec.generated, Spec.served_language. cbn [topic language].
    now rewrite Hlang. }
  split.
  { intros lang. unfold Spec.served_language, Spec.templates_of. split.
    - intros ->. reflexivity.
    - intros Hh. destruct (String.eqb (lower lang) "english") eqn:He.
      + apply String.eqb_eq in He. rewrite He. reflexivity.
      + rewrite (eqb_false_of_neq _ _ Hh). reflexivity. }
  repeat split; intros; rewrite Hrun; vm_compute; reflexivity.
Qed.

Lemma C6_witness :
  let request := {| username := "asha"; topic := "default";
                    language := "HINDI" |} in
  Spec.template_for request.(topic)
    (Spec.templates_of (Spec.served_language request.(language)))
  = Some template_hindi_default /\
  fst (generate_content request [])
  = HTTP200 {| content := template_hindi_default |}.
Proof.
  intros request.
  assert (Hkey : Spec.template_for request.(topic)
                   (Spec.templates_of
                      (Spec.served_language request.(language)))
                 = Some template_hindi_default) by reflexivity.
  split; [exact Hkey|].
  destruct (proj1 C6_generate_content [] request) as (text & -> & Hstored & _).
  now rewrite (Hstored _ Hkey).
Defined.

End GenerateClaims.

(** C10. Each handler is a function of its request alone: run on any two
    stores it gives the same response, and the store it starts from is
    left intact below the objects the call has allocated.  The tables are
    allocated by the call itself, and no source of randomness is an input
    of a handler. *)
Theorem C10_handlers_depend_on_request_only :
  forall (h h' : heap),
    (forall (request : ContentRequest),
        fst (Generate.generate_content request h)
        = fst (Generate.generate_content request h')
        /\ exists l, snd (Generate.generate_content request h) = h ++ l)
    /\ (forall (request : FitnessRequest),
          fst (Fitness.get_fitness_plan request h)
          = fst (Fitness.get_fitness_plan request h')
          /\ exists l, snd (Fitness.get_fitness_plan request h) = h ++ l)
    /\ (forall (request : DiseaseRequest),
          fst (Diet.get_disease_diet request h)
          = fst (Diet.get_disease_diet request h')
          /\ exists l, snd (Diet.get_disease_diet request h) = h ++ l).
Proof.
  intros h h'. repeat split.
  - destruct (generate_content_run request h) as [l ->].
    now destruct (generate_content_run request h') as [l' ->].
  - destruct (generate_content_run request h) as [l ->]. now exists l.
  - destruct (get_fitness_plan_run request h) as [l ->].
    now destruct (get_fitness_plan_run request h') as [l' ->].
  - destruct (get_fitness_plan_run request h) as [l ->]. now exists l.
  - destruct (get_disease_diet_run request h) as [l ->].
    now destruct (get_disease_diet_run request h') as [l' ->].
  - destruct (get_disease_diet_run request h) as [l ->]. now exists l.
Qed.

(** * Further properties of the handlers *)

(** ** Rounding keeps the sign and never yields NaN *)

Section Rounding.

Local Open Scope Z_scope.
Variables prec emax : Z.

Lemma shr_1_nonneg (mrs : shr_record) :
  0 <= shr_m mrs -> 0 <= shr_m (shr_1 mrs).
Proof.
  destruct mrs as [m r s]. simpl.
  destruct m as [|p|p]; try lia; intros _.
  - simpl. lia.
  - destruct p; simpl; lia.
Qed.

Lemma iter_shr_1_nonneg (p : positive) (mrs : shr_record) :
  0 <= shr_m mrs -> 0 <= shr_m (iter_pos shr_1 p mrs).
Proof.
  revert mrs. induction p as [p IH|p IH|]; intros mrs H; simpl.
  - apply IH, IH, shr_1_nonneg, H.
  - apply IH, IH, H.
  - apply shr_1_nonneg, H.
Qed.

Lemma shr_fexp_nonneg (m e : Z) (l : location) :
  0 <= m -> 0 <= shr_m (fst (shr_fexp prec emax m e l)).
Proof.
  intros H. unfold shr_fexp, shr.
  assert (H0 : 0 <= shr_m (shr_record_of_loc m l))
    by (destruct l as [|[| |]]; exact H).
  destruct (fexp prec emax (Zdigits2 m + e) - e); simpl; auto.
  apply iter_shr_1_nonneg, H0.
Qed.

Lemma round_nearest_even_nonneg (m : Z) (l : location) :
  0 <= m -> 0 <= round_nearest_even m l.
Proof.
  intros H. destruct l as [|[| |]]; simpl; try lia.
  destruct (Z.even m); lia.
Qed.

Lemma binary_round_aux_signed (s : bool) (m e : Z) (l : location) :
  0 <= m -> signed s (binary_round_aux prec emax s m e l).
Proof.
  intros H. unfold binary_round_aux.
  pose proof (shr_fexp_nonneg m e l H) as H1.
  destruct (shr_fexp prec emax m e l) as [mrs' e']. simpl in H1.
  pose proof (shr_fexp_nonneg _ e' loc_Exact
                (round_nearest_even_nonneg _ (loc_of_shr_record mrs') H1)) as H2.
  destruct (shr_fexp prec emax _ e' loc_Exact) as [mrs'' e'']. simpl in H2.
  destruct (shr_m mrs'') as [|p|p]; simpl; try reflexivity; try lia.
  destruct (e'' <=? emax - prec); reflexivity.
Qed.

Lemma binary_round_aux_opp (s : bool) (m e : Z) (l : location) :
  binary_round_aux prec emax (negb s) m e l
  = SFopp (binary_round_aux prec emax s m e l).
Proof.
  unfold binary_round_aux.
  destruct (shr_fexp prec emax m e l) as [mrs' e'].
  destruct (shr_fexp prec emax _ e' loc_Exact) as [mrs'' e''].
  destruct (shr_m mrs''); simpl; try reflexivity.
  destruct (e'' <=? emax - prec); reflexivity.
Qed.

End Rounding.

(** ** The sign of a BMI *)

Section BmiSign.

Import PyFloat Fitness.
Local Open Scope Z_scope.

Lemma fdiv_finite_signed (sx sy : bool) (mx my : positive) (ex ey : Z) :
  signed (xorb sx sy) (fdiv (S754_finite sx mx ex) (S754_finite sy my ey)).
Proof.
  unfold fdiv, SFdiv.
  destruct (SFdiv_core_binary prec emax (Z.pos mx) ex (Z.pos my) ey)
    as [[mz ez] lz] eqn:E.
  apply binary_round_aux_signed.
  unfold SFdiv_core_binary in E.
  set (m' := match _ - _ - _ with Z0 => _ | Zpos _ => _ | Zneg _ => _ end) in E.
  assert (Hm' : 0 <= m').
  { unfold m'. destruct (_ - _ - _); try lia. apply Z.shiftl_nonneg. lia. }
  pose proof (Z_div_mod m' (Z.pos my) ltac:(lia)) as Hdm.
  destruct (Z.div_eucl m' (Z.pos my)) as [q r].
  injection E as <- _ _. nia.
Qed.

Lemma fmul_self_signed (x : float) :
  signed false (fmul x x) \/ x = S754_nan.
Proof.
  destruct x as [s|s| |s m e]; simpl; auto; left.
  - apply xorb_nilpotent.
  - apply xorb_nilpotent.
  - unfold fmul, SFmul. rewrite xorb_nilpotent.
    apply binary_round_aux_signed. lia.
Qed.

Lemma of_Z_signed (z : Z) : signed (z <? 0) (of_Z z).
Proof.
  unfold of_Z, binary_normalize, binary_round.
  destruct z as [|p|p]; simpl; [reflexivity| |].
  - destruct (shl_align p 0 _) as [mz ez]. apply binary_round_aux_signed. lia.
  - destruct (shl_align p 0 _) as [mz ez]. apply binary_round_aux_signed. lia.
Qed.

Lemma int_truediv_signed (a : Z) (q : float) :
  int_truediv a 100 = Ok q -> signed (a <? 0) q.
Proof.
  unfold int_truediv.
  destruct a as [|p|p]; simpl.
  - now intros [= <-].
  - pose proof (fdiv_finite_signed false false p 100 0 0) as H.
    destruct (is_inf _); [discriminate|]. now intros [= <-].
  - pose proof (fdiv_finite_signed true false p 100 0 0) as H.
    destruct (is_inf _); [discriminate|]. now intros [= <-].
Qed.

Lemma fdiv_signed (s : bool) (w y : float) :
  signed s w -> is_inf w = false ->
  signed false y -> is_zero y = false ->
  signed s (fdiv w y).
Proof.
  intros Hw Hi Hy Hz.
  destruct w as [sw|sw| |sw mw ew], y as [sy|sy| |sy my ey];
    cbn [signed is_inf is_zero] in Hw, Hi, Hy, Hz;
    try discriminate; try contradiction; subst;
    try (unfold fdiv; cbn [SFdiv signed]; now rewrite xorb_false_r).
  pose proof (fdiv_finite_signed s false mw my ew ey) as H.
  now rewrite xorb_false_r in H.
Qed.

Lemma round1_signed (s : bool) (x : float) : signed s x -> signed s (round1 x).
Proof.
  destruct x as [sx|sx| |sx m e]; simpl; auto.
  intros <-. destruct (0 <=? e); [reflexivity|].
  destruct (div_half_even _ _); try reflexivity.
  pose proof (fdiv_finite_signed sx false p 10 0 0) as H.
  now rewrite xorb_false_r in H.
Qed.

(** The sign of the weight is the sign of the BMI, and a BMI is never
    NaN. *)
Lemma compute_bmi_signed (ht wt : Z) (b : float) :
  compute_bmi ht wt = Ok b -> signed (wt <? 0) b.
Proof.
  unfold compute_bmi.
  destruct (int_truediv ht 100) as [hm|e] eqn:Eh; [|discriminate].
  pose proof (int_truediv_signed _ _ Eh) as Hhm.
  unfold float_of_int.
  pose proof (of_Z_signed wt) as Hw.
  destruct (is_inf (of_Z wt)) eqn:Ew; [discriminate|].
  unfold float_truediv.
  destruct (is_zero (fmul hm hm)) eqn:Ez; [discriminate|].
  simpl. intros [= <-].
  apply round1_signed, fdiv_signed; auto.
  destruct (fmul_self_signed hm) as [H | ->]; [exact H | contradiction].
Qed.

Lemma compute_bmi_zero_weight (ht : Z) (b : float) :
  compute_bmi ht 0 = Ok b -> b = S754_zero false.
Proof.
  unfold compute_bmi.
  destruct (int_truediv ht 100) as [hm|e] eqn:Eh; [|discriminate].
  pose proof (int_truediv_signed _ _ Eh) as Hhm.
  cbn [float_of_int of_Z binary_normalize is_inf].
  unfold float_truediv.
  destruct (is_zero (fmul hm hm)) eqn:Ez; [discriminate|].
  destruct (fmul_self_signed hm) as [H | ->]; [|contradiction].
  simpl. intros [= <-].
  destruct (fmul hm hm) as [sy|sy| |sy my ey]; simpl in *;
    try discriminate; try contradiction; now subst.
Qed.

Lemma signed_true_below (b c : float) (mc : positive) (ec : Z) :
  signed true b -> flt b (S754_finite false mc ec) = true.
Proof. destruct b as [s|s| |s m e]; simpl; try contradiction; now intros ->. Qed.

Lemma compute_bmi_neg_height (ht wt : Z) :
  compute_bmi (- ht) wt = compute_bmi ht wt.
Proof.
  assert (Hopp : forall p,
             int_truediv (Z.neg p) 100
             = map_result SFopp (int_truediv (Z.pos p) 100)).
  { intros p. unfold int_truediv. cbn [Z.ltb Z.compare xorb].
    unfold fdiv, SFdiv.
    destruct (SFdiv_core_binary prec emax (Z.pos p) 0 100 0) as [[mz ez] lz].
    cbn [xorb].
    rewrite (binary_round_aux_opp prec emax false mz ez lz : 
               binary_round_aux prec emax true mz ez lz = _).
    destruct (binary_round_aux prec emax false mz ez lz); reflexivity. }
  assert (Hsq : forall x, fmul (SFopp x) (SFopp x) = fmul x x).
  { intros [s|s| |s m e]; unfold fmul; cbn [SFopp SFmul];
      now rewrite ?xorb_nilpotent. }
  unfold compute_bmi.
  destruct ht as [|p|p]; [reflexivity| |].
  - change (- Z.pos p) with (Z.neg p). rewrite Hopp.
    destruct (int_truediv (Z.pos p) 100) as [hm|e]; simpl; [|reflexivity].
    now rewrite Hsq.
  - change (- Z.neg p) with (Z.pos p). rewrite Hopp.
    destruct (int_truediv (Z.pos p) 100) as [hm|e]; simpl; [|reflexivity].
    now rewrite Hsq.
Qed.

End BmiSign.

(** ** Substring tests *)

Section StringFacts.

Import PyStr.

Lemma startswith_app (p b : string) : startswith p (p ++ b) = true.
Proof.
  induction p as [|c p IH]; simpl; [reflexivity|].
  now rewrite Ascii.eqb_refl, IH.
Qed.

Lemma startswith_inv (p s : string) :
  startswith p s = true -> exists b, s = (p ++ b)%string.
Proof.
  revert s. induction p as [|c p IH]; intros s H; simpl in *.
  - now exists s.
  - destruct s as [|d s]; [discriminate|].
    apply andb_true_iff in H as [Hc Hp].
    apply Ascii.eqb_eq in Hc as ->.
    destruct (IH _ Hp) as [b ->]. now exists b.
Qed.

Lemma contains_startswith (sub s : string) :
  startswith sub s = true -> contains sub s = true.
Proof. intros H. destruct s; simpl; now rewrite H. Qed.

Lemma contains_app (a sub b : string) : contains sub (a ++ sub ++ b) = true.
Proof.
  induction a as [|c a IH]; simpl.
  - apply contains_startswith, startswith_app.
  - rewrite IH. apply orb_true_r.
Qed.

Lemma contains_inv (sub s : string) :
  contains sub s = true -> exists a b, s = (a ++ sub ++ b)%string.
Proof.
  induction s as [|c s IH]; simpl; intros H.
  - rewrite orb_false_r in H. destruct (startswith_inv _ _ H) as [b ->].
    now exists "", b.
  - apply orb_true_iff in H as [H|H].
    + destruct (startswith_inv _ _ H) as [b ->]. now exists "", b.
    + destruct (IH H) as (a & b & ->). now exists (String c a), b.
Qed.

Lemma startswith_short (p s : string) :
  String.length s < String.length p -> startswith p s = false.
Proof.
  revert s. induction p as [|c p IH]; intros s H; simpl in *; [lia|].
  destruct s as [|d s]; [reflexivity|]. simpl in H.
  rewrite IH by lia. apply andb_false_r.
Qed.

Lemma contains_short (sub s : string) :
  String.length s < String.length sub -> contains sub s = false.
Proof.
  induction s as [|c s IH]; intros H.
  - simpl. rewrite startswith_short by exact H. reflexivity.
  - cbn [contains]. rewrite startswith_short by exact H.
    simpl in H. rewrite IH by lia. reflexivity.
Qed.

Lemma replace_scan_absent (old new s : string) :
  contains old s = false -> replace_scan old new 0 s = s.
Proof.
  induction s as [|c s IH]; [reflexivity|].
  cbn [contains replace_scan]. intros H.
  apply orb_false_iff in H as [H1 H2].
  now rewrite H1, (IH H2).
Qed.

End StringFacts.

(** ** Lower-casing *)

Section LowerFacts.

Import PyStr.

Lemma append_nil_r (s : string) : (s ++ "")%string = s.
Proof. induction s as [|c s IH]; simpl; [reflexivity|]. now rewrite IH. Qed.

Lemma append_assoc (a b c : string) :
  ((a ++ b) ++ c)%string = (a ++ b ++ c)%string.
Proof. induction a as [|x a IH]; simpl; [reflexivity|]. now rewrite IH. Qed.

Lemma ascii_count_app (a b : string) :
  ascii_count (a ++ b) = ascii_count a + ascii_count b.
Proof. induction a as [|c a IH]; simpl; [reflexivity|]. rewrite IH. lia. Qed.

Lemma ascii_only_count (s : string) :
  ascii_only s = true -> ascii_count s = String.length s.
Proof.
  induction s as [|c s IH]; simpl; [reflexivity|].
  intros H. apply andb_true_iff in H as [-> H]. now rewrite (IH H).
Qed.

Lemma plain_app (a b : string) : plain (a ++ b) = plain a && plain b.
Proof.
  induction a as [|c a IH]; simpl; [reflexivity|].
  now rewrite IH, andb_assoc.
Qed.

Lemma plain_ascii_only (s : string) : plain s = true -> ascii_only s = true.
Proof.
  induction s as [|c s IH]; simpl; [reflexivity|].
  intros H. apply andb_true_iff in H as [H Hs].
  apply andb_true_iff in H as [-> _]. now apply IH.
Qed.

(** *** The characters of a string *)

Lemma tail_length_ascii (c : ascii) : is_ascii c = true -> tail_length c = 0.
Proof. destruct c as [? ? ? ? ? ? ? b7]. simpl. now intros ->%negb_true_iff. Qed.

Lemma is_continuation_ascii (c : ascii) :
  is_ascii c = true -> is_continuation c = false.
Proof. destruct c as [? ? ? ? ? ? ? b7]. simpl. now intros ->%negb_true_iff. Qed.

Lemma continuation_char_count (x : string) :
  continuation_char x = true -> ascii_count x = 0.
Proof.
  destruct x as [|c [|d x]]; try discriminate. simpl.
  destruct c as [? ? ? ? ? ? b6 b7]. simpl.
  now intros [-> _]%andb_true_iff.
Qed.

Lemma chars_ascii (c : ascii) (s : string) :
  is_ascii c = true -> chars (String c s) = String c "" :: chars s.
Proof. intros H. simpl. now rewrite (tail_length_ascii c H). Qed.

(** [absorb] yields the character in the making, longer by some
    continuation bytes, before what is left of the list. *)
Lemma absorb_shape (k : nat) (acc : string) (l : list string) :
  exists (t : string) (l' : list string),
    absorb k acc l = (acc ++ t)%string :: l' /\
    ascii_count t = 0 /\
    List.length l' <= List.length l /\
    (forall P : string -> Prop, Forall P l -> Forall P l').
Proof.
  revert acc l. induction k as [|k IH]; intros acc l.
  - exists "", l. simpl. rewrite append_nil_r. destruct l; auto.
  - destruct l as [|x l].
    + exists "", []. simpl. rewrite append_nil_r. auto.
    + simpl. destruct (continuation_char x) eqn:Hx.
      * destruct (IH (acc ++ x)%string l) as (t & l' & -> & Ht & Hl & HP).
        exists (x ++ t)%string, l'. rewrite append_assoc.
        split; [reflexivity|]. split; [|split].
        -- rewrite ascii_count_app, Ht, (continuation_char_count x Hx).
           reflexivity.
        -- simpl. lia.
        -- intros P HF. inversion HF; subst. auto.
      * exists "", (x :: l). rewrite append_nil_r. auto.
Qed.

Lemma absorb_app (k : nat) (acc x : string) (l1 l2 : list string) :
  continuation_char x = false ->
  absorb k acc (l1 ++ x :: l2) = absorb k acc l1 ++ x :: l2.
Proof.
  intros Hx. revert acc l1. induction k as [|k IH]; intros acc l1.
  - destruct l1; reflexivity.
  - destruct l1 as [|y l1]; simpl.
    + now rewrite Hx.
    + destruct (continuation_char y); [apply IH | reflexivity].
Qed.

Lemma chars_app_ascii (a : string) (c : ascii) (s : string) :
  is_ascii c = true ->
  chars (a ++ String c s) = chars a ++ chars (String c s).
Proof.
  intros Hc. induction a as [|d a IH]; [reflexivity|].
  rewrite (chars_ascii c s Hc) in *.
  change (chars (String d a ++ String c s))
    with (absorb (tail_length d) (String d "") (chars (a ++ String c s))).
  rewrite IH. cbn [chars]. apply absorb_app. simpl. now apply is_continuation_ascii.
Qed.

Lemma chars_length (s : string) : List.length (chars s) <= String.length s.
Proof.
  induction s as [|c s IH]; simpl; [lia|].
  destruct (absorb_shape (tail_length c) (String c "") (chars s))
    as (t & l' & -> & _ & Hl & _).
  simpl. lia.
Qed.

Lemma chars_count (s : string) :
  Forall (fun c => ascii_count c <= 1) (chars s).
Proof.
  induction s as [|c s IH]; simpl; [constructor|].
  destruct (absorb_shape (tail_length c) (String c "") (chars s))
    as (t & l' & -> & Ht & _ & HP).
  constructor; [|now apply HP].
  simpl. rewrite Ht. destruct (is_ascii c); lia.
Qed.

(** *** The case tables *)

Lemma assoc_in (k v : string) (l : list (string * string)) :
  assoc k l = Some v -> In (k, v) l.
Proof.
  induction l as [|[k' v'] l IH]; simpl; [discriminate|].
  destruct (String.eqb k k') eqn:E.
  - apply String.eqb_eq in E as ->. intros [= ->]. now left.
  - intros H. right. now apply IH.
Qed.

Lemma lower_table_count :
  forallb (fun p => Nat.leb (ascii_count (snd p)) 1) lower_table = true.
Proof. vm_compute. reflexivity. Qed.

Lemma lower_table_not_plain :
  forallb (fun p => negb (plain (snd p))) lower_table = true.
Proof. vm_compute. reflexivity. Qed.

Lemma lower_ascii_is_ascii (c : ascii) :
  is_ascii (lower_ascii c) = is_ascii c.
Proof.
  destruct c as [[] [] [] [] [] [] [] []]; reflexivity.
Qed.

Lemma lower_char_count (c : string) :
  ascii_count c <= 1 -> ascii_count (lower_char c) <= 1.
Proof.
  intros Hc. unfold lower_char.
  destruct c as [|a [|b c]].
  - destruct (assoc "" lower_table) as [l|] eqn:E; [|exact Hc].
    apply assoc_in in E.
    pose proof (proj1 (forallb_forall _ _) lower_table_count _ E) as H.
    now apply Nat.leb_le in H.
  - simpl. rewrite lower_ascii_is_ascii. destruct (is_ascii a); lia.
  - destruct (assoc _ lower_table) as [l|] eqn:E; [|exact Hc].
    apply assoc_in in E.
    pose proof (proj1 (forallb_forall _ _) lower_table_count _ E) as H.
    now apply Nat.leb_le in H.
Qed.

Lemma lower_char_not_plain (a : ascii) (t : string) :
  is_ascii a = false -> plain (lower_char (String a t)) = false.
Proof.
  intros Ha. unfold lower_char. destruct t as [|b t].
  - simpl. now rewrite lower_ascii_is_ascii, Ha.
  - destruct (assoc _ lower_table) as [l|] eqn:E.
    + apply assoc_in in E.
      pose proof (proj1 (forallb_forall _ _) lower_table_not_plain _ E) as H.
      now apply negb_true_iff in H.
    + simpl. now rewrite Ha.
Qed.

(** *** [lower] *)

Lemma lower_chars_count (cs behind : list string) :
  Forall (fun c => ascii_count c <= 1) cs ->
  ascii_count (lower_chars behind cs) <= List.length cs.
Proof.
  revert behind. induction cs as [|c cs IH]; intros behind H; simpl; [lia|].
  inversion H as [|? ? Hc Hcs]; subst.
  rewrite ascii_count_app. specialize (IH (c :: behind) Hcs).
  destruct (String.eqb c "Σ" && final_sigma behind cs).
  - simpl. lia.
  - pose proof (lower_char_count c Hc). lia.
Qed.

Lemma lower_count (s : string) : ascii_count (lower s) <= String.length s.
Proof.
  unfold lower.
  pose proof (lower_chars_count (chars s) [] (chars_count s)).
  pose proof (chars_length s). lia.
Qed.

Lemma lower_chars_app (l1 l2 behind : list string) :
  exists x : string,
    lower_chars behind (l1 ++ l2)
    = (x ++ lower_chars (rev l1 ++ behind) l2)%string.
Proof.
  revert behind. induction l1 as [|c l1 IH]; intros behind.
  - now exists "".
  - destruct (IH (c :: behind)) as [x Hx]. cbn [app lower_chars rev].
    rewrite Hx, <- app_assoc. cbn [app].
    eexists. now rewrite append_assoc.
Qed.

Lemma lower_chars_ascii (k s : string) (behind : list string) :
  ascii_only k = true ->
  exists behind' : list string,
    lower_chars behind (chars (k ++ s))
    = (ascii_lower k ++ lower_chars behind' (chars s))%string.
Proof.
  revert behind. induction k as [|c k IH]; intros behind H.
  - now exists behind.
  - cbn [ascii_only] in H. apply andb_true_iff in H as [Hc Hk].
    cbn [append]. rewrite (chars_ascii c _ Hc). cbn [lower_chars].
    destruct (IH (String c "" :: behind) Hk) as [behind' ->].
    exists behind'.
    replace (String.eqb (String c "") "Σ") with false
      by (simpl; destruct (Ascii.eqb c _); reflexivity).
    reflexivity.
Qed.

Lemma lower_ascii_only (k : string) :
  ascii_only k = true -> lower k = ascii_lower k.
Proof.
  intros H. unfold lower.
  destruct (lower_chars_ascii k "" [] H) as [behind' E].
  rewrite append_nil_r in E. rewrite E. simpl. apply append_nil_r.
Qed.

Lemma plain_lower_chars (s : string) (behind : list string) :
  plain (lower_chars behind (chars s)) = true -> ascii_only s = true.
Proof.
  revert behind. induction s as [|c s IH]; intros behind H; [reflexivity|].
  cbn [ascii_only]. destruct (is_ascii c) eqn:Hc.
  - rewrite (chars_ascii c s Hc) in H. cbn [lower_chars] in H.
    rewrite plain_app in H. apply andb_true_iff in H as [_ H].
    now apply IH in H.
  - exfalso. cbn [chars] in H.
    destruct (absorb_shape (tail_length c) (String c "") (chars s))
      as (t & l' & E & _). rewrite E in H. cbn [lower_chars] in H.
    rewrite plain_app in H. apply andb_true_iff in H as [H _].
    destruct (String.eqb _ "Σ" && final_sigma behind l').
    + discriminate H.
    + cbn [append] in H. now rewrite (lower_char_not_plain c _ Hc) in H.
Qed.

Lemma contains_nil (s : string) : contains "" s = true.
Proof. destruct s; reflexivity. Qed.

(** A keyword without the letter k, spelt in any case, is found in the
    lower-cased text wherever it stands. *)
Lemma contains_lower_app (a k b sub : string) :
  lower k = sub -> plain sub = true ->
  contains sub (lower (a ++ k ++ b)) = true.
Proof.
  intros Hk Hsub.
  assert (Hascii : ascii_only k = true).
  { apply (plain_lower_chars k []). fold (lower k). now rewrite Hk. }
  rewrite (lower_ascii_only k Hascii) in Hk.
  destruct k as [|c k]; [subst sub; apply contains_nil|].
  pose proof Hascii as Hc. cbn [ascii_only] in Hc.
  apply andb_true_iff in Hc as [Hc _].
  unfold lower. cbn [append]. rewrite (chars_app_ascii a c _ Hc).
  destruct (lower_chars_app (chars a) (chars (String c (k ++ b))) [])
    as [x ->].
  change (String c (k ++ b)) with (String c k ++ b)%string.
  destruct (lower_chars_ascii (String c k) b (rev (chars a) ++ []) Hascii)
    as [behind' ->].
  rewrite Hk. apply contains_app.
Qed.

Lemma contains_count (sub s : string) :
  contains sub s = true -> ascii_count sub <= ascii_count s.
Proof.
  intros H. destruct (contains_inv _ _ H) as (a & b & ->).
  rewrite !ascii_count_app. lia.
Qed.

(** A text shorter than an ASCII keyword cannot hold it once lower-cased:
    a character lowers to at most one ASCII letter. *)
Lemma contains_lower_short (sub s : string) :
  ascii_only sub = true ->
  String.length s < String.length sub -> contains sub (lower s) = false.
Proof.
  intros Hsub Hlen. destruct (contains sub (lower s)) eqn:E; [|reflexivity].
  apply contains_count in E. rewrite (ascii_only_count sub Hsub) in E.
  pose proof (lower_count s). lia.
Qed.

(** [lower] follows [str.lower] outside ASCII: the Kelvin sign (U+212A,
    bytes E2 84 AA) lowers to the letter k, the dotted capital I (U+0130)
    to i and a combining dot, and a capital sigma to its final form at
    the end of a word only. *)
Example lower_outside_ascii :
  let kelvin_sign :=
    String "226" (String "132" (String "170" EmptyString)) in
  lower kelvin_sign = "k"
  /\ lower (kelvin_sign ++ "ETO") = "keto"
  /\ lower "İ" = String "i" (String "204" (String "135" EmptyString))
  /\ lower "ÉCOLE" = "école"
  /\ lower "ΟΔΟΣ ΣΟΦΟΣ" = "οδος σοφος"
  /\ lower "Σ" = "σ".
Proof. repeat split; vm_compute; reflexivity. Qed.

End LowerFacts.

Section StringExtras.

Import PyStr.

(** X1. The substring test decides occurrence: [sub in s] holds exactly
    when [s] is some text, then [sub], then some text. *)
Theorem X1_contains_iff_occurs :
  forall (sub s : string),
    contains sub s = true <-> exists a b, s = (a ++ sub ++ b)%string.
Proof.
  intros sub s. split.
  - apply contains_inv.
  - intros (a & b & ->). apply contains_app.
Qed.

Lemma X1_contains_iff_occurs_witness :
  contains "lose" "closed" = true /\
  exists a b, "closed" = (a ++ "lose" ++ b)%string.
Proof.
  assert (H : contains "lose" "closed" = true) by reflexivity.
  split; [exact H|].
  exact (proj1 (X1_contains_iff_occurs "lose" "closed") H).
Defined.

End StringExtras.

(** ** /fitness-plan *)

Section FitnessExtras.

Import PyStr PyFloat Fitness.
Local Open Scope Z_scope.

Lemma flt_or_fle (b : float) (mc : positive) (ec : Z) :
  b <> S754_nan ->
  flt b (S754_finite false mc ec) = true
  \/ fle (S754_finite false mc ec) b = true.
Proof.
  intros Hb. unfold flt, fle, SFltb, SFleb.
  destruct b as [s|s| |s m e]; simpl; try contradiction; auto.
  - destruct s; auto.
  - destruct s; simpl; auto.
    rewrite (Z.compare_antisym e ec).
    destruct (e ?= ec); simpl; auto.
    change (Pos.compare_cont Eq mc m) with (mc ?= m)%positive.
    change (Pos.compare_cont Eq m mc) with (m ?= mc)%positive.
    rewrite (Pos.compare_antisym m mc).
    destruct (m ?= mc)%positive; simpl; auto.
Qed.

Lemma signed_not_nan (s : bool) (b : float) : signed s b -> b <> S754_nan.
Proof. destruct b; simpl; congruence || contradiction. Qed.

(** X6. A BMI in a response is never NaN, so the four intervals cover it:
    the category is always one the interval tests select.  It can be
    infinite: the float quotient overflows without an exception. *)
Theorem X6_bmi_never_nan :
  (forall (h : heap) (request : FitnessRequest) (resp : FitnessResponse),
      fst (get_fitness_plan request h) = HTTP200 resp ->
      resp.(bmi) <> S754_nan /\
      ((flt resp.(bmi) f18_5 = true /\ resp.(category) = "Underweight") \/
       (fle f18_5 resp.(bmi) = true /\ flt resp.(bmi) f25 = true /\
        resp.(category) = "Normal weight") \/
       (fle f25 resp.(bmi) = true /\ flt resp.(bmi) f30 = true /\
        resp.(category) = "Overweight") \/
       (fle f30 resp.(bmi) = true /\ resp.(category) = "Obese")))
  /\ (forall (h : heap) (g : string),
        fst (get_fitness_plan
               {| height := 1; weight := 10 ^ 308; goal := g |} h)
        = HTTP200 {| bmi := S754_infinity false; category := "Obese";
                     plan := goal_plan (lower g) |}).
Proof.
  split.
  - intros h request resp Hresp.
    destruct (fitness_response _ _ _ Hresp) as (b & Hb & ->).
    cbn [bmi category].
    pose proof (signed_not_nan _ _ (compute_bmi_signed _ _ _ Hb)) as Hnan.
    split; [exact Hnan|].
    change f18_5 with (S754_finite false 5207287069147136 (-48)).
    change f25 with (S754_finite false 7036874417766400 (-48)).
    change f30 with (S754_finite false 8444249301319680 (-48)).
    destruct (flt_or_fle b 5207287069147136 (-48) Hnan) as [H1|H1].
    { left. split; [exact H1|]. now apply category_underweight. }
    destruct (flt_or_fle b 7036874417766400 (-48) Hnan) as [H2|H2].
    { right; left. repeat split; auto. now apply category_normal. }
    destruct (flt_or_fle b 8444249301319680 (-48) Hnan) as [H3|H3].
    { right; right; left. repeat split; auto. now apply category_overweight. }
    right; right; right. split; [exact H3|]. now apply category_obese.
  - intros h g.
    destruct (get_fitness_plan_run
                {| height := 1; weight := 10 ^ 308; goal := g |} h) as [l ->].
    cbn [fst height weight goal]. generalize (lower g). intros lowered.
    vm_compute. reflexivity.
Qed.

Lemma X6_bmi_never_nan_witness :
  let request := {| height := 160; weight := 50; goal := "" |} in
  let resp := {| bmi := decimal1 195; category := "Normal weight";
                 plan := plan_general |} in
  fst (get_fitness_plan request []) = HTTP200 resp /\
  resp.(bmi) <> S754_nan.
Proof.
  intros request resp.
  assert (Hrun : fst (get_fitness_plan request []) = HTTP200 resp)
    by reflexivity.
  split; [exact Hrun|].
  exact (proj1 (proj1 X6_bmi_never_nan [] request resp Hrun)).
Defined.

(** X4. Nothing checks the sign of the weight: a zero or negative weight is
    answered with a 200 in the category "Underweight", and a positive
    weight never gives a negative BMI. *)
Theorem X4_weight_sign :
  forall (h : heap) (request : FitnessRequest) (resp : FitnessResponse),
    fst (get_fitness_plan request h) = HTTP200 resp ->
    (request.(weight) <= 0 ->
     flt resp.(bmi) f18_5 = true /\ resp.(category) = "Underweight") /\
    (0 < request.(weight) -> flt resp.(bmi) (S754_zero false) = false).
Proof.
  intros h request resp Hresp.
  destruct (fitness_response _ _ _ Hresp) as (b & Hb & ->).
  cbn [bmi category].
  pose proof (compute_bmi_signed _ _ _ Hb) as Hs.
  split.
  - intros Hw.
    assert (Hlt : flt b f18_5 = true).
    { destruct (Z.eq_dec (weight request) 0) as [E|E].
      - rewrite E in Hb. now rewrite (compute_bmi_zero_weight _ _ Hb).
      - replace (weight request <? 0) with true in Hs
          by (symmetry; apply Z.ltb_lt; lia).
        change f18_5 with (S754_finite false 5207287069147136 (-48)).
        now apply signed_true_below. }
    split; [exact Hlt|]. now apply category_underweight.
  - intros Hw.
    replace (weight request <? 0) with false in Hs
      by (symmetry; apply Z.ltb_ge; lia).
    destruct b as [s|s| |s m e]; simpl in Hs; try contradiction; now subst.
Qed.

Lemma X4_weight_sign_witness :
  let request := {| height := 180; weight := -81; goal := "" |} in
  let resp := {| bmi := decimal1 (-250); category := "Underweight";
                 plan := plan_general |} in
  fst (get_fitness_plan request []) = HTTP200 resp /\
  request.(weight) <= 0 /\ resp.(category) = "Underweight".
Proof.
  intros request resp.
  assert (Hrun : fst (get_fitness_plan request []) = HTTP200 resp)
    by reflexivity.
  assert (Hw : request.(weight) <= 0) by (cbn; lia).
  split; [exact Hrun|]. split; [exact Hw|].
  exact (proj2 (proj1 (X4_weight_sign [] request resp Hrun) Hw)).
Defined.

(** X5. Nothing checks the sign of the height either, and the square
    removes it: a height and its negation get the same response. *)
Theorem X5_height_sign :
  forall (h : heap) (ht wt : Z) (g : string),
    fst (get_fitness_plan {| height := - ht; weight := wt; goal := g |} h)
    = fst (get_fitness_plan {| height := ht; weight := wt; goal := g |} h).
Proof.
  intros h ht wt g.
  destruct (get_fitness_plan_run
              {| height := - ht; weight := wt; goal := g |} h) as [l ->].
  destruct (get_fitness_plan_run
              {| height := ht; weight := wt; goal := g |} h) as [l' ->].
  cbn [fst height weight goal]. now rewrite compute_bmi_neg_height.
Qed.

(** X2. A goal keyword counts wherever it stands in the goal and however
    it is capitalised: "lose" always selects the weight-loss plan, and
    "gain" or "muscle" the muscle-gain plan when "lose" does not occur. *)
Theorem X2_goal_keyword_anywhere :
  forall (h : heap) (ht wt : Z) (a k b : string) (resp : FitnessResponse),
    fst (get_fitness_plan
           {| height := ht; weight := wt; goal := (a ++ k ++ b)%string |} h)
    = HTTP200 resp ->
    (lower k = "lose" -> resp.(plan) = plan_lose) /\
    (lower k = "gain" \/ lower k = "muscle" ->
     contains "lose" (lower (a ++ k ++ b)) = false ->
     resp.(plan) = plan_gain).
Proof.
  intros h ht wt a k b resp Hresp.
  destruct (fitness_response _ _ _ Hresp) as (x & _ & ->).
  cbn [plan goal]. unfold goal_plan. split.
  - intros Hk. now rewrite (contains_lower_app a k b _ Hk eq_refl).
  - intros [Hk|Hk] ->; rewrite (contains_lower_app a k b _ Hk eq_refl);
      [reflexivity | now rewrite orb_true_r].
Qed.

Lemma X2_goal_keyword_anywhere_witness :
  let request := {| height := 180; weight := 81;
                    goal := "help me cLOSEly" |} in
  let resp := {| bmi := decimal1 250; category := "Overweight";
                 plan := plan_lose |} in
  fst (get_fitness_plan request []) = HTTP200 resp /\
  lower "LOSE" = "lose" /\ resp.(plan) = plan_lose.
Proof.
  intros request resp.
  assert (Hrun : fst (get_fitness_plan
                        {| height := 180; weight := 81;
                           goal := ("help me c" ++ "LOSE" ++ "ly")%string |} [])
                 = HTTP200 resp) by reflexivity.
  split; [exact Hrun|]. split; [reflexivity|].
  exact (proj1 (X2_goal_keyword_anywhere [] 180 81 _ _ _ resp Hrun) eq_refl).
Defined.

(** X3. A goal of fewer than four characters cannot hold a keyword and
    gets the general-fitness plan. *)
Theorem X3_short_goal :
  forall (h : heap) (request : FitnessRequest) (resp : FitnessResponse),
    (String.length request.(goal) < 4)%nat ->
    fst (get_fitness_plan request h) = HTTP200 resp ->
    resp.(plan) = plan_general.
Proof.
  intros h request resp Hlen Hresp.
  destruct (fitness_response _ _ _ Hresp) as (x & _ & ->).
  cbn [plan]. unfold goal_plan.
  rewrite !contains_lower_short by (reflexivity || (simpl; lia)).
  reflexivity.
Qed.

Lemma X3_short_goal_witness :
  let request := {| height := 180; weight := 81; goal := "fit" |} in
  let resp := {| bmi := decimal1 250; category := "Overweight";
                 plan := plan_general |} in
  (String.length request.(goal) < 4)%nat /\
  fst (get_fitness_plan request []) = HTTP200 resp /\
  resp.(plan) = plan_general.
Proof.
  intros request resp.
  assert (Hlen : (String.length request.(goal) < 4)%nat) by (cbn; lia).
  assert (Hrun : fst (get_fitness_plan request []) = HTTP200 resp)
    by reflexivity.
  split; [exact Hlen|]. split; [exact Hrun|].
  exact (X3_short_goal [] request resp Hlen Hrun).
Defined.

End FitnessExtras.

(** ** /disease-diet *)

Section LoopExtras.

Import PyStr Diet.

Lemma find_loop_none (dp : ref) (text : string) (ks : list string) (h : heap) :
  (forall k, In k ks -> contains k text = false) ->
  find_matching_plan dp text ks h = (Ok None, h).
Proof.
  induction ks as [|k ks IH]; intros H; simpl; [reflexivity|].
  rewrite (H k (or_introl eq_refl)). apply IH.
  intros k' Hk'. apply H. now right.
Qed.

Lemma find_loop_some (dp : nat) (text k : string) (ks1 ks2 : list string)
    (h : heap) (entries : list (string * val)) (r : ref) :
  nth_error h dp = Some (DictObj entries) ->
  PyDict.lookup k entries = Some (Ref r) ->
  (forall k', In k' ks1 -> contains k' text = false) ->
  contains k text = true ->
  find_matching_plan (Loc dp) text (ks1 ++ k :: ks2) h = (Ok (Some r), h).
Proof.
  intros Hdp Hk Hpre Hmatch.
  induction ks1 as [|k1 ks1 IH]; simpl.
  - rewrite Hmatch.
    now rewrite (bind_ok _ _ _ _ _ (run_dict_getitem _ _ _ _ _ Hdp Hk)).
  - rewrite (Hpre k1 (or_introl eq_refl)). apply IH.
    intros k' Hk'. apply Hpre. now right.
Qed.

Lemma lookup_after (k : string) (v : val) (pre post : list (string * val)) :
  (forall k' v', In (k', v') pre -> k' <> k) ->
  PyDict.lookup k (pre ++ (k, v) :: post) = Some v.
Proof.
  induction pre as [|[k1 v1] pre IH]; intros H; simpl.
  - now rewrite String.eqb_refl.
  - destruct (String.eqb_spec k1 k) as [E|_].
    + exfalso. exact (H k1 v1 (or_introl eq_refl) E).
    + apply IH. intros k' v' Hin. apply (H k' v'). now right.
Qed.

(** X7. The selection loop, for any table of plans in any store: it
    returns the plan of the first key, in the dict's order, that occurs
    in the text, returns [None] when no key occurs, and leaves the store
    as it was. *)
Theorem X7_first_matching_key :
  forall (h : heap) (dp : nat) (entries : list (string * val))
         (text : string),
    nth_error h dp = Some (DictObj entries) ->
    ((forall k v, In (k, v) entries -> contains k text = false) ->
     find_matching_plan (Loc dp) text (PyDict.keys entries) h
     = (Ok None, h)) /\
    (forall pre k r post,
        entries = pre ++ (k, Ref r) :: post ->
        (forall k' v', In (k', v') pre -> contains k' text = false) ->
        contains k text = true ->
        find_matching_plan (Loc dp) text (PyDict.keys entries) h
        = (Ok (Some r), h)).
Proof.
  intros h dp entries text Hdp. split.
  - intros Hnone. apply find_loop_none.
    intros k Hk. unfold PyDict.keys in Hk.
    apply in_map_iff in Hk as ([k' v] & <- & Hin). exact (Hnone _ _ Hin).
  - intros pre k r post -> Hpre Hmatch.
    unfold PyDict.keys. rewrite map_app. cbn [map fst].
    apply (find_loop_some dp text k _ _ h _ r Hdp); [| |exact Hmatch].
    + apply lookup_after. intros k' v' Hin ->.
      rewrite (Hpre _ _ Hin) in Hmatch. discriminate.
    + intros k' Hk'. apply in_map_iff in Hk' as ([k1 v1] & <- & Hin).
      exact (Hpre _ _ Hin).
Qed.

Lemma X7_first_matching_key_witness :
  let entries := [ ("flu", Ref (Loc 5)); ("cold", Ref (Loc 7)) ] in
  let h := [ DictObj entries ] in
  nth_error h 0 = Some (DictObj entries) /\
  contains "cold" "a cold and flu-like fever" = true /\
  find_matching_plan (Loc 0) "a cold and flu-like fever"
    (PyDict.keys entries) h
  = (Ok (Some (Loc 5)), h).
Proof.
  intros entries h.
  assert (Hdp : nth_error h 0 = Some (DictObj entries)) by reflexivity.
  split; [exact Hdp|]. split; [reflexivity|].
  apply (proj2 (X7_first_matching_key h 0 entries
                  "a cold and flu-like fever" Hdp) [] "flu" (Loc 5)
           [ ("cold", Ref (Loc 7)) ] eq_refl).
  - intros k' v' [].
  - reflexivity.
Defined.

End LoopExtras.

Section DietExtras.

Import PyStr Diet.

Lemma in_firstn {A : Type} (n : nat) (l : list A) (x : A) :
  In x (firstn n l) -> In x l.
Proof.
  intros H. rewrite <- (firstn_skipn n l). apply in_or_app. now left.
Qed.

Lemma diet_response (h : heap) (request : DiseaseRequest)
    (resp : DiseaseResponse) :
  fst (get_disease_diet request h) = HTTP200 resp ->
  resp = Spec.disease_diet request.
Proof.
  destruct (get_disease_diet_run request h) as [l ->]. now intros [= <-].
Qed.

Lemma in_drop_then_append (words extra rec : list string) (entry : string) :
  In entry (Spec.drop_then_append words extra rec) ->
  Spec.mentions words entry = false \/ In entry extra.
Proof.
  unfold Spec.drop_then_append. intros H.
  apply in_app_or in H as [H|H]; [left|now right].
  apply filter_In in H as [_ H]. now apply negb_true_iff in H.
Qed.

(** X11. When a branch of the filter fires, no recommended entry of the
    response mentions a word that branch drops, whatever the plan: the
    kept entries do not, and neither do the appended ones. *)
Theorem X11_filter_removes_every_mention :
  forall (h : heap) (d p entry : string) (resp : DiseaseResponse),
    fst (get_disease_diet {| disease := d; preference := Some p |} h)
    = HTTP200 resp ->
    In entry resp.(recommended) ->
    let pref := lower p in
    (contains "vegetarian" pref = true ->
     contains "chicken" (lower entry) = false /\
     contains "fish" (lower entry) = false) /\
    (contains "vegetarian" pref = false -> contains "vegan" pref = true ->
     contains "chicken" (lower entry) = false /\
     contains "fish" (lower entry) = false /\
     contains "yogurt" (lower entry) = false /\
     contains "dairy" (lower entry) = false) /\
    (contains "vegetarian" pref = false -> contains "vegan" pref = false ->
     contains "keto" pref = true ->
     contains "grains" (lower entry) = false /\
     contains "oats" (lower entry) = false).
Proof.
  intros h d p entry resp Hresp Hin pref.
  rewrite (diet_response _ _ _ Hresp) in Hin.
  unfold Spec.disease_diet, Spec.full_recommended in Hin.
  cbn [recommended preference disease] in Hin.
  apply in_firstn in Hin.
  unfold Spec.preference_filter in Hin. fold pref in Hin.
  repeat split; intros;
    repeat match goal with
    | H : contains _ pref = _ |- _ => rewrite H in Hin; clear H
    end;
    (apply in_drop_then_append in Hin as [Hin|Hin];
     [ unfold Spec.mentions in Hin; cbn [existsb] in Hin;
       repeat (apply orb_false_iff in Hin as [? Hin]); assumption
     | cbn [In] in Hin;
       repeat match goal with
       | H : _ \/ _ |- _ => destruct H as [<-|H]
       | H : False |- _ => contradiction
       end; vm_compute; reflexivity ]).
Qed.

Lemma X11_filter_removes_every_mention_witness :
  let resp :=
    {| recommended :=
         [ "Fresh fruits and vegetables"; "Whole grains";
           "Healthy fats (avocado, nuts, olive oil)"; "Plenty of water";
           "Herbal teas"; "Plant-based proteins"; "Fortified plant milks" ];
       avoid := firstn 6 default_avoid |} in
  fst (get_disease_diet {| disease := "flu"; preference := Some "Vegan" |} [])
  = HTTP200 resp /\
  In "Whole grains" resp.(recommended) /\
  contains "dairy" (lower "Whole grains") = false.
Proof.
  intros resp.
  assert (Hrun : fst (get_disease_diet
                        {| disease := "flu"; preference := Some "Vegan" |} [])
                 = HTTP200 resp) by (vm_compute; reflexivity).
  assert (Hin : In "Whole grains" resp.(recommended))
    by (cbn; tauto).
  split; [exact Hrun|]. split; [exact Hin|].
  destruct (X11_filter_removes_every_mention [] "flu" "Vegan" "Whole grains"
              resp Hrun Hin) as (_ & Hvegan & _).
  exact (proj2 (proj2 (proj2 (Hvegan eq_refl eq_refl)))).
Defined.

Ltac split_disease d :=
  unfold Spec.select_plan, Spec.first_match, Spec.condition_plans;
  destruct (contains "diabetes" (lower d));
    [| destruct (contains "hypertension" (lower d));
       [| destruct (contains "thyroid" (lower d));
          [| destruct (contains "heart disease" (lower d)) ] ] ].

Ltac split_preference p :=
  unfold Spec.preference_filter; cbv zeta;
  destruct (contains "vegetarian" (lower p));
    [| destruct (contains "vegan" (lower p));
       [| destruct (contains "keto" (lower p)) ] ].

(** X13. Every response has exactly 6 avoid entries, the first six of the
    selected plan whatever the preference, so the seventh avoid entry of a
    plan is never served; and it has 7 or 8 recommended entries. *)
Theorem X13_response_sizes :
  forall (h : heap) (d : string) (pref pref' : option string),
    exists resp resp',
      fst (get_disease_diet {| disease := d; preference := pref |} h)
      = HTTP200 resp /\
      fst (get_disease_diet {| disease := d; preference := pref' |} h)
      = HTTP200 resp' /\
      resp.(avoid) = resp'.(avoid) /\
      List.length resp.(avoid) = 6 /\
      (List.length resp.(recommended) = 7
       \/ List.length resp.(recommended) = 8).
Proof.
  intros h d pref pref'.
  destruct (get_disease_diet_run {| disease := d; preference := pref |} h)
    as [l ->].
  destruct (get_disease_diet_run {| disease := d; preference := pref' |} h)
    as [l' ->].
  do 2 eexists. split; [reflexivity|]. split; [reflexivity|].
  split; [reflexivity|].
  unfold Spec.disease_diet, Spec.full_recommended, Spec.full_avoid.
  cbn [recommended avoid disease preference fst].
  split.
  - split_disease d; reflexivity.
  - destruct pref as [p|].
    + split_disease d; split_preference p; vm_compute; auto.
    + split_disease d; vm_compute; auto.
Qed.

(** X12. What truncation does to the additions: the vegetarian entry is
    always in the response, and so is the first of the two vegan and of
    the two keto entries; the second one ("Fortified plant milks",
    "Low-carb vegetables") is cut exactly when the thyroid plan is
    selected, the only plan from which those branches drop nothing. *)
Theorem X12_additions_after_truncation :
  forall (h : heap) (d p : string) (resp : DiseaseResponse),
    fst (get_disease_diet {| disease := d; preference := Some p |} h)
    = HTTP200 resp ->
    let pref := lower p in
    let text := lower d in
    (contains "vegetarian" pref = true ->
     In "Plant-based proteins (tofu, tempeh, legumes)" resp.(recommended)) /\
    (contains "vegetarian" pref = false -> contains "vegan" pref = true ->
     In "Plant-based proteins" resp.(recommended) /\
     (In "Fortified plant milks" resp.(recommended) <->
      ~ (contains "diabetes" text = false /\
         contains "hypertension" text = false /\
         contains "thyroid" text = true))) /\
    (contains "vegetarian" pref = false -> contains "vegan" pref = false ->
     contains "keto" pref = true ->
     In "Healthy fats" resp.(recommended) /\
     (In "Low-carb vegetables" resp.(recommended) <->
      ~ (contains "diabetes" text = false /\
         contains "hypertension" text = false /\
         contains "thyroid" text = true))).
Proof.
  intros h d p resp Hresp pref text.
  rewrite (diet_response _ _ _ Hresp).
  unfold Spec.disease_diet, Spec.full_recommended.
  cbn [recommended disease preference].
  unfold Spec.preference_filter. fold pref.
  unfold Spec.select_plan, Spec.first_match, Spec.condition_plans. fold text.
  assert (Hdec : forall (x : string) (l : list string),
             In x l <-> (if in_dec string_dec x l then true else false) = true).
  { intros x l. destruct (in_dec string_dec x l); split; auto; discriminate. }
  split; [|split].
  - intros ->. apply Hdec.
    destruct (contains "diabetes" text), (contains "hypertension" text),
      (contains "thyroid" text), (contains "heart disease" text);
      vm_compute; reflexivity.
  - intros -> ->. split.
    + apply Hdec.
      destruct (contains "diabetes" text), (contains "hypertension" text),
        (contains "thyroid" text), (contains "heart disease" text);
        vm_compute; reflexivity.
    + rewrite Hdec.
      destruct (contains "diabetes" text), (contains "hypertension" text),
        (contains "thyroid" text), (contains "heart disease" text);
        vm_compute; split;
        solve [ reflexivity
              | discriminate
              | intros _ (? & ? & ?); discriminate
              | intros H; exfalso; apply H; repeat split; reflexivity ].
  - intros -> -> ->. split.
    + apply Hdec.
      destruct (contains "diabetes" text), (contains "hypertension" text),
        (contains "thyroid" text), (contains "heart disease" text);
        vm_compute; reflexivity.
    + rewrite Hdec.
      destruct (contains "diabetes" text), (contains "hypertension" text),
        (contains "thyroid" text), (contains "heart disease" text);
        vm_compute; split;
        solve [ reflexivity
              | discriminate
              | intros _ (? & ? & ?); discriminate
              | intros H; exfalso; apply H; repeat split; reflexivity ].
Qed.

Lemma X12_additions_after_truncation_witness :
  let resp :=
    {| recommended := thyroid_recommended ++ [ "Plant-based proteins" ];
       avoid := firstn 6 thyroid_avoid |} in
  fst (get_disease_diet
         {| disease := "Thyroid"; preference := Some "vegan" |} [])
  = HTTP200 resp /\
  In "Plant-based proteins" resp.(recommended) /\
  ~ In "Fortified plant milks" resp.(recommended).
Proof.
  intros resp.
  assert (Hrun : fst (get_disease_diet
                        {| disease := "Thyroid";
                           preference := Some "vegan" |} [])
                 = HTTP200 resp) by (vm_compute; reflexivity).
  destruct (X12_additions_after_truncation [] "Thyroid" "vegan" resp Hrun)
    as (_ & Hvegan & _).
  destruct (Hvegan eq_refl eq_refl) as [Hfirst Hsecond].
  split; [exact Hrun|]. split; [exact Hfirst|].
  intros Hin. apply Hsecond in Hin. apply Hin. repeat split; reflexivity.
Defined.

(** X10. The response depends on the disease and on the preference only
    through their lower-cased forms; in particular the exact-case test
    against "No Preference" changes nothing. *)
Theorem X10_diet_case_insensitive :
  forall (h : heap) (d d' p p' : string),
    lower d = lower d' -> lower p = lower p' ->
    fst (get_disease_diet {| disease := d; preference := Some p |} h)
    = fst (get_disease_diet {| disease := d'; preference := Some p' |} h).
Proof.
  intros h d d' p p' Hd Hp.
  destruct (get_disease_diet_run {| disease := d; preference := Some p |} h)
    as [l ->].
  destruct (get_disease_diet_run {| disease := d'; preference := Some p' |} h)
    as [l' ->].
  unfold Spec.disease_diet, Spec.full_recommended, Spec.full_avoid,
    Spec.select_plan, Spec.preference_filter.
  cbn [fst disease preference]. now rewrite Hd, Hp.
Qed.

Lemma X10_diet_case_insensitive_witness :
  lower "Heart Disease" = lower "HEART DISEASE" /\
  lower "no preference" = lower "No Preference" /\
  fst (get_disease_diet
         {| disease := "Heart Disease"; preference := Some "no preference" |}
         [])
  = fst (get_disease_diet
           {| disease := "HEART DISEASE";
              preference := Some "No Preference" |} []).
Proof.
  split; [reflexivity|]. split; [reflexivity|].
  exact (X10_diet_case_insensitive [] "Heart Disease" "HEART DISEASE"
           "no preference" "No Preference" eq_refl eq_refl).
Defined.

(** X8. The first key wins wherever it stands and however it is
    capitalised: a disease text with "diabetes" in it gets the diabetes
    plan, whatever else it mentions. *)
Theorem X8_diabetes_anywhere :
  forall (h : heap) (a k b : string) (pref : option string),
    lower k = "diabetes" ->
    fst (get_disease_diet
           {| disease := (a ++ k ++ b)%string; preference := pref |} h)
    = HTTP200
        {| recommended :=
             firstn 8 (Spec.preference_filter pref diabetes_recommended);
           avoid := firstn 6 diabetes_avoid |}.
Proof.
  intros h a k b pref Hk.
  destruct (get_disease_diet_run
              {| disease := (a ++ k ++ b)%string; preference := pref |} h)
    as [l ->].
  unfold Spec.disease_diet, Spec.full_recommended, Spec.full_avoid,
    Spec.select_plan, Spec.first_match, Spec.condition_plans.
  cbn [fst disease preference].
  now rewrite (contains_lower_app a k b _ Hk eq_refl).
Qed.

Lemma X8_diabetes_anywhere_witness :
  lower "DIABETES" = "diabetes" /\
  fst (get_disease_diet
         {| disease := "thyroid and DIABETES, hypertension";
            preference := None |} [])
  = HTTP200 {| recommended := diabetes_recommended;
               avoid := firstn 6 diabetes_avoid |}.
Proof.
  split; [reflexivity|].
  exact (X8_diabetes_anywhere [] "thyroid and " "DIABETES" ", hypertension"
           None eq_refl).
Defined.

(** X9. Texts too short to hold a keyword: a disease of fewer than 7 bytes
    gets the default plan, and a preference of fewer than 4 bytes is
    answered like no preference. *)
Theorem X9_short_texts :
  forall (h : heap) (d p : string),
    (String.length d < 7 ->
     fst (get_disease_diet {| disease := d; preference := Some p |} h)
     = HTTP200
         {| recommended :=
              firstn 8 (Spec.preference_filter (Some p) default_recommended);
            avoid := firstn 6 default_avoid |}) /\
    (String.length p < 4 ->
     fst (get_disease_diet {| disease := d; preference := Some p |} h)
     = fst (get_disease_diet {| disease := d; preference := None |} h)).
Proof.
  intros h d p.
  destruct (get_disease_diet_run {| disease := d; preference := Some p |} h)
    as [l ->].
  destruct (get_disease_diet_run {| disease := d; preference := None |} h)
    as [l' ->].
  unfold Spec.disease_diet, Spec.full_recommended, Spec.full_avoid,
    Spec.select_plan, Spec.first_match, Spec.condition_plans.
  cbn [fst disease preference]. split; intros Hlen.
  - now rewrite !contains_lower_short by (reflexivity || (simpl; lia)).
  - unfold Spec.preference_filter.
    now rewrite !(contains_lower_short _ p)
      by (reflexivity || (simpl; lia)).
Qed.

Lemma X9_short_texts_witness :
  String.length "flu" < 7 /\
  fst (get_disease_diet {| disease := "flu"; preference := Some "keto" |} [])
  = HTTP200
      {| recommended :=
           firstn 8 (Spec.preference_filter (Some "keto") default_recommended);
         avoid := firstn 6 default_avoid |}.
Proof.
  assert (Hlen : String.length "flu" < 7) by (cbn; lia).
  split; [exact Hlen|].
  exact (proj1 (X9_short_texts [] "flu" "keto") Hlen).
Defined.

End DietExtras.

Section CompoundingExtras.

Import PyStr Diet.

Lemma filter_idem {A : Type} (f : A -> bool) (l : list A) :
  filter f (filter f l) = filter f l.
Proof.
  induction l as [|x l IH]; simpl; [reflexivity|].
  destruct (f x) eqn:E; simpl; rewrite ?E; congruence.
Qed.

(** X14. The filter is not idempotent on a plan dict: run a second time on
    the same dict it filters the already filtered list and appends the
    additions again, so under "vegetarian" the tofu entry is there twice.
    Only a freshly built table gives the single addition. *)
Theorem X14_filter_twice_compounds :
  forall (h : heap) (sel : nat) (rec0 : list string)
         (preference : option string),
    bound_list h (Loc sel) "recommended" = Some rec0 ->
    exists h2,
      (adjust_preference (Loc sel) preference ;;
       adjust_preference (Loc sel) preference) h = (Ok tt, h2) /\
      bound_list h2 (Loc sel) "recommended"
      = Some (Spec.preference_filter preference
                (Spec.preference_filter preference rec0)) /\
      (forall p, preference = Some p ->
         contains "vegetarian" (lower p) = true ->
         bound_list h2 (Loc sel) "recommended"
         = Some (Spec.drop_then_append [ "chicken"; "fish" ]
                   [ "Plant-based proteins (tofu, tempeh, legumes)";
                     "Plant-based proteins (tofu, tempeh, legumes)" ]
                   rec0)).
Proof.
  intros h sel rec0 preference Hb.
  destruct (adjust_preference_effect _ _ _ preference Hb)
    as (h1 & Hrun1 & Hb1 & _).
  destruct (adjust_preference_effect _ _ _ preference Hb1)
    as (h2 & Hrun2 & Hb2 & _).
  exists h2. split; [|split].
  - now rewrite (bind_ok _ _ _ _ _ Hrun1).
  - exact Hb2.
  - intros p -> Hveg. rewrite Hb2. f_equal.
    unfold Spec.preference_filter. cbv zeta. rewrite Hveg.
    unfold Spec.drop_then_append.
    rewrite filter_app, filter_idem, <- app_assoc. reflexivity.
Qed.

Lemma X14_filter_twice_compounds_witness :
  let h := [ ListObj [ "Grilled fish"; "Rice" ];
             DictObj [ ("recommended", Ref (Loc 0)) ] ] in
  bound_list h (Loc 1) "recommended" = Some [ "Grilled fish"; "Rice" ] /\
  exists h2,
    (adjust_preference (Loc 1) (Some "vegetarian") ;;
     adjust_preference (Loc 1) (Some "vegetarian")) h = (Ok tt, h2) /\
    bound_list h2 (Loc 1) "recommended"
    = Some [ "Rice"; "Plant-based proteins (tofu, tempeh, legumes)";
             "Plant-based proteins (tofu, tempeh, legumes)" ].
Proof.
  intros h.
  assert (Hb : bound_list h (Loc 1) "recommended"
               = Some [ "Grilled fish"; "Rice" ]) by reflexivity.
  split; [exact Hb|].
  destruct (X14_filter_twice_compounds h 1 _ (Some "vegetarian") Hb)
    as (h2 & Hrun & _ & Hveg).
  exists h2. split; [exact Hrun|].
  rewrite (Hveg "vegetarian" eq_refl eq_refl). reflexivity.
Defined.

End CompoundingExtras.

(** ** /generate *)

Section GenerateExtras.

Import PyStr Generate.

Lemma served_templates (lang : string) :
  Spec.templates_of (Spec.served_language lang) = Spec.english_templates
  \/ Spec.templates_of (Spec.served_language lang) = Spec.hindi_templates.
Proof.
  unfold Spec.templates_of.
  destruct (String.eqb (Spec.served_language lang) "hindi"); auto.
Qed.

(** X15. A topic that is not a template key always shows in the content:
    the content starts with "# " and the topic, whatever the language. *)
Theorem X15_content_names_the_topic :
  forall (h : heap) (request : ContentRequest),
    Spec.template_for request.(topic)
      (Spec.templates_of (Spec.served_language request.(language))) = None ->
    exists rest,
      fst (generate_content request h)
      = HTTP200 {| content := ("# " ++ request.(topic) ++ rest)%string |} /\
      contains request.(topic) ("# " ++ request.(topic) ++ rest) = true.
Proof.
  intros h [u t lang] Hkey. cbn [topic language] in *.
  destruct (generate_content_run
              {| username := u; topic := t; language := lang |} h) as [l ->].
  unfold Spec.generated. cbn [fst topic language]. rewrite Hkey.
  destruct (served_templates lang) as [-> | ->].
  - eexists. split; [cbv; reflexivity | apply contains_app].
  - eexists. split; [cbv; reflexivity | apply contains_app].
Qed.

Lemma X15_content_names_the_topic_witness :
  let request := {| username := "asha"; topic := "Sleep";
                    language := "Hindi" |} in
  Spec.template_for request.(topic)
    (Spec.templates_of (Spec.served_language request.(language))) = None /\
  exists rest,
    fst (generate_content request [])
    = HTTP200 {| content := ("# Sleep" ++ rest)%string |}.
Proof.
  intros request.
  assert (Hkey : Spec.template_for request.(topic)
                   (Spec.templates_of
                      (Spec.served_language request.(language))) = None)
    by reflexivity.
  split; [exact Hkey|].
  destruct (X15_content_names_the_topic [] request Hkey) as (rest & Hrun & _).
  exists rest. exact Hrun.
Defined.

(** X16. The key "default" is reachable as a topic: for the topic
    "default" the default template of the served language is returned as
    stored, with its placeholders not filled in: the Hindi one when the
    lower-cased language is "hindi", the English one for every other
    language. *)
Theorem X16_default_topic_is_not_filled :
  forall (h : heap) (u lang : string),
    fst (generate_content
           {| username := u; topic := "default"; language := lang |} h)
    = HTTP200
        {| content :=
             if String.eqb (lower lang) "hindi"
             then template_hindi_default
             else template_english_default |}
    /\ contains "{topic}" template_hindi_default = true
    /\ contains "{topic}" template_english_default = true
    /\ Spec.template_for "default"
         (Spec.templates_of (Spec.served_language lang))
       = Some (if String.eqb (lower lang) "hindi"
               then template_hindi_default
               else template_english_default).
Proof.
  intros h u lang.
  destruct (generate_content_run
              {| username := u; topic := "default"; language := lang |} h)
    as [l ->].
  unfold Spec.generated, Spec.served_language, Spec.templates_of.
  cbn [fst topic language].
  destruct (String.eqb (lower lang) "hindi") eqn:Hh.
  - rewrite orb_true_r, Hh. repeat split; vm_compute; reflexivity.
  - rewrite orb_false_r. destruct (String.eqb (lower lang) "english") eqn:He.
    + rewrite Hh. repeat split; vm_compute; reflexivity.
    + repeat split; vm_compute; reflexivity.
Qed.

End GenerateExtras.
